(** * hugo-site-manager: the site and theme stores of [main.go]

    A shallow embedding of the Go program: the [SiteConfig] data model
    with its struct tags, the constructors [NewThemeStore] and
    [NewSiteStore], [SiteStore.Create], [SiteStore.Find],
    [ThemeStore.Find], [ThemeStore.Fetch], [Build], the two stubs and
    [main], written as a state-passing program over a world made of a
    file system, a heap of [SiteConfig] objects, the log and the list of
    started commands.

    The collaborators the program only calls are kept abstract: the
    external commands ([hugo], [git]) are an oracle, and the TOML library
    is a pair of functions on the tagged fields of a struct.  Both are
    fields of an environment that the methods take as a parameter, so a
    theorem stated for every environment holds for all of their
    behaviours.  The stores are held by value: the caches the
    constructors fill are read by no method, and no method writes to a
    store. *)

From Stdlib Require Import String Ascii ZArith List Permutation.
From stdpp Require Import gmap strings list fin_maps sorting.

Local Open Scope string_scope.
Local Open Scope list_scope.

(** ** Paths: [path/filepath] on a Unix target *)

Module filepath.

(** [strings.Split(s, "/")]: the pieces between separators; never empty. *)
Fixpoint split (s : string) : list string :=
  match s with
  | EmptyString => [EmptyString]
  | String c rest =>
      if Ascii.eqb c "/" then EmptyString :: split rest
      else match split rest with
           | h :: t => String c h :: t
           | [] => [String c EmptyString]
           end
  end.

(** [strings.Join(l, "/")]. *)
Definition join (l : list string) : string := String.concat "/" l.

Definition rooted (path : string) : bool :=
  match path with
  | String c _ => Ascii.eqb c "/"
  | EmptyString => false
  end.

(** One path element against the elements kept so far ([out] is the
    output in reverse).  Rules 1 to 4 of [Clean]: empty elements and [.]
    vanish, an inner [..] removes the element before it, a [..] at the
    start of a rooted path vanishes, other [..] are kept. *)
Definition clean_step (is_rooted : bool) (out : list string) (elem : string)
  : list string :=
  if String.eqb elem "" then out
  else if String.eqb elem "." then out
  else if String.eqb elem ".." then
    match out with
    | top :: below => if String.eqb top ".." then elem :: out else below
    | [] => if is_rooted then [] else [elem]
    end
  else elem :: out.

Definition clean_elems (is_rooted : bool) (elems : list string) : list string :=
  rev (fold_left (clean_step is_rooted) elems []).

(** [filepath.Clean]. *)
Definition Clean (path : string) : string :=
  if String.eqb path "" then "."
  else
    let out := clean_elems (rooted path) (split path) in
    if rooted path then String "/" (join out)
    else match out with
         | [] => "."
         | _ => join out
         end.

(** [filepath.Join]: leading empty elements are dropped, the rest is
    joined with separators and cleaned; no element at all gives [""]. *)
Fixpoint Join (elem : list string) : string :=
  match elem with
  | [] => ""
  | e :: rest => if String.eqb e "" then Join rest else Clean (join elem)
  end.

(** [filepath.Dir]: the path up to its last separator, cleaned. *)
Fixpoint upto_last_sep (s : string) : string :=
  match s with
  | EmptyString => EmptyString
  | String c rest =>
      if existsb (Ascii.eqb "/") (list_ascii_of_string s)
      then String c (upto_last_sep rest)
      else EmptyString
  end.

Definition Dir (path : string) : string := Clean (upto_last_sep path).

End filepath.

(** ** The data model *)

(** [SiteConfig]: the three fields tagged [toml:"-"] first, then the four
    layout fields and the four metadata fields, as declared. *)
Module SiteConfig.

Record t := mk {
  ID : string;
  ThemeURL : string;
  SitePath : string;
  ThemesDir : string;
  ContentDir : string;
  LayoutDir : string;
  PublishDir : string;
  BaseURL : string;
  LanguageCode : string;
  Title : string;
  Theme : string
}.

(** The zero value of the struct ([var config SiteConfig]). *)
Definition zero : t := mk "" "" "" "" "" "" "" "" "" "" "".

Definition set_SitePath (v : string) (c : t) : t :=
  mk (ID c) (ThemeURL c) v (ThemesDir c) (ContentDir c) (LayoutDir c)
     (PublishDir c) (BaseURL c) (LanguageCode c) (Title c) (Theme c).
Definition set_ThemesDir (v : string) (c : t) : t :=
  mk (ID c) (ThemeURL c) (SitePath c) v (ContentDir c) (LayoutDir c)
     (PublishDir c) (BaseURL c) (LanguageCode c) (Title c) (Theme c).
Definition set_ContentDir (v : string) (c : t) : t :=
  mk (ID c) (ThemeURL c) (SitePath c) (ThemesDir c) v (LayoutDir c)
     (PublishDir c) (BaseURL c) (LanguageCode c) (Title c) (Theme c).
Definition set_LayoutDir (v : string) (c : t) : t :=
  mk (ID c) (ThemeURL c) (SitePath c) (ThemesDir c) (ContentDir c) v
     (PublishDir c) (BaseURL c) (LanguageCode c) (Title c) (Theme c).
Definition set_PublishDir (v : string) (c : t) : t :=
  mk (ID c) (ThemeURL c) (SitePath c) (ThemesDir c) (ContentDir c) (LayoutDir c)
     v (BaseURL c) (LanguageCode c) (Title c) (Theme c).
Definition set_BaseURL (v : string) (c : t) : t :=
  mk (ID c) (ThemeURL c) (SitePath c) (ThemesDir c) (ContentDir c) (LayoutDir c)
     (PublishDir c) v (LanguageCode c) (Title c) (Theme c).
Definition set_LanguageCode (v : string) (c : t) : t :=
  mk (ID c) (ThemeURL c) (SitePath c) (ThemesDir c) (ContentDir c) (LayoutDir c)
     (PublishDir c) (BaseURL c) v (Title c) (Theme c).
Definition set_Title (v : string) (c : t) : t :=
  mk (ID c) (ThemeURL c) (SitePath c) (ThemesDir c) (ContentDir c) (LayoutDir c)
     (PublishDir c) (BaseURL c) (LanguageCode c) v (Theme c).
Definition set_Theme (v : string) (c : t) : t :=
  mk (ID c) (ThemeURL c) (SitePath c) (ThemesDir c) (ContentDir c) (LayoutDir c)
     (PublishDir c) (BaseURL c) (LanguageCode c) (Title c) v.

(** What the struct tags show of a config to the TOML library: the
    tagged fields under their tag names, in declaration order.  [ID],
    [ThemeURL] and [SitePath] carry the tag ["-"] and are not listed. *)
Definition toml_fields (c : t) : list (string * string) :=
  [ ("themesDir", ThemesDir c);
    ("contentDir", ContentDir c);
    ("layoutDir", LayoutDir c);
    ("publishDir", PublishDir c);
    ("baseURL", BaseURL c);
    ("languageCode", LanguageCode c);
    ("title", Title c);
    ("theme", Theme c) ].

Definition toml_names : list string :=
  [ "themesDir"; "contentDir"; "layoutDir"; "publishDir";
    "baseURL"; "languageCode"; "title"; "theme" ].

(** The library stores a decoded value into the field whose tag name it
    matched; a name that is no tag of the struct reaches no field. *)
Definition set_field (name v : string) (c : t) : t :=
  if String.eqb name "themesDir" then set_ThemesDir v c
  else if String.eqb name "contentDir" then set_ContentDir v c
  else if String.eqb name "layoutDir" then set_LayoutDir v c
  else if String.eqb name "publishDir" then set_PublishDir v c
  else if String.eqb name "baseURL" then set_BaseURL v c
  else if String.eqb name "languageCode" then set_LanguageCode v c
  else if String.eqb name "title" then set_Title v c
  else if String.eqb name "theme" then set_Theme v c
  else c.

Definition set_fields (kvs : list (string * string)) (c : t) : t :=
  fold_left (fun acc kv => set_field (fst kv) (snd kv) acc) kvs c.

End SiteConfig.

(** [Theme] is an empty struct: a marker that the assets are there. *)
Inductive Theme := mkTheme.

(** Pointers to [SiteConfig] objects: Go's nil or an address in the heap. *)
Inductive ptr := nil_ptr | addr (l : nat).

(** [Site] holds a pointer to its config, not a copy. *)
Module Site.
Record t := mk { Config : ptr }.
End Site.

(** ** Errors *)

Inductive Errno := ENOENT | ENOTDIR | EISDIR | EACCES | ENOTEMPTY | EINVAL | EEXIST.

Definition Errno_msg (e : Errno) : string :=
  match e with
  | ENOENT => "no such file or directory"
  | ENOTDIR => "not a directory"
  | EISDIR => "is a directory"
  | EACCES => "permission denied"
  | ENOTEMPTY => "directory not empty"
  | EINVAL => "invalid argument"
  | EEXIST => "file exists"
  end.

(** The values of Go's [error] interface that reach the program:
    [*os.PathError], [*os.LinkError], [*exec.ExitError] (with the text of
    its process state, such as [exit status 1]), [*exec.Error] and the
    errors of the TOML library. A nil [error] is [None]. *)
Inductive error :=
| PathError (op path : string) (errno : Errno)
| LinkError (op old new : string) (errno : Errno)
| ExitError (state : string)
| ExecError (name msg : string)
| TomlError (msg : string).

(** The [Error()] method. *)
Definition Error (e : error) : string :=
  match e with
  | PathError op path errno => op +:+ " " +:+ path +:+ ": " +:+ Errno_msg errno
  | LinkError op old new errno =>
      op +:+ " " +:+ old +:+ " " +:+ new +:+ ": " +:+ Errno_msg errno
  | ExitError state => state
  | ExecError name msg => "exec: " +:+ name +:+ ": " +:+ msg
  | TomlError msg => msg
  end.

(** ** The file system *)

(** A node is a directory or a regular file; [perm] tells whether the
    process may open it (the program creates everything with mode 0700,
    which it may).  The file system maps the path given to a system call
    to the node there; every path the program builds went through
    [filepath.Join] and is clean. *)
Inductive node :=
| DirNode (perm : bool)
| FileNode (perm : bool) (data : string).

Module os.

(** [ioutil.ReadDir], of which the program keeps only the error: the
    directory must be there and open for reading. *)
Definition ReadDir (fs : gmap string node) (dirname : string) : option error :=
  match fs !! dirname with
  | Some (DirNode true) => None
  | Some (DirNode false) => Some (PathError "open" dirname EACCES)
  | Some (FileNode true _) => Some (PathError "readdirent" dirname ENOTDIR)
  | Some (FileNode false _) => Some (PathError "open" dirname EACCES)
  | None => Some (PathError "open" dirname ENOENT)
  end.

(** [ioutil.ReadFile]. *)
Definition ReadFile (fs : gmap string node) (filename : string) : error + string :=
  match fs !! filename with
  | Some (FileNode true data) => inr data
  | Some (FileNode false _) => inl (PathError "open" filename EACCES)
  | Some (DirNode true) => inl (PathError "read" filename EISDIR)
  | Some (DirNode false) => inl (PathError "open" filename EACCES)
  | None => inl (PathError "open" filename ENOENT)
  end.

(** [ioutil.WriteFile(filename, data, 0700)]: truncates a file that is
    there, creates one in an existing directory otherwise. *)
Definition WriteFile (fs : gmap string node) (filename data : string)
  : gmap string node * option error :=
  match fs !! filename with
  | Some (FileNode true _) => (<[filename := FileNode true data]> fs, None)
  | Some (FileNode false _) => (fs, Some (PathError "open" filename EACCES))
  | Some (DirNode _) => (fs, Some (PathError "open" filename EISDIR))
  | None =>
      match fs !! filepath.Dir filename with
      | Some (DirNode true) => (<[filename := FileNode true data]> fs, None)
      | Some (DirNode false) => (fs, Some (PathError "open" filename EACCES))
      | Some (FileNode _ _) => (fs, Some (PathError "open" filename ENOTDIR))
      | None => (fs, Some (PathError "open" filename ENOENT))
      end
  end.

(** Paths strictly below [dir]. *)
Definition below (dir path : string) : bool := String.prefix (dir +:+ "/") path.

Definition in_tree (dir path : string) : bool :=
  String.eqb dir path || below dir path.

Definition is_empty_dir (fs : gmap string node) (dir : string) : bool :=
  bool_decide (map_Forall (fun k _ => below dir k = false) fs).

(** The subtree at [old] carried over to [new]. *)
Definition move_tree (fs : gmap string node) (old new : string) : gmap string node :=
  let moved := filter (fun kv => in_tree old (fst kv) = true) fs in
  let kept := filter (fun kv => in_tree old (fst kv) = false) fs in
  list_to_map
    (map (fun kv : string * node =>
                (new +:+ String.substring (String.length old)
                                 (String.length (fst kv) - String.length old)
                                 (fst kv), snd kv))
         (map_to_list moved))
  ∪ delete new kept.

(** [os.Rename(oldpath, newpath)]: a file replaces a file, a directory
    moves with what is below it and replaces at most an empty directory. *)
Definition Rename (fs : gmap string node) (oldpath newpath : string)
  : gmap string node * option error :=
  let fail errno := (fs, Some (LinkError "rename" oldpath newpath errno)) in
  match fs !! oldpath with
  | None => fail ENOENT
  | Some (FileNode perm data) =>
      match fs !! newpath with
      | Some (DirNode _) => fail EISDIR
      | Some (FileNode _ _) =>
          (<[newpath := FileNode perm data]> (delete oldpath fs), None)
      | None =>
          match fs !! filepath.Dir newpath with
          | Some (DirNode true) =>
              (<[newpath := FileNode perm data]> (delete oldpath fs), None)
          | Some (DirNode false) => fail EACCES
          | Some (FileNode _ _) => fail ENOTDIR
          | None => fail ENOENT
          end
      end
  | Some (DirNode perm) =>
      if String.eqb oldpath newpath then (fs, None)
      else if below oldpath newpath then fail EINVAL
      else
        match fs !! newpath with
        | Some (FileNode _ _) => fail ENOTDIR
        | Some (DirNode _) =>
            if is_empty_dir fs newpath then (move_tree fs oldpath newpath, None)
            else fail ENOTEMPTY
        | None =>
            match fs !! filepath.Dir newpath with
            | Some (DirNode true) => (move_tree fs oldpath newpath, None)
            | Some (DirNode false) => fail EACCES
            | Some (FileNode _ _) => fail ENOTDIR
            | None => fail ENOENT
            end
        end
  end.

(** [os.Mkdir(name, 0700)]: makes a directory where nothing is, in a
    directory that is there and open to the process. *)
Definition Mkdir (fs : gmap string node) (name : string)
  : gmap string node * option error :=
  match fs !! name with
  | Some _ => (fs, Some (PathError "mkdir" name EEXIST))
  | None =>
      match fs !! filepath.Dir name with
      | Some (DirNode true) => (<[name := DirNode true]> fs, None)
      | Some (DirNode false) => (fs, Some (PathError "mkdir" name EACCES))
      | Some (FileNode _ _) => (fs, Some (PathError "mkdir" name ENOTDIR))
      | None => (fs, Some (PathError "mkdir" name ENOENT))
      end
  end.

(** What is left of [s] after [pre], when [s] starts with it. *)
Fixpoint strip_prefix (pre s : string) : option string :=
  match pre, s with
  | EmptyString, _ => Some s
  | String a pre', String b s' =>
      if Ascii.eqb a b then strip_prefix pre' s' else None
  | String _ _, EmptyString => None
  end.

(** The name under which the node at [path] is an entry of the directory
    [dirname]: [path] is [dirname], a separator and one path element that
    is not [.] or [..]. *)
Definition entry_name (dirname path : string) : option string :=
  match strip_prefix (if String.eqb dirname "/" then "/" else dirname +:+ "/") path with
  | Some name =>
      if negb (String.eqb name "") && negb (String.eqb name ".")
         && negb (String.eqb name "..")
         && forallb (fun c => negb (Ascii.eqb c "/")) (list_ascii_of_string name)
      then Some name
      else None
  | None => None
  end.

(** [ioutil.ReadDir] with the entries it returns, as the list of their
    names: everything in the directory, files and directories alike,
    sorted by name; no entries come with an error. *)
Definition ReadDirNames (fs : gmap string node) (dirname : string)
  : list string * option error :=
  match ReadDir fs dirname with
  | Some e => ([], Some e)
  | None =>
      (merge_sort (fun a b => Is_true (String.leb a b))
         (omap (fun kv => entry_name dirname (fst kv)) (map_to_list fs)),
       None)
  end.

End os.

(** ** External commands *)

Module exec.

(** [exec.Cmd]: the fields the program sets.  [Args] holds the command
    name first, as [exec.Command] builds it; an empty [Dir] runs the
    command in the current directory of the calling process. *)
Record Cmd := mkCmd {
  Path : string;
  Args : list string;
  Dir : string
}.

(** [exec.Command(name, arg...)]: [Dir] is left at its zero value. *)
Definition Command (name : string) (arg : list string) : Cmd :=
  mkCmd name (name :: arg) "".

Definition with_Dir (dir : string) (cmd : Cmd) : Cmd :=
  mkCmd (Path cmd) (Args cmd) dir.

(** What one run of a command leaves: the file system after it, the two
    captured streams and the error of [Run] (nil for exit status 0). *)
Record RunResult := mkRunResult {
  run_fs : gmap string node;
  run_stdout : string;
  run_stderr : string;
  run_err : option error
}.

End exec.

(** ** The environment of the program

    [toml_encode] is the encoder of the TOML library on the tagged fields
    of a struct; [toml_decode] is its decoder, given the tag names of the
    target struct and the text of a file, and returns the values it stores
    and the fields it stores them in, in the order it stores them.
    [exec_run] runs a command: its outcome may depend on the commands
    started before it and on the file system. *)
Record Env := mkEnv {
  toml_encode : list (string * string) -> error + string;
  toml_decode : list string -> string -> error + list (string * string);
  exec_run : exec.Cmd -> list exec.Cmd -> gmap string node -> exec.RunResult
}.

(** ** The world and the state monad of the program *)

(** The three logrus levels the program logs at. *)
Inductive Level := InfoLevel | WarnLevel | ErrorLevel.

Record World := mkWorld {
  fs : gmap string node;
  heap : list SiteConfig.t;
  logs : list (Level * string);
  calls : list exec.Cmd
}.

Definition set_fs (f : gmap string node) (w : World) : World :=
  mkWorld f (heap w) (logs w) (calls w).
Definition set_heap (h : list SiteConfig.t) (w : World) : World :=
  mkWorld (fs w) h (logs w) (calls w).
Definition add_log (l : Level * string) (w : World) : World :=
  mkWorld (fs w) (heap w) (logs w ++ [l]) (calls w).
Definition add_call (c : exec.Cmd) (w : World) : World :=
  mkWorld (fs w) (heap w) (logs w) (calls w ++ [c]).

(** A computation runs on a world and either panics ([None], a nil
    pointer dereference) or gives a value and the world after it. *)
Definition M (A : Type) : Type := World -> option (A * World).

Definition ret {A} (a : A) : M A := fun w => Some (a, w).

Definition bind {A B} (m : M A) (k : A -> M B) : M B :=
  fun w => match m w with
           | Some (a, w') => k a w'
           | None => None
           end.

Declare Scope go_scope.
Delimit Scope go_scope with go.
Notation "x <- m ;; k" := (bind m (fun x => k))
  (at level 100, m at next level, right associativity) : go_scope.
Notation "m ;;; k" := (bind m (fun _ => k))
  (at level 100, right associativity) : go_scope.
Local Open Scope go_scope.

(** Reading through a pointer. *)
Definition deref (p : ptr) : M SiteConfig.t :=
  fun w => match p with
           | nil_ptr => None
           | addr l => match heap w !! l with
                       | Some c => Some (c, w)
                       | None => None
                       end
           end.

(** Assigning to a field through a pointer. *)
Definition update (p : ptr) (f : SiteConfig.t -> SiteConfig.t) : M unit :=
  fun w => match p with
           | nil_ptr => None
           | addr l => match heap w !! l with
                       | Some c => Some (tt, set_heap (<[l := f c]> (heap w)) w)
                       | None => None
                       end
           end.

(** A new object, for a local variable whose address is taken. *)
Definition alloc (c : SiteConfig.t) : M ptr :=
  fun w => Some (addr (length (heap w)), set_heap (heap w ++ [c]) w).

(** logrus. *)
Module log.
Definition Info (msg : string) : M unit := fun w => Some (tt, add_log (InfoLevel, msg) w).
Definition Warning (msg : string) : M unit := fun w => Some (tt, add_log (WarnLevel, msg) w).
Definition Error (msg : string) : M unit := fun w => Some (tt, add_log (ErrorLevel, msg) w).
End log.

Definition ReadDir (dirname : string) : M (option error) :=
  fun w => Some (os.ReadDir (fs w) dirname, w).

Definition ReadFile (filename : string) : M (error + string) :=
  fun w => Some (os.ReadFile (fs w) filename, w).

Definition WriteFile (filename data : string) : M (option error) :=
  fun w => let r := os.WriteFile (fs w) filename data in
           Some (snd r, set_fs (fst r) w).

Definition Rename (oldpath newpath : string) : M (option error) :=
  fun w => let r := os.Rename (fs w) oldpath newpath in
           Some (snd r, set_fs (fst r) w).

Definition ReadDirNames (dirname : string) : M (list string * option error) :=
  fun w => Some (os.ReadDirNames (fs w) dirname, w).

Definition Mkdir (name : string) : M (option error) :=
  fun w => let r := os.Mkdir (fs w) name in
           Some (snd r, set_fs (fst r) w).

(** A nil pointer dereference. *)
Definition panic {A} : M A := fun _ => None.

Section Program.

Variable env : Env.

(** [cmd.Run()] with [cmd.Stdout] and [cmd.Stderr] set to buffers: gives
    the contents of the two buffers and the error. *)
Definition Run (cmd : exec.Cmd) : M (string * string * option error) :=
  fun w =>
    let r := exec_run env cmd (calls w) (fs w) in
    Some ((exec.run_stdout r, exec.run_stderr r, exec.run_err r),
          set_fs (exec.run_fs r) (add_call cmd w)).

(** [toml.NewEncoder(buf).Encode(site.Config)]: reads the config through
    the pointer and gives the bytes of the buffer. *)
Definition Encode (p : ptr) : M (error + string) :=
  c <- deref p ;;
  ret (toml_encode env (SiteConfig.toml_fields c)).

(** [toml.DecodeFile(fpath, v)]: reads the file, decodes it and stores
    the decoded values through [v].  What a failing decoder has stored
    before it fails is not kept: [Find], its one caller, drops the object
    then. *)
Definition DecodeFile (fpath : string) (v : ptr) : M (option error) :=
  bs <- ReadFile fpath ;;
  match bs with
  | inl err => ret (Some err)
  | inr text =>
      match toml_decode env SiteConfig.toml_names text with
      | inl err => ret (Some err)
      | inr kvs => update v (SiteConfig.set_fields kvs) ;;; ret None
      end
  end.

End Program.

Definition defaultSiteStorePath : string := "/tmp/sites".
Definition defaultThemeStorePath : string := "/tmp/themes".

(** ** [ThemeStore] *)

Module ThemeStore.

Record t := mk {
  Themes : gmap string Theme;
  StorePath : string
}.

Section Methods.

Variable env : Env.

(** [func (s *ThemeStore) Find(name string) (theme *Theme)] *)
Definition Find (s : t) (name : string) : M (option Theme) :=
  let themePath := filepath.Join [StorePath s; name] in
  err <- ReadDir themePath ;;
  match err with
  | Some _ => ret None
  | None => ret (Some mkTheme)
  end.

(** The command line of [Fetch]. *)
Definition clone_cmd (url themePath : string) : exec.Cmd :=
  exec.Command "git" ["clone"; url; themePath].

(** [func (s *ThemeStore) Fetch(name string, url string) (theme *Theme, err error)] *)
Definition Fetch (s : t) (name url : string) : M (option Theme * option error) :=
  let themePath := filepath.Join [StorePath s; name] in
  let cmd := clone_cmd url themePath in
  r <- Run env cmd ;;
  let '(stdout, stderr, err) := r in
  match err with
  | Some e => log.Error stderr ;;; ret (None, Some e)
  | None => ret (Some mkTheme, None)
  end.

End Methods.

End ThemeStore.

(** ** [Site] *)

Section SiteMethods.

Variable env : Env.

(** [func (s *Site) Build() (err error)] *)
Definition Build (s : Site.t) : M (option error) :=
  c <- deref (Site.Config s) ;;
  let cmd := exec.with_Dir (SiteConfig.SitePath c) (exec.Command "hugo" []) in
  r <- Run env cmd ;;
  let '(stdout, stderr, err) := r in
  match err with
  | Some e => log.Error stderr ;;; ret (Some e)
  | None => log.Info stdout ;;; ret None
  end.

End SiteMethods.

(** ** [SiteStore] *)

Module SiteStore.

(** The [ThemeStore] field is a pointer in the source; no method writes
    to a store, so the store is held by value. *)
Record t := mk {
  Sites : gmap string Site.t;
  SitePath : string;
  ThemeStore : ThemeStore.t
}.

Section Methods.

Variable env : Env.

(** The command line of the scaffold step of [Create]. *)
Definition scaffold_cmd (configPath id : string) : exec.Cmd :=
  exec.Command "hugo" ["new"; "--config"; configPath; id].

(** Lines 87 to 102 of [Create]: theme resolution.  [Some r] is an early
    [return r]; [None] goes on to the next statement.  The named result
    [err] has not been assigned when the empty [ThemeURL] is found, so
    that [return nil, err] returns a nil error. *)
Definition resolve_theme (s : t) (site : Site.t)
  : M (option (option Site.t * option error)) :=
  c <- deref (Site.Config site) ;;
  theme <- ThemeStore.Find (ThemeStore s) (SiteConfig.Theme c) ;;
  match theme with
  | Some _ => ret None
  | None =>
      c <- deref (Site.Config site) ;;
      log.Error ("Theme '" +:+ SiteConfig.Theme c +:+ "' doesn't exist!") ;;;
      c <- deref (Site.Config site) ;;
      if String.eqb (SiteConfig.ThemeURL c) "" then
        log.Error "No theme URL specified, aborting!" ;;;
        ret (Some (None, None))
      else
        log.Info ("Fetching theme '" +:+ SiteConfig.Theme c +:+ "'") ;;;
        r <- ThemeStore.Fetch env (ThemeStore s) (SiteConfig.Theme c)
                              (SiteConfig.ThemeURL c) ;;
        match snd r with
        | Some e =>
            log.Info ("Couldn't fetch theme: " +:+ Error e) ;;;
            ret (Some (None, Some e))
        | None =>
            log.Info "Done fetching theme." ;;;
            ret None
        end
  end.

(** Lines 104 to 111 of [Create]: the layout fields, assigned through
    the caller's pointer.  Gives [sitePath]. *)
Definition compute_layout (s : t) (site : Site.t) (config : ptr) : M string :=
  c <- deref (Site.Config site) ;;
  let sitePath := filepath.Join [SitePath s; SiteConfig.ID c] in
  update config (SiteConfig.set_ThemesDir (ThemeStore.StorePath (ThemeStore s))) ;;;
  update config (SiteConfig.set_ContentDir (filepath.Join [sitePath; "content"])) ;;;
  update config (SiteConfig.set_LayoutDir (filepath.Join [sitePath; "layout"])) ;;;
  update config (SiteConfig.set_PublishDir (filepath.Join [sitePath; "public"])) ;;;
  update config (SiteConfig.set_SitePath sitePath) ;;;
  ret sitePath.

(** Lines 113 to 145 of [Create]: the config is encoded and written,
    the site is scaffolded and the config file moved into it.  The result
    of [os.Rename] is dropped. *)
Definition persist_and_scaffold (s : t) (site : Site.t)
  : M (option Site.t * option error) :=
  enc <- Encode env (Site.Config site) ;;
  match enc with
  | inl e => ret (None, Some e)
  | inr buf =>
      c <- deref (Site.Config site) ;;
      let configFilename := SiteConfig.ID c +:+ ".toml" in
      let configPath := filepath.Join [SitePath s; configFilename] in
      err <- WriteFile configPath buf ;;
      match err with
      | Some e => ret (None, Some e)
      | None =>
          let cmd := scaffold_cmd configPath (SiteConfig.ID c) in
          r <- Run env cmd ;;
          let '(stdout, stderr, err) := r in
          match err with
          | Some e => log.Error stderr ;;; ret (None, Some e)
          | None =>
              log.Info "Output:" ;;;
              log.Info stdout ;;;
              c <- deref (Site.Config site) ;;
              let newConfigPath :=
                filepath.Join [SitePath s; SiteConfig.ID c; "config.toml"] in
              Rename configPath newConfigPath ;;;
              ret (Some site, None)
          end
      end
  end.

(** [func (s *SiteStore) Create(config *SiteConfig) (site *Site, err error)] *)
Definition Create (s : t) (config : ptr) : M (option Site.t * option error) :=
  let site := Site.mk config in
  early <- resolve_theme s site ;;
  match early with
  | Some r => ret r
  | None =>
      compute_layout s site config ;;;
      persist_and_scaffold s site
  end.

(** [func (s *SiteStore) Find(id string) (site *Site)] *)
Definition Find (s : t) (id : string) : M (option Site.t) :=
  let sitePath := filepath.Join [SitePath s; id] in
  err <- ReadDir sitePath ;;
  match err with
  | Some _ =>
      log.Error ("Site path '" +:+ sitePath +:+ "' doesn't exist") ;;;
      ret None
  | None =>
      let configPath := filepath.Join [sitePath; "config.toml"] in
      config <- alloc SiteConfig.zero ;;
      err <- DecodeFile env configPath config ;;
      match err with
      | Some e =>
          log.Error ("Couldn't decode TOML! " +:+ Error e) ;;;
          ret None
      | None =>
          update config (SiteConfig.set_SitePath sitePath) ;;;
          ret (Some (Site.mk config))
      end
  end.

End Methods.

End SiteStore.

(** ** The constructors, the stubs and [main] *)

(** [func NewThemeStore() *ThemeStore]: the cache gets one entry for each
    entry of the store directory; the result of [os.Mkdir] is dropped. *)
Definition NewThemeStore : M ThemeStore.t :=
  log.Info "Initializing the theme store." ;;;
  let themeStore := ThemeStore.mk ∅ defaultThemeStorePath in
  r <- ReadDirNames (ThemeStore.StorePath themeStore) ;;
  let '(dirs, err) := r in
  match err with
  | Some _ =>
      log.Warning "Theme store path doesn't exist, creating." ;;;
      Mkdir (ThemeStore.StorePath themeStore) ;;;
      ret tt
  | None => ret tt
  end ;;;
  let themeStore :=
    fold_left (fun ts d => ThemeStore.mk (<[d := mkTheme]> (ThemeStore.Themes ts))
                                         (ThemeStore.StorePath ts))
              dirs themeStore in
  (if Nat.eqb (length dirs) 0 then log.Info "No themes found." else ret tt) ;;;
  ret themeStore.

(** [func NewSiteStore(themeStore *ThemeStore) *SiteStore] *)
Definition NewSiteStore (themeStore : ThemeStore.t) : M SiteStore.t :=
  let siteStore := SiteStore.mk ∅ defaultSiteStorePath themeStore in
  err <- ReadDir (SiteStore.SitePath siteStore) ;;
  match err with
  | Some _ =>
      log.Warning "Site store path doesn't exist, creating." ;;;
      Mkdir (SiteStore.SitePath siteStore) ;;;
      ret tt
  | None => ret tt
  end ;;;
  ret siteStore.

(** [func (s *Site) Render() (err error)] *)
Definition Render (s : option Site.t) : M (option error) := ret None.

(** [func (s *Site) GenerateBundle() ([]byte, error)] *)
Definition GenerateBundle (s : option Site.t) : M (string * option error) :=
  ret ("", None).

Section Main.

Variable env : Env.

(** [func main()].  The call of [Create] is commented out in the source.
    [Find] gives a [*Site] that may be nil, and [Build] reads [s.Config]
    through it, after [exec.Command] and before the command is run: on a
    nil [*Site] it panics.  The error of [Build] is dropped. *)
Definition main : M unit :=
  log.Info "Hugo Site Manager" ;;;
  log.Info "Initializing the stores" ;;;
  themeStore <- NewThemeStore ;;
  siteStore <- NewSiteStore themeStore ;;
  log.Info "Creating a sample site" ;;;
  siteConfig <- alloc (SiteConfig.mk "myorgid"
                         "https://github.com/budparr/gohugo-theme-ananke.git" ""
                         "" "" "" "" "http://localhost" "en-us" "Test Site" "ananke") ;;
  c <- deref siteConfig ;;
  site <- SiteStore.Find env siteStore (SiteConfig.ID c) ;;
  match site with
  | Some s => Build env s ;;; ret tt
  | None => panic
  end.

End Main.

(** ** Definitions used to state the properties *)

Definition is_dir_node (n : option node) : bool :=
  match n with
  | Some (DirNode _) => true
  | _ => false
  end.

(** The config after lines 106 to 111 of [Create]. *)
Definition laid_out (s : SiteStore.t) (c : SiteConfig.t) : SiteConfig.t :=
  let sitePath := filepath.Join [SiteStore.SitePath s; SiteConfig.ID c] in
  SiteConfig.set_SitePath sitePath
    (SiteConfig.set_PublishDir (filepath.Join [sitePath; "public"])
      (SiteConfig.set_LayoutDir (filepath.Join [sitePath; "layout"])
        (SiteConfig.set_ContentDir (filepath.Join [sitePath; "content"])
          (SiteConfig.set_ThemesDir
             (ThemeStore.StorePath (SiteStore.ThemeStore s)) c)))).

(** The staged config file of [Create] and the config file [Find] reads. *)
Definition staged_path (s : SiteStore.t) (id : string) : string :=
  filepath.Join [SiteStore.SitePath s; id +:+ ".toml"].

Definition config_path (s : SiteStore.t) (id : string) : string :=
  filepath.Join [filepath.Join [SiteStore.SitePath s; id]; "config.toml"].

Definition no_sep (t : string) : bool :=
  forallb (fun c => negb (Ascii.eqb c "/")) (list_ascii_of_string t).

(** A name that is one path element: not empty, not [.] or [..], and
    without a separator. *)
Definition plain_name (t : string) : bool :=
  negb (String.eqb t "") && negb (String.eqb t ".") && negb (String.eqb t "..")
  && no_sep t.

(** A store root that is an absolute, clean path other than [/]. *)
Definition clean_root (root : string) : bool :=
  filepath.rooted root && String.eqb (filepath.Clean root) root
  && negb (String.eqb root "/").

(** The elements that [Clean] has kept of a path, the last one first. *)
Definition stack (p : string) : list string :=
  fold_left (filepath.clean_step (filepath.rooted p)) (filepath.split p) [].

(** What [stack] can hold: names of one element, above the [..] that a
    relative path starts with. *)
Fixpoint canon (r : bool) (out : list string) : bool :=
  match out with
  | [] => true
  | e :: below =>
      if String.eqb e ".." then negb r && forallb (String.eqb "..") below
      else plain_name e && canon r below
  end.

(** The path of an entry of a directory. *)
Definition entry_path (dirname name : string) : string :=
  (if String.eqb dirname "/" then "/" else dirname +:+ "/") +:+ name.

(** What a constructor does to the disk at its root: nothing when the
    root can be read, [os.Mkdir] with its result dropped otherwise. *)
Definition ensured (d : gmap string node) (root : string) : gmap string node :=
  match os.ReadDir d root with
  | None => d
  | Some _ => fst (os.Mkdir d root)
  end.

(** What a config keeps when it goes through its tagged fields. *)
Definition persisted (c : SiteConfig.t) : SiteConfig.t :=
  SiteConfig.mk "" "" "" (SiteConfig.ThemesDir c) (SiteConfig.ContentDir c)
    (SiteConfig.LayoutDir c) (SiteConfig.PublishDir c) (SiteConfig.BaseURL c)
    (SiteConfig.LanguageCode c) (SiteConfig.Title c) (SiteConfig.Theme c).

(** A library whose decoder returns, in some order, the tagged fields
    its encoder was given. *)
Definition decodes_what_it_encoded (env : Env) : Prop :=
  forall c text,
    toml_encode env (SiteConfig.toml_fields c) = inr text ->
    exists kvs,
      toml_decode env SiteConfig.toml_names text = inr kvs /\
      Permutation kvs (SiteConfig.toml_fields c).




(** The directory [ThemeStore.Find] looks at for the theme of a config. *)
Definition theme_path (s : SiteStore.t) (c : SiteConfig.t) : string :=
  filepath.Join [ThemeStore.StorePath (SiteStore.ThemeStore s); SiteConfig.Theme c].

(** The run of [git clone] that [Create] starts in world [w] when the
    theme of [c] is not found and [c] has a [ThemeURL]; the world when the
    run has returned. *)
Definition fetch_run (env : Env) (s : SiteStore.t) (c : SiteConfig.t) (w : World)
  : exec.RunResult :=
  exec_run env (ThemeStore.clone_cmd (SiteConfig.ThemeURL c) (theme_path s c))
           (calls w) (fs w).

Definition after_fetch (env : Env) (s : SiteStore.t) (c : SiteConfig.t) (w : World)
  : World :=
  set_fs (exec.run_fs (fetch_run env s c w))
    (add_call (ThemeStore.clone_cmd (SiteConfig.ThemeURL c) (theme_path s c))
      (add_log (InfoLevel, "Fetching theme '" +:+ SiteConfig.Theme c +:+ "'")
        (add_log (ErrorLevel, "Theme '" +:+ SiteConfig.Theme c +:+ "' doesn't exist!")
           w))).

(** The run of [hugo new] that [Create] starts in world [w] once [buf] is
    written to the staged file; the world when the run has returned. *)
Definition scaffold_run (env : Env) (s : SiteStore.t) (c : SiteConfig.t)
  (buf : string) (w : World) : exec.RunResult :=
  exec_run env (SiteStore.scaffold_cmd (staged_path s (SiteConfig.ID c)) (SiteConfig.ID c))
           (calls w)
           (fst (os.WriteFile (fs w) (staged_path s (SiteConfig.ID c)) buf)).

Definition after_scaffold (env : Env) (s : SiteStore.t) (c : SiteConfig.t)
  (buf : string) (w : World) : World :=
  set_fs (exec.run_fs (scaffold_run env s c buf w))
    (add_call (SiteStore.scaffold_cmd (staged_path s (SiteConfig.ID c)) (SiteConfig.ID c))
       w).

(** The world [Create] leaves when the scaffold run succeeded: the output
    is logged and the staged file renamed. *)
Definition after_relocation (env : Env) (s : SiteStore.t) (c : SiteConfig.t)
  (buf : string) (w : World) : World :=
  let r := scaffold_run env s c buf w in
  set_fs (fst (os.Rename (exec.run_fs r) (staged_path s (SiteConfig.ID c))
                 (filepath.Join [SiteStore.SitePath s; SiteConfig.ID c; "config.toml"])))
    (add_log (InfoLevel, exec.run_stdout r)
       (add_log (InfoLevel, "Output:") (after_scaffold env s c buf w))).


(** A subdirectory named [t] directly below the directory [root]. *)
Definition has_subdir (d : gmap string node) (root t : string) : bool :=
  negb (String.eqb t "") && no_sep t && is_dir_node (d !! (root +:+ "/" +:+ t)).

(** ** A reference environment

    One concrete TOML text layer and one scripted engine, to run the
    program on concrete worlds.  The text layer writes and reads the flat
    tables the program persists: one line [key = "value"] per field, with
    the quote, the backslash, the newline, the tab and the carriage return
    of a value escaped. *)
Module Ref.

Definition dquote : ascii := Eval cbv in ascii_of_nat 34.
Definition LF : ascii := Eval cbv in ascii_of_nat 10.
Definition TAB : ascii := Eval cbv in ascii_of_nat 9.
Definition CR : ascii := Eval cbv in ascii_of_nat 13.

Fixpoint escape (s : string) : string :=
  match s with
  | EmptyString => EmptyString
  | String c rest =>
      if Ascii.eqb c dquote then String "\" (String dquote (escape rest))
      else if Ascii.eqb c "\" then String "\" (String "\" (escape rest))
      else if Ascii.eqb c LF then String "\" (String "n" (escape rest))
      else if Ascii.eqb c TAB then String "\" (String "t" (escape rest))
      else if Ascii.eqb c CR then String "\" (String "r" (escape rest))
      else String c (escape rest)
  end.

Definition line (kv : string * string) : string :=
  fst kv +:+ " = " +:+ String dquote (escape (snd kv))
         +:+ String dquote (String LF EmptyString).

Definition encode (kvs : list (string * string)) : error + string :=
  inr (String.concat "" (map line kvs)).

Definition unescape_char (c : ascii) : option ascii :=
  if Ascii.eqb c dquote then Some dquote
  else if Ascii.eqb c "\" then Some "\"%char
  else if Ascii.eqb c "n" then Some LF
  else if Ascii.eqb c "t" then Some TAB
  else if Ascii.eqb c "r" then Some CR
  else None.

(** The value of a basic string, read after its opening quote; nothing
    may follow the closing quote. *)
Fixpoint unquote (s : string) : option string :=
  match s with
  | EmptyString => None
  | String c rest =>
      if Ascii.eqb c dquote then
        match rest with
        | EmptyString => Some EmptyString
        | String _ _ => None
        end
      else if Ascii.eqb c "\" then
        match rest with
        | String e rest' =>
            match unescape_char e, unquote rest' with
            | Some c', Some v => Some (String c' v)
            | _, _ => None
            end
        | EmptyString => None
        end
      else
        match unquote rest with
        | Some v => Some (String c v)
        | None => None
        end
  end.

(** The key of a line: what stands before the first space. *)
Fixpoint take_key (s : string) : string * string :=
  match s with
  | EmptyString => (EmptyString, EmptyString)
  | String c rest =>
      if Ascii.eqb c " " then (EmptyString, s)
      else let kr := take_key rest in (String c (fst kr), snd kr)
  end.

Definition parse_line (l : string) : option (string * string) :=
  let kr := take_key l in
  match snd kr with
  | String sp (String eq (String sp' (String q rest))) =>
      if Ascii.eqb sp " " && Ascii.eqb eq "=" && Ascii.eqb sp' " "
         && Ascii.eqb q dquote
      then match unquote rest with
           | Some v => Some (fst kr, v)
           | None => None
           end
      else None
  | _ => None
  end.

Fixpoint lines (s : string) : list string :=
  match s with
  | EmptyString => [EmptyString]
  | String c rest =>
      if Ascii.eqb c LF then EmptyString :: lines rest
      else match lines rest with
           | h :: t => String c h :: t
           | [] => [String c EmptyString]
           end
  end.

Fixpoint parse_lines (names : list string) (ls : list string)
  : error + list (string * string) :=
  match ls with
  | [] => inr []
  | l :: rest =>
      if String.eqb l "" then parse_lines names rest
      else match parse_line l with
           | None => inl (TomlError ("cannot parse line: " +:+ l))
           | Some kv =>
               match parse_lines names rest with
               | inl e => inl e
               | inr kvs =>
                   if existsb (String.eqb (fst kv)) names
                   then inr (kv :: kvs) else inr kvs
               end
           end
  end.

Definition decode (names : list string) (text : string)
  : error + list (string * string) :=
  parse_lines names (lines text).

(** A key that can be written bare: without a space or a newline. *)
Definition bare_key (k : string) : bool :=
  forallb (fun c => negb (Ascii.eqb c " ") && negb (Ascii.eqb c LF))
          (list_ascii_of_string k).

(** A line without its newline. *)
Definition body (kv : string * string) : string :=
  fst kv +:+ " = " +:+ String dquote (escape (snd kv) +:+ String dquote EmptyString).

Definition no_LF (s : string) : bool :=
  forallb (fun c => negb (Ascii.eqb c LF)) (list_ascii_of_string s).

(** Creates a directory where nothing is. *)
Definition mkdir_absent (p : string) (fs : gmap string node) : gmap string node :=
  match fs !! p with
  | None => <[p := DirNode true]> fs
  | Some _ => fs
  end.

Definition is_clone (cmd : exec.Cmd) : option string :=
  match exec.Args cmd with
  | [g; c; _; path] =>
      if String.eqb g "git" && String.eqb c "clone" then Some path else None
  | _ => None
  end.

Definition is_scaffold (cmd : exec.Cmd) : option string :=
  match exec.Args cmd with
  | [h; n; o; _; id] =>
      if String.eqb h "hugo" && String.eqb n "new" && String.eqb o "--config"
      then Some id else None
  | _ => None
  end.

(** A scripted engine.  [git clone] makes the destination directory, or
    fails when [git_ok] is off or the destination is there; [hugo new]
    makes the site directory and its three subdirectories below the
    working directory of the command ([cwd] when [Dir] is empty), or fails
    when [hugo_ok] is off.  Neither touches a node that is there. *)
Definition run (cwd : string) (git_ok hugo_ok : bool)
  (cmd : exec.Cmd) (history : list exec.Cmd) (fs : gmap string node)
  : exec.RunResult :=
  match is_clone cmd, is_scaffold cmd with
  | Some path, _ =>
      if git_ok
      then match fs !! path with
           | None => exec.mkRunResult (<[path := DirNode true]> fs) "" "Cloning." None
           | Some _ => exec.mkRunResult fs "" "fatal: destination path already exists"
                                        (Some (ExitError "exit status 128"))
           end
      else exec.mkRunResult fs "" "fatal: repository not found"
                            (Some (ExitError "exit status 128"))
  | None, Some id =>
      if hugo_ok
      then
        let wd := if String.eqb (exec.Dir cmd) "" then cwd else exec.Dir cmd in
        let site := filepath.Join [wd; id] in
        exec.mkRunResult
          (mkdir_absent (filepath.Join [site; "public"])
            (mkdir_absent (filepath.Join [site; "layout"])
              (mkdir_absent (filepath.Join [site; "content"])
                (mkdir_absent site fs))))
          "Site created." "" None
      else exec.mkRunResult fs "" "Error: unable to create the site"
                            (Some (ExitError "exit status 255"))
  | None, None =>
      exec.mkRunResult fs "" ""
        (Some (ExecError (exec.Path cmd) "executable file not found in $PATH"))
  end.

Definition env (cwd : string) (git_ok hugo_ok : bool) : Env :=
  mkEnv encode decode (run cwd git_ok hugo_ok).

(** The sample of [main]: the stores at their default roots and the
    config of the sample site. *)
Definition themes : ThemeStore.t := ThemeStore.mk ∅ defaultThemeStorePath.
Definition sites : SiteStore.t := SiteStore.mk ∅ defaultSiteStorePath themes.

Definition siteConfig : SiteConfig.t :=
  SiteConfig.mk "myorgid" "https://github.com/budparr/gohugo-theme-ananke.git" ""
    "" "" "" "" "http://localhost" "en-us" "Test Site" "ananke".

(** The sample config without a [ThemeURL]. *)
Definition siteConfig_no_url : SiteConfig.t :=
  SiteConfig.mk "myorgid" "" ""
    "" "" "" "" "http://localhost" "en-us" "Test Site" "ananke".

(** The sample config as a lookup gives it back: without ID and
    [ThemeURL]. *)
Definition siteConfig_no_ID : SiteConfig.t :=
  SiteConfig.mk "" "" ""
    "" "" "" "" "http://localhost" "en-us" "Test Site" "ananke".


Definition disk : gmap string node :=
  {[ "/tmp" := DirNode true;
     "/tmp/sites" := DirNode true;
     "/tmp/themes" := DirNode true ]}.

Definition world (c : SiteConfig.t) (d : gmap string node) : World :=
  mkWorld d [c] [] [].

(** A disk with a theme directory that cannot be read. *)
Definition disk_locked : gmap string node :=
  <["/tmp/themes/locked" := DirNode false]> disk.

(** A disk with a site whose config file holds layout fields that differ
    from the ones [Create] computes. *)
Definition stale_text : string :=
  String.concat ""
    (map line [("themesDir", "/elsewhere/themes");
               ("contentDir", "/stale/content");
               ("layoutDir", "/stale/layout");
               ("publishDir", "/stale/public");
               ("title", "Stale")]).

Definition disk_stale : gmap string node :=
  <["/tmp/sites/acme/config.toml" := FileNode true stale_text]>
    (<["/tmp/sites/acme" := DirNode true]> disk).

(** A disk with a config file next to the store roots. *)
Definition disk_above : gmap string node :=
  <["/tmp/config.toml" := FileNode true stale_text]> disk.


(** A disk with a theme, a regular file and a closed directory in the
    theme store. *)
Definition disk_themes : gmap string node :=
  <["/tmp/themes/ananke" := DirNode true]>
    (<["/tmp/themes/README" := FileNode true "themes"]>
       (<["/tmp/themes/locked" := DirNode false]> disk)).

(** The text of the sample config, and a world where a file holds it
    and the heap holds one zero config to decode into. *)
Definition sample_text : string :=
  Eval vm_compute in String.concat "" (map line (SiteConfig.toml_fields siteConfig)).

Definition decode_world : World :=
  mkWorld (<["/tmp/sites/myorgid.toml" := FileNode true sample_text]> disk)
          [SiteConfig.zero] [] [].

Definition fresh_world : World := world siteConfig disk.

(** A disk with the site of the sample on it, and one with nothing but
    [/tmp]. *)
Definition disk_site : gmap string node :=
  <["/tmp/sites/myorgid/config.toml" := FileNode true sample_text]>
    (<["/tmp/sites/myorgid" := DirNode true]> disk).

Definition disk_bare : gmap string node := {[ "/tmp" := DirNode true ]}.

(** The world in which [main] starts. *)
Definition start (d : gmap string node) : World := mkWorld d [] [] [].

(** The engine run from the site-store root; the same with a failing
    [hugo]; the same with a failing [git]; the engine run from another
    directory. *)
Definition env_ok : Env := env defaultSiteStorePath true true.
Definition env_hugo_fails : Env := env defaultSiteStorePath true false.
Definition env_git_fails : Env := env defaultSiteStorePath false true.
Definition env_elsewhere : Env := env "/home/user" true true.

End Ref.

(** * Properties *)

(** ** Strings and paths *)

Lemma append_cons x a b : String x a +:+ b = String x (a +:+ b).
Proof. reflexivity. Qed.

Lemma append_assoc (a b c : string) : (a +:+ b) +:+ c = a +:+ b +:+ c.
Proof.
  induction a as [|x a IH]; [reflexivity|].
  rewrite !append_cons. now f_equal.
Qed.

Lemma append_length (a b : string) :
  String.length (a +:+ b) = String.length a + String.length b.
Proof.
  induction a as [|x a IH]; [reflexivity|].
  rewrite append_cons. simpl. now rewrite IH.
Qed.

Lemma append_neq_self (a b : string) : b <> "" -> a +:+ b <> a.
Proof.
  intros Hb E. apply (f_equal String.length) in E.
  rewrite append_length in E. destruct b; [congruence|simpl in E; lia].
Qed.

Lemma split_nonempty s : filepath.split s <> [].
Proof.
  destruct s as [|c s]; simpl; [discriminate|].
  destruct (Ascii.eqb c "/"); [discriminate|].
  destruct (filepath.split s); discriminate.
Qed.

Lemma split_app_sep a b :
  filepath.split (a +:+ String "/" b) = filepath.split a ++ filepath.split b.
Proof.
  induction a as [|c a IH]; [reflexivity|].
  rewrite append_cons. simpl.
  destruct (Ascii.eqb c "/"); [now rewrite IH|].
  rewrite IH. destruct (filepath.split a) eqn:E; [now apply split_nonempty in E|].
  reflexivity.
Qed.

Lemma split_no_sep t : no_sep t = true -> filepath.split t = [t].
Proof.
  unfold no_sep. induction t as [|c t IH]; simpl; [reflexivity|].
  intros H. apply andb_true_iff in H as [Hc Ht].
  apply negb_true_iff in Hc. rewrite Hc, (IH Ht). reflexivity.
Qed.

Lemma plain_name_spec t :
  plain_name t = true -> t <> "" /\ t <> "." /\ t <> ".." /\ no_sep t = true.
Proof.
  unfold plain_name. rewrite !andb_true_iff, !negb_true_iff, !String.eqb_neq.
  tauto.
Qed.

Lemma clean_step_plain r out t :
  plain_name t = true -> filepath.clean_step r out t = t :: out.
Proof.
  intros H. apply plain_name_spec in H as (H1 & H2 & H3 & _).
  unfold filepath.clean_step.
  apply String.eqb_neq in H1, H2, H3. now rewrite H1, H2, H3.
Qed.

Lemma clean_elems_snoc r l t :
  plain_name t = true ->
  filepath.clean_elems r (l ++ [t]) = filepath.clean_elems r l ++ [t].
Proof.
  intros H. unfold filepath.clean_elems.
  rewrite fold_left_app. simpl. now rewrite clean_step_plain.
Qed.

Lemma clean_elems_snoc_empty r l :
  filepath.clean_elems r (l ++ [""]) = filepath.clean_elems r l.
Proof. unfold filepath.clean_elems. now rewrite fold_left_app. Qed.

Lemma join_snoc l t :
  l <> [] -> filepath.join (l ++ [t]) = filepath.join l +:+ String "/" t.
Proof.
  unfold filepath.join. induction l as [|x l IH]; [congruence|]. intros _.
  destruct l as [|y l]; [reflexivity|].
  change (String.concat "/" ((x :: y :: l) ++ [t]))
    with (x +:+ "/" +:+ String.concat "/" ((y :: l) ++ [t])).
  rewrite IH by discriminate.
  change (String.concat "/" (x :: y :: l))
    with (x +:+ "/" +:+ String.concat "/" (y :: l)).
  now rewrite !append_assoc.
Qed.

Lemma rooted_app a b : a <> "" -> filepath.rooted (a +:+ b) = filepath.rooted a.
Proof. destruct a; [congruence|reflexivity]. Qed.

Lemma clean_root_spec root :
  clean_root root = true ->
  root <> "" /\ root <> "/" /\ filepath.rooted root = true /\
  filepath.clean_elems true (filepath.split root) <> [] /\
  root = String "/" (filepath.join (filepath.clean_elems true (filepath.split root))).
Proof.
  unfold clean_root. rewrite !andb_true_iff, negb_true_iff, String.eqb_neq, String.eqb_eq.
  intros [[Hr Hc] Hne].
  assert (root <> "") as Hnil by (intros ->; discriminate).
  unfold filepath.Clean in Hc. apply String.eqb_neq in Hnil as Hnil'.
  rewrite Hnil', Hr in Hc.
  repeat split; auto.
  intros E. rewrite E in Hc. apply Hne. now rewrite <- Hc.
Qed.

(** Below a clean absolute root, joining a plain name appends it. *)
Lemma Clean_child root t :
  clean_root root = true -> plain_name t = true ->
  filepath.Clean (root +:+ String "/" t) = root +:+ String "/" t.
Proof.
  intros Hroot Ht. destruct (clean_root_spec _ Hroot) as (Hnil & Hne & Hr & Hout & Heq).
  destruct (plain_name_spec _ Ht) as (_ & _ & _ & Hsep).
  unfold filepath.Clean.
  assert (root +:+ String "/" t <> "") as Hn.
  { clear -Hnil. destruct root; [congruence|discriminate]. }
  apply String.eqb_neq in Hn. rewrite Hn.
  rewrite rooted_app, Hr by assumption.
  rewrite split_app_sep, (split_no_sep _ Hsep), clean_elems_snoc by assumption.
  rewrite join_snoc by assumption.
  rewrite <- append_cons. now rewrite <- Heq.
Qed.

Lemma Join_child root t :
  clean_root root = true -> plain_name t = true ->
  filepath.Join [root; t] = root +:+ String "/" t.
Proof.
  intros Hroot Ht. destruct (clean_root_spec _ Hroot) as (Hnil & _).
  simpl. apply String.eqb_neq in Hnil. rewrite Hnil.
  unfold filepath.join. simpl. now apply Clean_child.
Qed.

Lemma clean_root_child root t :
  clean_root root = true -> plain_name t = true ->
  clean_root (root +:+ String "/" t) = true.
Proof.
  intros Hroot Ht. destruct (clean_root_spec _ Hroot) as (Hnil & _ & Hr & _).
  unfold clean_root. rewrite rooted_app, Hr, Clean_child, String.eqb_refl by assumption.
  simpl. apply negb_true_iff, String.eqb_neq.
  destruct root as [|c [|d r]]; [congruence| |]; discriminate.
Qed.

Lemma upto_last_sep_cons c s :
  filepath.upto_last_sep (String c s) =
  if existsb (Ascii.eqb "/") (c :: list_ascii_of_string s)
  then String c (filepath.upto_last_sep s) else "".
Proof. reflexivity. Qed.

Lemma upto_last_sep_no_sep t : no_sep t = true -> filepath.upto_last_sep t = "".
Proof.
  destruct t as [|c t]; [reflexivity|]. unfold no_sep. intros H.
  rewrite upto_last_sep_cons.
  replace (existsb (Ascii.eqb "/") (c :: list_ascii_of_string t)) with false;
    [reflexivity|].
  symmetry. apply not_true_is_false. intros E.
  apply existsb_exists in E as (x & Hin & Hx).
  rewrite forallb_forall in H. specialize (H x Hin).
  apply Ascii.eqb_eq in Hx. subst x. discriminate.
Qed.

Lemma upto_last_sep_app a t :
  no_sep t = true ->
  filepath.upto_last_sep (a +:+ String "/" t) = a +:+ "/".
Proof.
  intros Ht. induction a as [|c a IH].
  - change ("" +:+ String "/" t) with (String "/" t).
    rewrite upto_last_sep_cons. simpl existsb.
    now rewrite upto_last_sep_no_sep.
  - rewrite !append_cons, upto_last_sep_cons.
    replace (existsb (Ascii.eqb "/") (c :: list_ascii_of_string (a +:+ String "/" t)))
      with true; [now rewrite IH|].
    symmetry. apply existsb_exists. exists "/"%char. split; [|reflexivity].
    right. clear. induction a as [|d a IH]; [now left|right; exact IH].
Qed.

Lemma Dir_child root t :
  clean_root root = true -> plain_name t = true ->
  filepath.Dir (root +:+ String "/" t) = root.
Proof.
  intros Hroot Ht. destruct (clean_root_spec _ Hroot) as (Hnil & Hne & Hr & Hout & Heq).
  destruct (plain_name_spec _ Ht) as (_ & _ & _ & Hsep).
  unfold filepath.Dir. rewrite upto_last_sep_app by assumption.
  unfold filepath.Clean.
  assert (root +:+ "/" <> "") as Hn by (clear -Hnil; destruct root; [congruence|discriminate]).
  apply String.eqb_neq in Hn. rewrite Hn.
  rewrite rooted_app, Hr by assumption.
  rewrite (split_app_sep root ""). simpl filepath.split.
  rewrite clean_elems_snoc_empty. now symmetry.
Qed.

Lemma plain_config_toml : plain_name "config.toml" = true.
Proof. reflexivity. Qed.

(** The three paths of a site, for a clean root and a plain ID. *)
Lemma site_paths (s : SiteStore.t) id :
  clean_root (SiteStore.SitePath s) = true -> plain_name id = true ->
  filepath.Join [SiteStore.SitePath s; id] = SiteStore.SitePath s +:+ String "/" id /\
  config_path s id = (SiteStore.SitePath s +:+ String "/" id) +:+ "/config.toml" /\
  filepath.Join [SiteStore.SitePath s; id; "config.toml"] = config_path s id /\
  filepath.Dir (config_path s id) = filepath.Join [SiteStore.SitePath s; id].
Proof.
  intros Hroot Hid.
  pose proof (Join_child _ _ Hroot Hid) as Hj.
  pose proof (clean_root_child _ _ Hroot Hid) as Hc.
  pose proof (Join_child _ _ Hc plain_config_toml) as Hj2.
  unfold config_path. rewrite Hj. repeat split.
  - exact Hj2.
  - rewrite Hj2. destruct (clean_root_spec _ Hroot) as (Hnil & _).
    simpl. apply String.eqb_neq in Hnil. rewrite Hnil.
    unfold filepath.join.
    replace (String.concat "/" [SiteStore.SitePath s; id; "config.toml"])
      with ((SiteStore.SitePath s +:+ String "/" id) +:+ String "/" "config.toml")
      by (now rewrite append_assoc).
    now apply Clean_child.
  - rewrite Hj2. now apply Dir_child.
Qed.

(** ** Cleaning and joining, for every path *)

Lemma canon_cons r e below :
  canon r (e :: below) =
  if String.eqb e ".." then negb r && forallb (String.eqb "..") below
  else plain_name e && canon r below.
Proof. reflexivity. Qed.

Lemma no_sep_cons c t :
  no_sep (String c t) = negb (Ascii.eqb c "/") && no_sep t.
Proof. reflexivity. Qed.

Lemma split_elems_no_sep s : Forall (fun e => no_sep e = true) (filepath.split s).
Proof.
  induction s as [|c s IH]; simpl; [repeat constructor|].
  destruct (Ascii.eqb c "/") eqn:Hc; [constructor; [reflexivity|exact IH]|].
  destruct (filepath.split s) as [|h t]; [repeat constructor; now rewrite no_sep_cons, Hc|].
  apply Forall_cons in IH as [Hh Ht]. constructor; [|exact Ht].
  now rewrite no_sep_cons, Hc.
Qed.

Lemma dotdots_canon l : forallb (String.eqb "..") l = true -> canon false l = true.
Proof.
  induction l as [|e l IH]; [reflexivity|]. cbn [forallb]. intros H.
  apply andb_true_iff in H as [He Hl]. apply String.eqb_eq in He. subst e.
  rewrite canon_cons. now rewrite String.eqb_refl.
Qed.

Lemma canon_tail r e below : canon r (e :: below) = true -> canon r below = true.
Proof.
  rewrite canon_cons. destruct (String.eqb e "..").
  - intros H. apply andb_true_iff in H as [Hr Hl]. apply negb_true_iff in Hr. subst r.
    now apply dotdots_canon.
  - intros H. now apply andb_true_iff in H as [_ H].
Qed.

Lemma canon_step r out e :
  canon r out = true -> no_sep e = true ->
  canon r (filepath.clean_step r out e) = true.
Proof.
  intros Hc He. unfold filepath.clean_step.
  destruct (String.eqb_spec e ""); [exact Hc|].
  destruct (String.eqb_spec e "."); [exact Hc|].
  destruct (String.eqb_spec e "..") as [->|Hdd].
  - destruct out as [|top below].
    + destruct r; reflexivity.
    + destruct (String.eqb_spec top "..") as [->|Htop].
      * rewrite canon_cons in *. rewrite String.eqb_refl in *.
        cbn [forallb]. now rewrite String.eqb_refl.
      * eapply canon_tail. exact Hc.
  - rewrite canon_cons. apply String.eqb_neq in Hdd. rewrite Hdd, Hc, andb_true_r.
    unfold plain_name. rewrite He, Hdd.
    apply String.eqb_neq in n, n0. now rewrite n, n0.
Qed.

Lemma canon_fold r elems out :
  canon r out = true -> Forall (fun e => no_sep e = true) elems ->
  canon r (fold_left (filepath.clean_step r) elems out) = true.
Proof.
  revert out. induction elems as [|e elems IH]; intros out Hc Hf; [exact Hc|].
  apply Forall_cons in Hf as [He Hf]. simpl. apply IH; [|exact Hf].
  now apply canon_step.
Qed.

(** Cleaning what is clean changes nothing: the kept elements go back on
    the stack as they are. *)
Lemma canon_replay r out :
  canon r out = true -> fold_left (filepath.clean_step r) (rev out) [] = out.
Proof.
  induction out as [|e below IH]; [reflexivity|]. intros Hc.
  cbn [rev]. rewrite fold_left_app. cbn [fold_left].
  rewrite (IH (canon_tail _ _ _ Hc)).
  rewrite canon_cons in Hc. unfold filepath.clean_step.
  destruct (String.eqb_spec e "..") as [->|Hdd].
  - apply andb_true_iff in Hc as [Hr Hl]. apply negb_true_iff in Hr. subst r.
    destruct below as [|top below]; [reflexivity|].
    cbn [forallb] in Hl. apply andb_true_iff in Hl as [Ht _]. apply String.eqb_eq in Ht.
    subst top. reflexivity.
  - apply andb_true_iff in Hc as [Hp _].
    apply plain_name_spec in Hp as (H1 & H2 & _).
    apply String.eqb_neq in H1, H2. now rewrite H1, H2.
Qed.

Lemma canon_no_sep r out : canon r out = true -> Forall (fun e => no_sep e = true) out.
Proof.
  induction out as [|e below IH]; [constructor|]. intros Hc.
  constructor; [|exact (IH (canon_tail _ _ _ Hc))].
  rewrite canon_cons in Hc. destruct (String.eqb_spec e "..") as [->|_]; [reflexivity|].
  apply andb_true_iff in Hc as [Hp _]. now apply plain_name_spec in Hp.
Qed.

Lemma canon_nonempty r out : canon r out = true -> Forall (fun e => e <> "") out.
Proof.
  induction out as [|e below IH]; [constructor|]. intros Hc.
  constructor; [|exact (IH (canon_tail _ _ _ Hc))].
  rewrite canon_cons in Hc. destruct (String.eqb_spec e "..") as [->|_]; [discriminate|].
  apply andb_true_iff in Hc as [Hp _]. now apply plain_name_spec in Hp.
Qed.

Lemma join_cons2 x y l :
  filepath.join (x :: y :: l) = x +:+ String "/" (filepath.join (y :: l)).
Proof. reflexivity. Qed.

Lemma split_join l :
  Forall (fun e => no_sep e = true) l -> l <> [] ->
  filepath.split (filepath.join l) = l.
Proof.
  induction l as [|x l IH]; [congruence|]. intros Hf _.
  apply Forall_cons in Hf as [Hx Hl].
  destruct l as [|y l]; [now apply split_no_sep|].
  rewrite join_cons2, split_app_sep, (split_no_sep _ Hx), IH by (auto; discriminate).
  reflexivity.
Qed.

Lemma rooted_join l :
  Forall (fun e => no_sep e = true) l -> Forall (fun e => e <> "") l ->
  filepath.rooted (filepath.join l) = false.
Proof.
  destruct l as [|x l]; [reflexivity|]. intros Hs Hn.
  apply Forall_cons in Hs as [Hx _]. apply Forall_cons in Hn as [Hne _].
  destruct x as [|c x]; [congruence|]. rewrite no_sep_cons in Hx.
  apply andb_true_iff in Hx as [Hc _]. apply negb_true_iff in Hc.
  destruct l; [exact Hc|]. rewrite join_cons2, append_cons. exact Hc.
Qed.

Lemma Forall_rev' {A} (P : A -> Prop) l : Forall P l -> Forall P (rev l).
Proof. apply List.Forall_rev. Qed.

Lemma Clean_stack p :
  p <> "" ->
  filepath.Clean p =
  if filepath.rooted p then String "/" (filepath.join (rev (stack p)))
  else match rev (stack p) with
       | [] => "."
       | _ => filepath.join (rev (stack p))
       end.
Proof.
  intros Hp. unfold filepath.Clean. apply String.eqb_neq in Hp. now rewrite Hp.
Qed.

Lemma stack_canon p : canon (filepath.rooted p) (stack p) = true.
Proof. apply canon_fold; [reflexivity|apply split_elems_no_sep]. Qed.

(** A cleaned path is not empty, is rooted when the path is, and splits
    into the elements that cleaning kept. *)
Lemma Clean_replay p :
  p <> "" ->
  filepath.Clean p <> "" /\
  filepath.rooted (filepath.Clean p) = filepath.rooted p /\
  fold_left (filepath.clean_step (filepath.rooted p)) (filepath.split (filepath.Clean p)) []
  = stack p.
Proof.
  intros Hp. rewrite (Clean_stack _ Hp).
  pose proof (stack_canon p) as Hc.
  pose proof (canon_replay _ _ Hc) as Hrep.
  pose proof (Forall_rev' _ _ (canon_no_sep _ _ Hc)) as Hs.
  pose proof (Forall_rev' _ _ (canon_nonempty _ _ Hc)) as Hn.
  destruct (filepath.rooted p) eqn:Hr.
  - split; [discriminate|]. split; [reflexivity|].
    destruct (rev (stack p)) as [|x l] eqn:Hrev.
    + simpl in Hrep. rewrite <- Hrep. reflexivity.
    + change (filepath.split (String "/" (filepath.join (x :: l))))
        with ("" :: filepath.split (filepath.join (x :: l))).
      rewrite split_join by (auto; discriminate). exact Hrep.
  - destruct (rev (stack p)) as [|x l] eqn:Hrev.
    + split; [discriminate|]. split; [reflexivity|].
      simpl in Hrep. rewrite <- Hrep. reflexivity.
    + split; [|split].
      * apply Forall_cons in Hn as [Hx _]. destruct x; [congruence|].
        destruct l; discriminate.
      * now apply rooted_join.
      * rewrite split_join by (auto; discriminate). exact Hrep.
Qed.

Lemma Clean_nonempty p : filepath.Clean p <> "".
Proof.
  destruct (String.eqb_spec p "") as [->|Hp]; [discriminate|].
  now apply Clean_replay.
Qed.

Lemma Clean_idempotent p : filepath.Clean (filepath.Clean p) = filepath.Clean p.
Proof.
  destruct (String.eqb_spec p "") as [->|Hp]; [reflexivity|].
  destruct (Clean_replay _ Hp) as (Hne & Hr & Hst).
  rewrite (Clean_stack _ Hne). unfold stack. rewrite Hr, Hst.
  now rewrite (Clean_stack _ Hp).
Qed.

(** Cleaning the front of a path first gives the same cleaned path. *)
Lemma Clean_Clean_sep y c :
  y <> "" ->
  filepath.Clean (filepath.Clean y +:+ String "/" c) = filepath.Clean (y +:+ String "/" c).
Proof.
  intros Hy. destruct (Clean_replay _ Hy) as (Hne & Hr & Hst).
  assert (forall a, a <> "" -> a +:+ String "/" c <> "") as Hnn
    by (intros [|? ?]; [congruence|discriminate]).
  rewrite (Clean_stack _ (Hnn _ Hne)), (Clean_stack _ (Hnn _ Hy)).
  unfold stack. rewrite !rooted_app, !split_app_sep, !fold_left_app, Hr by assumption.
  rewrite Hst. reflexivity.
Qed.

Lemma Join_two a c : a <> "" -> filepath.Join [a; c] = filepath.Clean (a +:+ String "/" c).
Proof.
  intros Ha. simpl. apply String.eqb_neq in Ha. now rewrite Ha.
Qed.

(** Joining in two steps is joining at once. *)
Lemma Join_Join a b c :
  filepath.Join [filepath.Join [a; b]; c] = filepath.Join [a; b; c].
Proof.
  destruct (String.eqb_spec a "") as [->|Ha].
  - destruct (String.eqb_spec b "") as [->|Hb]; [reflexivity|].
    assert (filepath.Join [""; b] = filepath.Clean b) as ->
      by (simpl; apply String.eqb_neq in Hb; now rewrite Hb).
    assert (filepath.Join [""; b; c] = filepath.Clean (b +:+ String "/" c)) as ->
      by (simpl; apply String.eqb_neq in Hb; now rewrite Hb).
    rewrite (Join_two _ _ (Clean_nonempty b)). now apply Clean_Clean_sep.
  - rewrite (Join_two _ _ Ha).
    rewrite (Join_two _ _ (Clean_nonempty _)).
    assert (a +:+ String "/" b <> "") as Hab by (destruct a; [congruence|discriminate]).
    rewrite (Clean_Clean_sep _ c Hab).
    simpl. apply String.eqb_neq in Ha. rewrite Ha.
    unfold filepath.join. simpl. now rewrite append_assoc.
Qed.

(** ** Sample paths and a sample rename *)

Example Join_store_id : filepath.Join ["/tmp/sites"; "acme"] = "/tmp/sites/acme".
Proof. reflexivity. Qed.
Example Join_dotdot : filepath.Join ["/tmp/sites"; ".."] = "/tmp".
Proof. reflexivity. Qed.
Example Join_empty_id : filepath.Join ["/tmp/sites"; ""] = "/tmp/sites".
Proof. reflexivity. Qed.
Example Clean_samples :
  map filepath.Clean ["a//b/./c/.."; "/../a"; "../../x"; "a/.."; "/"; "//"; "a/b/../../.."]
  = ["a/b"; "/a"; "../../x"; "."; "/"; "/"; ".."].
Proof. reflexivity. Qed.
Example Dir_samples :
  map filepath.Dir ["/tmp/sites/acme.toml"; "/x"; "x"; "/tmp/sites/"; ""]
  = ["/tmp/sites"; "/"; "."; "/tmp/sites"; "."].
Proof. reflexivity. Qed.

Example Rename_moves_file :
  fst (os.Rename {[ "/s" := DirNode true; "/s/a" := DirNode true;
                    "/s/a.toml" := FileNode true "x" ]}
                 "/s/a.toml" "/s/a/config.toml")
  = {[ "/s" := DirNode true; "/s/a" := DirNode true;
       "/s/a/config.toml" := FileNode true "x" ]}.
Proof. apply map_eq; intros k. vm_compute. reflexivity. Qed.

(** ** The tagged fields of [SiteConfig] *)

Lemma toml_fields_names c : map fst (SiteConfig.toml_fields c) = SiteConfig.toml_names.
Proof. reflexivity. Qed.

Lemma toml_names_NoDup : NoDup SiteConfig.toml_names.
Proof. apply (bool_decide_unpack _). vm_compute. reflexivity. Qed.

Lemma set_field_comm k1 v1 k2 v2 c :
  k1 <> k2 ->
  SiteConfig.set_field k1 v1 (SiteConfig.set_field k2 v2 c)
  = SiteConfig.set_field k2 v2 (SiteConfig.set_field k1 v1 c).
Proof.
  intros Hne. unfold SiteConfig.set_field.
  repeat match goal with
         | |- context [String.eqb ?a ?b] =>
             destruct (String.eqb_spec a b); subst
         end; try reflexivity; congruence.
Qed.

(** The order in which the decoder stores the fields does not matter. *)
Lemma set_fields_perm l l' c :
  NoDup (map fst l) -> Permutation l l' ->
  SiteConfig.set_fields l c = SiteConfig.set_fields l' c.
Proof.
  intros Hnd Hp. revert c Hnd.
  induction Hp as [|x l l' Hp IH|x y l|l l' l'' Hp1 IH1 Hp2 IH2]; intros c Hnd.
  - reflexivity.
  - simpl in *. apply IH. now apply NoDup_cons in Hnd as [_ Hnd].
  - simpl in *. unfold SiteConfig.set_fields. simpl. f_equal.
    apply set_field_comm. apply NoDup_cons in Hnd as [Hnotin _].
    intros E. apply Hnotin. rewrite E. apply elem_of_cons. now left.
  - rewrite IH1 by assumption. apply IH2.
    assert (map fst l ≡ₚ map fst l') as Hm by now apply Permutation_map.
    now rewrite <- Hm.
Qed.

Lemma set_fields_toml_fields c :
  SiteConfig.set_fields (SiteConfig.toml_fields c) SiteConfig.zero = persisted c.
Proof. reflexivity. Qed.

Lemma decoded_fields c kvs :
  Permutation kvs (SiteConfig.toml_fields c) ->
  SiteConfig.set_fields kvs SiteConfig.zero = persisted c.
Proof.
  intros Hp. rewrite <- set_fields_toml_fields. symmetry.
  apply set_fields_perm; [|now symmetry].
  rewrite toml_fields_names. apply toml_names_NoDup.
Qed.

(** ** Running the program *)

Local Arguments filepath.Join : simpl never.
Local Arguments filepath.Clean : simpl never.
Local Arguments filepath.Dir : simpl never.
Local Arguments os.ReadDir : simpl never.
Local Arguments os.ReadFile : simpl never.
Local Arguments os.WriteFile : simpl never.
Local Arguments os.Rename : simpl never.
Local Arguments laid_out : simpl never.
Local Arguments SiteConfig.toml_fields : simpl never.
Local Arguments String.eqb : simpl never.

Lemma deref_Some l c w : heap w !! l = Some c -> deref (addr l) w = Some (c, w).
Proof. intros H. unfold deref. now rewrite H. Qed.

Lemma update_Some l c f w :
  heap w !! l = Some c ->
  update (addr l) f w = Some (tt, set_heap (<[l := f c]> (heap w)) w).
Proof. intros H. unfold update. now rewrite H. Qed.

Lemma heap_set_heap h w : heap (set_heap h w) = h.
Proof. reflexivity. Qed.

Lemma set_heap_set_heap h h' w : set_heap h (set_heap h' w) = set_heap h w.
Proof. reflexivity. Qed.

Lemma lookup_updated (h : list SiteConfig.t) l c c' :
  h !! l = Some c -> <[l := c']> h !! l = Some c'.
Proof. intros H. apply list_lookup_insert_eq. now apply lookup_lt_Some in H. Qed.

Section Running.

Variable env : Env.
Variable s : SiteStore.t.

Lemma ThemeStore_Find_spec (ts : ThemeStore.t) name w :
  ThemeStore.Find ts name w =
  Some (match os.ReadDir (fs w) (filepath.Join [ThemeStore.StorePath ts; name]) with
        | Some _ => None
        | None => Some mkTheme
        end, w).
Proof.
  unfold ThemeStore.Find, bind, ReadDir.
  now destruct (os.ReadDir _ _).
Qed.

Lemma compute_layout_spec l c w :
  heap w !! l = Some c ->
  SiteStore.compute_layout s (Site.mk (addr l)) (addr l) w =
  Some (filepath.Join [SiteStore.SitePath s; SiteConfig.ID c],
        set_heap (<[l := laid_out s c]> (heap w)) w).
Proof.
  intros H. unfold SiteStore.compute_layout, bind. simpl Site.Config.
  rewrite (deref_Some _ _ _ H).
  rewrite (update_Some _ _ _ _ H).
  repeat (erewrite update_Some by (rewrite heap_set_heap; eapply lookup_updated; eassumption);
          rewrite heap_set_heap, list_insert_insert_eq, set_heap_set_heap).
  reflexivity.
Qed.

Ltac run_go :=
  unfold after_relocation, after_scaffold, after_fetch, scaffold_run, fetch_run,
    staged_path, theme_path in *;
  unfold SiteStore.resolve_theme, SiteStore.persist_and_scaffold,
    ThemeStore.Find, ThemeStore.Fetch, Encode, Run,
    ReadDir, WriteFile, Rename, log.Error, log.Info, deref, update, bind, ret;
  simpl.

Ltac rw H := repeat (progress (rewrite ?H; simpl)).

Lemma resolve_found l c w :
  heap w !! l = Some c ->
  os.ReadDir (fs w) (theme_path s c) = None ->
  SiteStore.resolve_theme env s (Site.mk (addr l)) w = Some (None, w).
Proof. intros H Hd. run_go. rw H. rw Hd. reflexivity. Qed.

Lemma resolve_no_url l c w :
  heap w !! l = Some c ->
  os.ReadDir (fs w) (theme_path s c) <> None ->
  SiteConfig.ThemeURL c = "" ->
  SiteStore.resolve_theme env s (Site.mk (addr l)) w =
  Some (Some (None, None),
        add_log (ErrorLevel, "No theme URL specified, aborting!")
          (add_log (ErrorLevel, "Theme '" +:+ SiteConfig.Theme c +:+ "' doesn't exist!") w)).
Proof.
  intros H Hd Hu. run_go. rw H.
  destruct (os.ReadDir _ _); [|congruence]. rw H. rw Hu. reflexivity.
Qed.

Lemma resolve_fetch_err l c w e :
  heap w !! l = Some c ->
  os.ReadDir (fs w) (theme_path s c) <> None ->
  SiteConfig.ThemeURL c <> "" ->
  exec.run_err (fetch_run env s c w) = Some e ->
  SiteStore.resolve_theme env s (Site.mk (addr l)) w =
  Some (Some (None, Some e),
        add_log (InfoLevel, "Couldn't fetch theme: " +:+ Error e)
          (add_log (ErrorLevel, exec.run_stderr (fetch_run env s c w))
             (after_fetch env s c w))).
Proof.
  intros H Hd Hu He. apply String.eqb_neq in Hu. run_go. rw H.
  destruct (os.ReadDir _ _); [|congruence]. rw H. rw Hu. rw He. reflexivity.
Qed.

Lemma resolve_fetch_ok l c w :
  heap w !! l = Some c ->
  os.ReadDir (fs w) (theme_path s c) <> None ->
  SiteConfig.ThemeURL c <> "" ->
  exec.run_err (fetch_run env s c w) = None ->
  SiteStore.resolve_theme env s (Site.mk (addr l)) w =
  Some (None, add_log (InfoLevel, "Done fetching theme.") (after_fetch env s c w)).
Proof.
  intros H Hd Hu He. apply String.eqb_neq in Hu. run_go. rw H.
  destruct (os.ReadDir _ _); [|congruence]. rw H. rw Hu. rw He. reflexivity.
Qed.

Lemma persist_encode_err l c w e :
  heap w !! l = Some c ->
  toml_encode env (SiteConfig.toml_fields c) = inl e ->
  SiteStore.persist_and_scaffold env s (Site.mk (addr l)) w = Some ((None, Some e), w).
Proof. intros H He. run_go. rw H. rw He. reflexivity. Qed.

Lemma persist_write_err l c w buf e :
  heap w !! l = Some c ->
  toml_encode env (SiteConfig.toml_fields c) = inr buf ->
  snd (os.WriteFile (fs w) (staged_path s (SiteConfig.ID c)) buf) = Some e ->
  SiteStore.persist_and_scaffold env s (Site.mk (addr l)) w =
  Some ((None, Some e),
        set_fs (fst (os.WriteFile (fs w) (staged_path s (SiteConfig.ID c)) buf)) w).
Proof.
  intros H He Hw. run_go.
  repeat (progress (rewrite ?H, ?He, ?Hw; simpl)). reflexivity.
Qed.

Lemma persist_run_err l c w buf e :
  heap w !! l = Some c ->
  toml_encode env (SiteConfig.toml_fields c) = inr buf ->
  snd (os.WriteFile (fs w) (staged_path s (SiteConfig.ID c)) buf) = None ->
  exec.run_err (scaffold_run env s c buf w) = Some e ->
  SiteStore.persist_and_scaffold env s (Site.mk (addr l)) w =
  Some ((None, Some e),
        add_log (ErrorLevel, exec.run_stderr (scaffold_run env s c buf w))
          (after_scaffold env s c buf w)).
Proof.
  intros H He Hw Hr. run_go.
  repeat (progress (rewrite ?H, ?He, ?Hw, ?Hr; simpl)). reflexivity.
Qed.

Lemma persist_ok l c w buf :
  heap w !! l = Some c ->
  toml_encode env (SiteConfig.toml_fields c) = inr buf ->
  snd (os.WriteFile (fs w) (staged_path s (SiteConfig.ID c)) buf) = None ->
  exec.run_err (scaffold_run env s c buf w) = None ->
  SiteStore.persist_and_scaffold env s (Site.mk (addr l)) w =
  Some ((Some (Site.mk (addr l)), None), after_relocation env s c buf w).
Proof.
  intros H He Hw Hr. run_go.
  repeat (progress (rewrite ?H, ?He, ?Hw, ?Hr; simpl)). reflexivity.
Qed.

End Running.

Section CreateCases.

Variable env : Env.
Variable s : SiteStore.t.

Lemma Create_unfold l w :
  SiteStore.Create env s (addr l) w =
  match SiteStore.resolve_theme env s (Site.mk (addr l)) w with
  | Some (Some r, w1) => Some (r, w1)
  | Some (None, w1) =>
      match SiteStore.compute_layout s (Site.mk (addr l)) (addr l) w1 with
      | Some (_, w2) => SiteStore.persist_and_scaffold env s (Site.mk (addr l)) w2
      | None => None
      end
  | None => None
  end.
Proof.
  unfold SiteStore.Create, bind, ret.
  destruct (SiteStore.resolve_theme _ _ _ _) as [[[r|] w1]|]; reflexivity.
Qed.

(** Theme resolution always returns, and leaves the heap alone. *)
Lemma resolve_theme_total l c w :
  heap w !! l = Some c ->
  exists r w1,
    SiteStore.resolve_theme env s (Site.mk (addr l)) w = Some (r, w1) /\
    heap w1 = heap w.
Proof.
  intros H.
  destruct (os.ReadDir (fs w) (theme_path s c)) as [e0|] eqn:Hd.
  - assert (os.ReadDir (fs w) (theme_path s c) <> None) as Hd' by congruence.
    destruct (String.eqb_spec (SiteConfig.ThemeURL c) "") as [Hu|Hu].
    + rewrite (resolve_no_url env s _ _ _ H Hd' Hu). eauto.
    + destruct (exec.run_err (fetch_run env s c w)) as [e|] eqn:He.
      * rewrite (resolve_fetch_err env s _ _ _ _ H Hd' Hu He). eauto.
      * rewrite (resolve_fetch_ok env s _ _ _ H Hd' Hu He). eauto.
  - rewrite (resolve_found env s _ _ _ H Hd). eauto.
Qed.

(** Theme resolution goes on to the layout exactly when the theme is
    found, or is not found, has a [ThemeURL] and is fetched. *)
Lemma resolve_theme_goes_on l c w w1 :
  heap w !! l = Some c ->
  SiteStore.resolve_theme env s (Site.mk (addr l)) w = Some (None, w1) <->
  (os.ReadDir (fs w) (theme_path s c) = None /\ w1 = w) \/
  (os.ReadDir (fs w) (theme_path s c) <> None /\
   SiteConfig.ThemeURL c <> "" /\
   exec.run_err (fetch_run env s c w) = None /\
   w1 = add_log (InfoLevel, "Done fetching theme.") (after_fetch env s c w)).
Proof.
  intros H.
  destruct (os.ReadDir (fs w) (theme_path s c)) as [e0|] eqn:Hd.
  - assert (os.ReadDir (fs w) (theme_path s c) <> None) as Hd' by congruence.
    destruct (String.eqb_spec (SiteConfig.ThemeURL c) "") as [Hu|Hu].
    + rewrite (resolve_no_url env s _ _ _ H Hd' Hu).
      split; [discriminate|]. intros [[? _]|(_ & ? & _)]; congruence.
    + destruct (exec.run_err (fetch_run env s c w)) as [e|] eqn:He.
      * rewrite (resolve_fetch_err env s _ _ _ _ H Hd' Hu He).
        split; [discriminate|]. intros [[? _]|(_ & _ & ? & _)]; congruence.
      * rewrite (resolve_fetch_ok env s _ _ _ H Hd' Hu He). split.
        -- intros E. right. repeat split; congruence.
        -- intros [[? _]|(_ & _ & _ & ->)]; [congruence|reflexivity].
  - rewrite (resolve_found env s _ _ _ H Hd). split.
    + intros E. left. split; congruence.
    + intros [[_ ->]|[? _]]; [reflexivity|congruence].
Qed.

(** The rest of [Create] always returns, leaves the heap alone, and
    returns either the site of the caller's pointer or an error. *)
Lemma persist_and_scaffold_total l c w :
  heap w !! l = Some c ->
  exists res w',
    SiteStore.persist_and_scaffold env s (Site.mk (addr l)) w = Some (res, w') /\
    heap w' = heap w /\
    (res = (Some (Site.mk (addr l)), None) \/ exists e, res = (None, Some e)).
Proof.
  intros H.
  destruct (toml_encode env (SiteConfig.toml_fields c)) as [e|buf] eqn:He.
  { rewrite (persist_encode_err env s _ _ _ _ H He). eauto 8. }
  destruct (snd (os.WriteFile (fs w) (staged_path s (SiteConfig.ID c)) buf))
    as [e|] eqn:Hw.
  { rewrite (persist_write_err env s _ _ _ _ _ H He Hw). eauto 8. }
  destruct (exec.run_err (scaffold_run env s c buf w)) as [e|] eqn:Hr.
  { rewrite (persist_run_err env s _ _ _ _ _ H He Hw Hr). eauto 8. }
  rewrite (persist_ok env s _ _ _ _ H He Hw Hr). eauto 8.
Qed.

(** [Create] after a theme resolution that goes on: the layout is stored
    through the caller's pointer and the rest runs on that heap. *)
Lemma Create_resolved l c w w1 :
  heap w !! l = Some c ->
  SiteStore.resolve_theme env s (Site.mk (addr l)) w = Some (None, w1) ->
  heap w1 !! l = Some c /\
  SiteStore.Create env s (addr l) w =
  SiteStore.persist_and_scaffold env s (Site.mk (addr l))
    (set_heap (<[l := laid_out s c]> (heap w1)) w1).
Proof.
  intros H Hres.
  destruct (resolve_theme_total _ _ _ H) as (r & w1' & Hres' & Hheap).
  rewrite Hres in Hres'. injection Hres' as <- <-.
  assert (heap w1 !! l = Some c) as H1 by now rewrite Hheap.
  split; [exact H1|].
  now rewrite Create_unfold, Hres, (compute_layout_spec s _ _ _ H1).
Qed.

Lemma Create_early l w r w1 :
  SiteStore.resolve_theme env s (Site.mk (addr l)) w = Some (Some r, w1) ->
  SiteStore.Create env s (addr l) w = Some (r, w1).
Proof. intros Hres. now rewrite Create_unfold, Hres. Qed.

End CreateCases.

(** ** Theme resolution without a source (C1) *)

Lemma not_dir_ReadDir (d : gmap string node) p :
  is_dir_node (d !! p) = false -> os.ReadDir d p <> None.
Proof.
  unfold os.ReadDir, is_dir_node.
  destruct (d !! p) as [[[]|[] ?]|]; congruence.
Qed.

(** C1.  When the theme of the config has no directory under the
    theme-store root and [ThemeURL] is empty, [Create] returns no [Site]
    and leaves the disk, the heap and the list of started commands as they
    were; the error it returns with the nil [Site] is nil too, because the
    named result [err] is returned before anything was assigned to it. *)
Theorem Create_no_theme_no_url_returns_nil_error env s l c w :
  heap w !! l = Some c ->
  is_dir_node (fs w !! theme_path s c) = false ->
  SiteConfig.ThemeURL c = "" ->
  exists w',
    SiteStore.Create env s (addr l) w = Some ((None, None), w') /\
    fs w' = fs w /\ heap w' = heap w /\ calls w' = calls w /\
    logs w' = logs w ++
      [(ErrorLevel, "Theme '" +:+ SiteConfig.Theme c +:+ "' doesn't exist!");
       (ErrorLevel, "No theme URL specified, aborting!")].
Proof.
  intros H Hd Hu. apply not_dir_ReadDir in Hd.
  eexists. split.
  - apply Create_early. exact (resolve_no_url env s l c w H Hd Hu).
  - simpl. repeat split. now rewrite <- app_assoc.
Qed.

Lemma Create_no_theme_no_url_witness :
  exists w',
    SiteStore.Create Ref.env_ok Ref.sites (addr 0)
      (Ref.world Ref.siteConfig_no_url Ref.disk) = Some ((None, None), w') /\
    fs w' = Ref.disk /\ heap w' = [Ref.siteConfig_no_url] /\ calls w' = [] /\
    logs w' = [(ErrorLevel, "Theme 'ananke' doesn't exist!");
               (ErrorLevel, "No theme URL specified, aborting!")].
Proof.
  apply (Create_no_theme_no_url_returns_nil_error
           Ref.env_ok Ref.sites 0 Ref.siteConfig_no_url
           (Ref.world Ref.siteConfig_no_url Ref.disk)).
  - reflexivity.
  - vm_compute. reflexivity.
  - reflexivity.
Defined.

(** ** The layout fields and the caller's config (C5, C10) *)

Section Layout.

Variable env : Env.
Variable s : SiteStore.t.

(** Whatever [Create] returns, it allocates nothing and writes to no
    object but the caller's; when theme resolution went on, the caller's
    object holds the layout. *)
Lemma Create_heap l c w res w' :
  heap w !! l = Some c ->
  SiteStore.Create env s (addr l) w = Some (res, w') ->
  (res = (Some (Site.mk (addr l)), None) \/ res = (None, None) \/
   exists e, res = (None, Some e)) /\
  ((exists w1, SiteStore.resolve_theme env s (Site.mk (addr l)) w = Some (None, w1)) /\
   heap w' = <[l := laid_out s c]> (heap w)
   \/
   (exists w1, SiteStore.resolve_theme env s (Site.mk (addr l)) w = Some (Some res, w1)) /\
   fst res = None /\ heap w' = heap w).
Proof.
  intros H Hc.
  destruct (resolve_theme_total env s _ _ _ H) as ([r|] & w1 & Hres & Hheap).
  - rewrite (Create_early env s _ _ _ _ Hres) in Hc. injection Hc as <- <-.
    assert (r = (None, None) \/ exists e, r = (None, Some e)) as Hr.
    { destruct (os.ReadDir (fs w) (theme_path s c)) as [e0|] eqn:Hd.
      - assert (os.ReadDir (fs w) (theme_path s c) <> None) as Hd' by congruence.
        destruct (String.eqb_spec (SiteConfig.ThemeURL c) "") as [Hu|Hu].
        + rewrite (resolve_no_url env s _ _ _ H Hd' Hu) in Hres.
          injection Hres as <- _. now left.
        + destruct (exec.run_err (fetch_run env s c w)) as [e|] eqn:He.
          * rewrite (resolve_fetch_err env s _ _ _ _ H Hd' Hu He) in Hres.
            injection Hres as <- _. right. now exists e.
          * rewrite (resolve_fetch_ok env s _ _ _ H Hd' Hu He) in Hres. discriminate.
      - rewrite (resolve_found env s _ _ _ H Hd) in Hres. discriminate. }
    split; [tauto|]. right. split; [now exists w1|].
    split; [|assumption]. destruct Hr as [->|[e ->]]; reflexivity.
  - destruct (Create_resolved env s _ _ _ _ H Hres) as [H1 Hcr].
    rewrite Hcr in Hc.
    set (w2 := set_heap (<[l:=laid_out s c]> (heap w1)) w1) in *.
    assert (heap w2 !! l = Some (laid_out s c)) as H2
      by (unfold w2; simpl; eapply lookup_updated; eassumption).
    destruct (persist_and_scaffold_total env s _ _ _ H2) as (res2 & w2' & Hp & Hh & Hr).
    rewrite Hp in Hc. injection Hc as <- <-.
    split; [destruct Hr as [->|[e ->]]; eauto|].
    left. split; [now exists w1|].
    rewrite Hh. unfold w2. simpl. now rewrite Hheap.
Qed.

(** C5.  Whenever [Create] gets past theme resolution, it returns, and
    the caller's config then has its root directory at [rootPath] joined
    with the ID, its content, layout and publish directories at the
    [content], [layout] and [public] subpaths of that root, and its themes
    directory at the root of the ThemeStore, whatever these five fields
    held before; the other fields keep their values. *)
Theorem Create_computes_layout l c w w1 :
  heap w !! l = Some c ->
  SiteStore.resolve_theme env s (Site.mk (addr l)) w = Some (None, w1) ->
  exists res w' c',
    SiteStore.Create env s (addr l) w = Some (res, w') /\
    heap w' !! l = Some c' /\
    SiteConfig.SitePath c' = filepath.Join [SiteStore.SitePath s; SiteConfig.ID c] /\
    SiteConfig.ContentDir c' =
      filepath.Join [filepath.Join [SiteStore.SitePath s; SiteConfig.ID c]; "content"] /\
    SiteConfig.LayoutDir c' =
      filepath.Join [filepath.Join [SiteStore.SitePath s; SiteConfig.ID c]; "layout"] /\
    SiteConfig.PublishDir c' =
      filepath.Join [filepath.Join [SiteStore.SitePath s; SiteConfig.ID c]; "public"] /\
    SiteConfig.ThemesDir c' = ThemeStore.StorePath (SiteStore.ThemeStore s) /\
    SiteConfig.ID c' = SiteConfig.ID c /\
    SiteConfig.ThemeURL c' = SiteConfig.ThemeURL c /\
    SiteConfig.BaseURL c' = SiteConfig.BaseURL c /\
    SiteConfig.LanguageCode c' = SiteConfig.LanguageCode c /\
    SiteConfig.Title c' = SiteConfig.Title c /\
    SiteConfig.Theme c' = SiteConfig.Theme c.
Proof.
  intros H Hres.
  destruct (Create_resolved env s _ _ _ _ H Hres) as [H1 Hcr].
  assert (heap (set_heap (<[l:=laid_out s c]> (heap w1)) w1) !! l = Some (laid_out s c))
    as H2 by (simpl; eapply lookup_updated; eassumption).
  destruct (persist_and_scaffold_total env s _ _ _ H2) as (res & w' & Hp & Hh & _).
  exists res, w', (laid_out s c). split; [now rewrite Hcr|].
  split; [now rewrite Hh|]. repeat split.
Qed.

(** C10.  The [Site] that [Create] returns holds the pointer the caller
    passed, not a copy.  [Create] allocates no object and writes to none
    but the caller's.  Once theme resolution went on, the caller's object
    has its root directory at [rootPath] joined with the ID, its content,
    layout and publish directories at the [content], [layout] and
    [public] subpaths of that root and its themes directory at the root
    of the theme store, whatever the five fields held before and whatever
    [Create] returns: an error of the encoder, of the file write or of
    the scaffold run does not bring the former values back.  The six
    other fields are never written, and a [Create] that returns from
    theme resolution leaves the whole object as it was. *)
Theorem Create_mutates_caller_config l c w res w' :
  heap w !! l = Some c ->
  SiteStore.Create env s (addr l) w = Some (res, w') ->
  (forall site, fst res = Some site -> Site.Config site = addr l) /\
  length (heap w') = length (heap w) /\
  (forall l', l' <> l -> heap w' !! l' = heap w !! l') /\
  (forall w1,
     SiteStore.resolve_theme env s (Site.mk (addr l)) w = Some (None, w1) ->
     heap w' !! l = Some (laid_out s c)) /\
  (forall site, fst res = Some site -> heap w' !! l = Some (laid_out s c)) /\
  exists c',
    heap w' !! l = Some c' /\
    ((exists w1, SiteStore.resolve_theme env s (Site.mk (addr l)) w = Some (None, w1)) \/
     (exists site, fst res = Some site) ->
     SiteConfig.SitePath c' = filepath.Join [SiteStore.SitePath s; SiteConfig.ID c] /\
     SiteConfig.ContentDir c' =
       filepath.Join [filepath.Join [SiteStore.SitePath s; SiteConfig.ID c]; "content"] /\
     SiteConfig.LayoutDir c' =
       filepath.Join [filepath.Join [SiteStore.SitePath s; SiteConfig.ID c]; "layout"] /\
     SiteConfig.PublishDir c' =
       filepath.Join [filepath.Join [SiteStore.SitePath s; SiteConfig.ID c]; "public"] /\
     SiteConfig.ThemesDir c' = ThemeStore.StorePath (SiteStore.ThemeStore s)) /\
    ((exists r w1,
        SiteStore.resolve_theme env s (Site.mk (addr l)) w = Some (Some r, w1)) ->
     c' = c) /\
    SiteConfig.ID c' = SiteConfig.ID c /\
    SiteConfig.ThemeURL c' = SiteConfig.ThemeURL c /\
    SiteConfig.BaseURL c' = SiteConfig.BaseURL c /\
    SiteConfig.LanguageCode c' = SiteConfig.LanguageCode c /\
    SiteConfig.Title c' = SiteConfig.Title c /\
    SiteConfig.Theme c' = SiteConfig.Theme c.
Proof.
  intros H Hc. destruct (Create_heap _ _ _ _ _ H Hc) as [Hres Hheap].
  assert (forall site, fst res = Some site -> Site.Config site = addr l) as Hsite.
  { intros site Hs. destruct Hres as [->|[->|[e ->]]]; simpl in Hs; try discriminate.
    now injection Hs as <-. }
  split; [exact Hsite|].
  destruct Hheap as [[[w1 Hw1] Hh]|[[w1 Hw1] [Hnone Hh]]]; rewrite Hh.
  - split; [apply length_insert|].
    split; [intros l' Hl'; now apply list_lookup_insert_ne|].
    split; [intros; eapply lookup_updated; eassumption|].
    split; [intros; eapply lookup_updated; eassumption|].
    exists (laid_out s c). split; [eapply lookup_updated; eassumption|].
    split; [intros _; repeat split|].
    split; [intros (r & w2 & Hw2); congruence|]. repeat split.
  - split; [reflexivity|]. split; [reflexivity|].
    split; [intros w2 Hw2; congruence|].
    split; [intros site Hs; congruence|].
    exists c. split; [exact H|].
    split; [intros [[w2 Hw2]|[site Hs]]; congruence|].
    split; [reflexivity|]. repeat split.
Qed.

End Layout.

Lemma Create_computes_layout_witness :
  exists res w' c',
    SiteStore.Create Ref.env_ok Ref.sites (addr 0) Ref.fresh_world = Some (res, w') /\
    heap w' !! 0 = Some c' /\
    SiteConfig.SitePath c' = "/tmp/sites/myorgid" /\
    SiteConfig.ContentDir c' = "/tmp/sites/myorgid/content" /\
    SiteConfig.LayoutDir c' = "/tmp/sites/myorgid/layout" /\
    SiteConfig.PublishDir c' = "/tmp/sites/myorgid/public" /\
    SiteConfig.ThemesDir c' = "/tmp/themes".
Proof.
  edestruct (Create_computes_layout Ref.env_ok Ref.sites 0 Ref.siteConfig Ref.fresh_world)
    as (res & w' & c' & Hc & Hh & Hsp & Hcd & Hld & Hpd & Htd & _).
  - reflexivity.
  - vm_compute. reflexivity.
  - exists res, w', c'. repeat split; assumption.
Defined.

Lemma Create_mutates_caller_config_witness :
  exists e w' c',
    SiteStore.Create Ref.env_hugo_fails Ref.sites (addr 0) Ref.fresh_world
      = Some ((None, Some e), w') /\
    length (heap w') = 1 /\
    heap Ref.fresh_world !! 0 = Some Ref.siteConfig /\
    SiteConfig.SitePath Ref.siteConfig = "" /\
    SiteConfig.ContentDir Ref.siteConfig = "" /\
    heap w' !! 0 = Some c' /\
    SiteConfig.SitePath c' = "/tmp/sites/myorgid" /\
    SiteConfig.ContentDir c' = "/tmp/sites/myorgid/content" /\
    SiteConfig.LayoutDir c' = "/tmp/sites/myorgid/layout" /\
    SiteConfig.PublishDir c' = "/tmp/sites/myorgid/public" /\
    SiteConfig.ThemesDir c' = "/tmp/themes" /\
    SiteConfig.ID c' = "myorgid" /\
    SiteConfig.Title c' = "Test Site".
Proof.
  assert (exists w',
            SiteStore.Create Ref.env_hugo_fails Ref.sites (addr 0) Ref.fresh_world
            = Some ((None, Some (ExitError "exit status 255")), w')) as [w' Hc].
  { eexists. vm_compute. reflexivity. }
  destruct (Create_mutates_caller_config Ref.env_hugo_fails Ref.sites 0 Ref.siteConfig
              Ref.fresh_world _ w' eq_refl Hc)
    as (_ & Hlen & _ & _ & _ & c' & Hh & Hlay & _ & Hid & _ & _ & _ & Htitle & _).
  destruct Hlay as (Hsp & Hcd & Hld & Hpd & Htd);
    [left; eexists; vm_compute; reflexivity|].
  exists (ExitError "exit status 255"), w', c'.
  split; [exact Hc|]. split; [exact Hlen|]. split; [reflexivity|].
  split; [reflexivity|]. split; [reflexivity|]. split; [exact Hh|].
  split; [exact Hsp|]. split; [exact Hcd|]. split; [exact Hld|].
  split; [exact Hpd|]. split; [exact Htd|]. split; [exact Hid|exact Htitle].
Defined.

(** ** Lookups (C4, C8, C9) *)

Section Lookups.

Variable env : Env.

(** What [SiteStore.Find] does, case by case. *)
Lemma Find_spec (s : SiteStore.t) id w :
  let sitePath := filepath.Join [SiteStore.SitePath s; id] in
  SiteStore.Find env s id w =
  Some
    match os.ReadDir (fs w) sitePath with
    | Some _ =>
        (None, add_log (ErrorLevel, "Site path '" +:+ sitePath +:+ "' doesn't exist") w)
    | None =>
        match os.ReadFile (fs w) (config_path s id) with
        | inl e =>
            (None, add_log (ErrorLevel, "Couldn't decode TOML! " +:+ Error e)
                     (set_heap (heap w ++ [SiteConfig.zero]) w))
        | inr text =>
            match toml_decode env SiteConfig.toml_names text with
            | inl e =>
                (None, add_log (ErrorLevel, "Couldn't decode TOML! " +:+ Error e)
                         (set_heap (heap w ++ [SiteConfig.zero]) w))
            | inr kvs =>
                (Some (Site.mk (addr (length (heap w)))),
                 set_heap (heap w ++
                   [SiteConfig.set_SitePath sitePath
                      (SiteConfig.set_fields kvs SiteConfig.zero)]) w)
            end
        end
    end.
Proof.
  intros sitePath. unfold SiteStore.Find, config_path. fold sitePath.
  unfold DecodeFile, ReadDir, ReadFile, alloc, log.Error, bind, ret. simpl.
  destruct (os.ReadDir (fs w) sitePath) as [e|]; [reflexivity|].
  destruct (os.ReadFile (fs w) _) as [e|text]; [reflexivity|].
  destruct (toml_decode env SiteConfig.toml_names text) as [e|kvs]; [reflexivity|].
  unfold set_heap. simpl.
  rewrite list_lookup_middle by reflexivity. simpl.
  rewrite insert_app_r_alt, Nat.sub_diag by reflexivity. simpl.
  rewrite list_lookup_middle by reflexivity.
  rewrite insert_app_r_alt, Nat.sub_diag by reflexivity. reflexivity.
Qed.

(** C8.  The two lookups always return, with a present or an absent
    result and nothing else: their result types carry no error.  A site
    directory that is not there or cannot be read, a config file that is
    not there or cannot be read and a config file that does not decode
    all give the absent [Site]; a theme directory that is not there or
    cannot be read gives the absent [Theme].  Neither lookup touches the
    disk or starts a command. *)
Theorem Find_never_surfaces_an_error (s : SiteStore.t) id (ts : ThemeStore.t) name w :
  (exists r w',
     SiteStore.Find env s id w = Some (r, w') /\
     fs w' = fs w /\ calls w' = calls w /\
     (os.ReadDir (fs w) (filepath.Join [SiteStore.SitePath s; id]) <> None -> r = None) /\
     (forall e, os.ReadFile (fs w) (config_path s id) = inl e -> r = None) /\
     (forall text e,
        os.ReadFile (fs w) (config_path s id) = inr text ->
        toml_decode env SiteConfig.toml_names text = inl e -> r = None)) /\
  (exists r,
     ThemeStore.Find ts name w = Some (r, w) /\
     (os.ReadDir (fs w) (filepath.Join [ThemeStore.StorePath ts; name]) <> None ->
      r = None)).
Proof.
  split.
  - rewrite Find_spec.
    destruct (os.ReadDir (fs w) _) as [e0|] eqn:Hd.
    { eexists _, _. split; [reflexivity|]. repeat split; congruence. }
    destruct (os.ReadFile (fs w) _) as [e0|text] eqn:Hf.
    { eexists _, _. split; [reflexivity|]. repeat split; congruence. }
    destruct (toml_decode env _ text) as [e0|kvs] eqn:Ht.
    { eexists _, _. split; [reflexivity|]. repeat split; congruence. }
    eexists _, _. split; [reflexivity|]. repeat split; congruence.
  - rewrite ThemeStore_Find_spec.
    destruct (os.ReadDir (fs w) _) as [e0|] eqn:Hd.
    + eexists. split; [reflexivity|]. reflexivity.
    + eexists. split; [reflexivity|]. congruence.
Qed.

Lemma ReadDir_None_iff (d : gmap string node) p :
  os.ReadDir d p = None <-> d !! p = Some (DirNode true).
Proof.
  unfold os.ReadDir. destruct (d !! p) as [[[]|[] ?]|]; split; congruence.
Qed.

(** C9, as amended.  [ThemeStore.Find] returns a present [Theme] exactly
    when the path [filepath.Join(root, t)] is a directory the process can
    read, and an absent one otherwise; for a clean absolute root and a
    name of one path element that path is [root/t], the subdirectory
    named [t]. *)
Theorem ThemeStore_Find_present_iff (ts : ThemeStore.t) t w :
  exists r,
    ThemeStore.Find ts t w = Some (r, w) /\
    (r = Some mkTheme <->
     fs w !! filepath.Join [ThemeStore.StorePath ts; t] = Some (DirNode true)) /\
    (r = None <->
     fs w !! filepath.Join [ThemeStore.StorePath ts; t] <> Some (DirNode true)) /\
    (clean_root (ThemeStore.StorePath ts) = true -> plain_name t = true ->
     filepath.Join [ThemeStore.StorePath ts; t]
     = ThemeStore.StorePath ts +:+ "/" +:+ t /\
     (r = Some mkTheme <->
      fs w !! (ThemeStore.StorePath ts +:+ "/" +:+ t) = Some (DirNode true))).
Proof.
  rewrite ThemeStore_Find_spec.
  pose proof (ReadDir_None_iff (fs w) (filepath.Join [ThemeStore.StorePath ts; t])) as Hiff.
  destruct (os.ReadDir (fs w) _) as [e0|] eqn:Hd.
  - eexists. split; [reflexivity|]. split; [|split].
    + split; [discriminate|]. intros H. apply Hiff in H. discriminate.
    + split; [|reflexivity]. intros _ H. apply Hiff in H. discriminate.
    + intros Hroot Ht. pose proof (Join_child _ _ Hroot Ht) as Hj.
      split; [exact Hj|]. split; [discriminate|].
      intros H. change ("/" +:+ t) with (String "/" t) in H.
      rewrite <- Hj in H. apply Hiff in H. discriminate.
  - eexists. split; [reflexivity|]. split; [|split].
    + split; [|reflexivity]. intros _. now apply Hiff.
    + split; [discriminate|]. intros H. exfalso. apply H. now apply Hiff.
    + intros Hroot Ht. pose proof (Join_child _ _ Hroot Ht) as Hj.
      split; [exact Hj|]. split; [|reflexivity].
      intros _. change ("/" +:+ t) with (String "/" t).
      rewrite <- Hj. now apply Hiff.
Qed.

(** C9, the claim as it stands fails twice: the empty name gives the
    store root itself, which is no subdirectory of the root, and a
    subdirectory that is there but cannot be read gives absent. *)
Lemma ThemeStore_Find_subdir_counterexample :
  (ThemeStore.Find Ref.themes "" Ref.fresh_world = Some (Some mkTheme, Ref.fresh_world) /\
   has_subdir (fs Ref.fresh_world) (ThemeStore.StorePath Ref.themes) "" = false) /\
  (let w := Ref.world Ref.siteConfig Ref.disk_locked in
   ThemeStore.Find Ref.themes "locked" w = Some (None, w) /\
   has_subdir (fs w) (ThemeStore.StorePath Ref.themes) "locked" = true).
Proof. split; split; vm_compute; reflexivity. Qed.

(** C4, as amended.  [Find] sets the root directory of the config it
    rebuilds to [rootPath] joined with the ID, whatever the file holds;
    the themes, content, layout and publish directories of the returned
    [Site] are the values decoded from the file, as are its metadata. *)
Theorem Find_recomputes_SitePath_only (s : SiteStore.t) id w site w' :
  SiteStore.Find env s id w = Some (Some site, w') ->
  exists text kvs c',
    os.ReadFile (fs w) (config_path s id) = inr text /\
    toml_decode env SiteConfig.toml_names text = inr kvs /\
    Site.Config site = addr (length (heap w)) /\
    heap w' !! length (heap w) = Some c' /\
    SiteConfig.SitePath c' = filepath.Join [SiteStore.SitePath s; id] /\
    SiteConfig.ThemesDir c' = SiteConfig.ThemesDir (SiteConfig.set_fields kvs SiteConfig.zero) /\
    SiteConfig.ContentDir c' = SiteConfig.ContentDir (SiteConfig.set_fields kvs SiteConfig.zero) /\
    SiteConfig.LayoutDir c' = SiteConfig.LayoutDir (SiteConfig.set_fields kvs SiteConfig.zero) /\
    SiteConfig.PublishDir c' = SiteConfig.PublishDir (SiteConfig.set_fields kvs SiteConfig.zero) /\
    c' = SiteConfig.set_SitePath (filepath.Join [SiteStore.SitePath s; id])
           (SiteConfig.set_fields kvs SiteConfig.zero).
Proof.
  rewrite Find_spec. intros H.
  destruct (os.ReadDir (fs w) _) as [e0|]; [discriminate|].
  destruct (os.ReadFile (fs w) _) as [e0|text] eqn:Hf; [discriminate|].
  destruct (toml_decode env _ text) as [e0|kvs] eqn:Ht; [discriminate|].
  injection H as <- <-. exists text, kvs. eexists.
  split; [reflexivity|]. split; [exact Ht|]. split; [reflexivity|].
  split; [simpl; now apply list_lookup_middle|]. repeat split.
Qed.

End Lookups.

Lemma Find_recomputes_SitePath_only_witness :
  exists site w' c',
    SiteStore.Find Ref.env_ok Ref.sites "acme" (Ref.world Ref.siteConfig Ref.disk_stale)
      = Some (Some site, w') /\
    Site.Config site = addr 1 /\
    heap w' !! 1 = Some c' /\
    SiteConfig.SitePath c' = "/tmp/sites/acme".
Proof.
  assert (exists w',
            SiteStore.Find Ref.env_ok Ref.sites "acme"
              (Ref.world Ref.siteConfig Ref.disk_stale)
            = Some (Some (Site.mk (addr 1)), w')) as [w' Hf].
  { eexists. vm_compute. reflexivity. }
  destruct (Find_recomputes_SitePath_only Ref.env_ok Ref.sites "acme" _ _ _ Hf)
    as (text & kvs & c' & _ & _ & Hs & Hh & Hsp & _).
  exists (Site.mk (addr 1)), w', c'. repeat split; assumption.
Defined.

(** C4, the claim as it stands fails: with a config file whose four
    directory fields differ from the ones [Create] computes for the ID,
    the [Site] that [Find] returns carries the values of the file. *)
Lemma Find_trusts_persisted_dirs_counterexample :
  exists w' c',
    SiteStore.Find Ref.env_ok Ref.sites "acme" (Ref.world Ref.siteConfig Ref.disk_stale)
      = Some (Some (Site.mk (addr 1)), w') /\
    heap w' !! 1 = Some c' /\
    SiteConfig.ThemesDir c' = "/elsewhere/themes" /\
    SiteConfig.ContentDir c' = "/stale/content" /\
    SiteConfig.LayoutDir c' = "/stale/layout" /\
    SiteConfig.PublishDir c' = "/stale/public" /\
    SiteConfig.ThemesDir c' <> ThemeStore.StorePath (SiteStore.ThemeStore Ref.sites) /\
    SiteConfig.ContentDir c' <>
      filepath.Join [filepath.Join [SiteStore.SitePath Ref.sites; "acme"]; "content"].
Proof.
  eexists _, _. split; [vm_compute; reflexivity|].
  split; [reflexivity|]. repeat split; discriminate.
Qed.

(** ** The reference text layer decodes what it encoded *)

Lemma no_LF_app a b : Ref.no_LF (a +:+ b) = Ref.no_LF a && Ref.no_LF b.
Proof.
  unfold Ref.no_LF. induction a as [|c a IH]; [reflexivity|].
  rewrite append_cons. simpl. now rewrite IH, andb_assoc.
Qed.

Lemma no_LF_escape v : Ref.no_LF (Ref.escape v) = true.
Proof.
  unfold Ref.no_LF. induction v as [|c v IH]; [reflexivity|]. simpl.
  destruct (Ascii.eqb c Ref.dquote); [exact IH|].
  destruct (Ascii.eqb c "\"); [exact IH|].
  destruct (Ascii.eqb c Ref.LF) eqn:E; [exact IH|].
  destruct (Ascii.eqb c Ref.TAB); [exact IH|].
  destruct (Ascii.eqb c Ref.CR); [exact IH|].
  simpl. now rewrite E.
Qed.

Lemma bare_key_no_LF k : Ref.bare_key k = true -> Ref.no_LF k = true.
Proof.
  unfold Ref.bare_key, Ref.no_LF. induction k as [|c k IH]; [reflexivity|]. simpl.
  rewrite !andb_true_iff. intros [[_ Hc] Hk]. split; [exact Hc|now apply IH].
Qed.

Lemma no_LF_cons c s :
  Ref.no_LF (String c s) = negb (Ascii.eqb c Ref.LF) && Ref.no_LF s.
Proof. reflexivity. Qed.

Lemma no_LF_body kv : Ref.bare_key (fst kv) = true -> Ref.no_LF (Ref.body kv) = true.
Proof.
  intros Hk. unfold Ref.body.
  rewrite no_LF_app, (bare_key_no_LF _ Hk), no_LF_app.
  rewrite !no_LF_cons, no_LF_app, no_LF_escape. reflexivity.
Qed.

Lemma line_body kv : Ref.line kv = Ref.body kv +:+ String Ref.LF "".
Proof.
  unfold Ref.line, Ref.body. rewrite !append_assoc. f_equal.
  rewrite !append_cons. do 4 f_equal. now rewrite append_assoc.
Qed.

Lemma lines_nonempty s : Ref.lines s <> [].
Proof.
  destruct s as [|c s]; simpl; [discriminate|].
  destruct (Ascii.eqb c Ref.LF); [discriminate|].
  destruct (Ref.lines s); discriminate.
Qed.

Lemma lines_app a b :
  Ref.no_LF a = true -> Ref.lines (a +:+ String Ref.LF b) = a :: Ref.lines b.
Proof.
  unfold Ref.no_LF. induction a as [|c a IH]; intros H; [reflexivity|].
  simpl in H. apply andb_true_iff in H as [Hc Ha]. apply negb_true_iff in Hc.
  rewrite append_cons. simpl. rewrite Hc, (IH Ha). reflexivity.
Qed.

Lemma lines_encode kvs :
  Forall (fun kv => Ref.bare_key (fst kv) = true) kvs ->
  Ref.lines (String.concat "" (map Ref.line kvs)) = map Ref.body kvs ++ [""].
Proof.
  induction 1 as [|kv kvs Hk _ IH]; [reflexivity|].
  assert (String.concat "" (map Ref.line (kv :: kvs))
          = Ref.body kv +:+ String Ref.LF (String.concat "" (map Ref.line kvs))) as ->.
  { simpl map. rewrite line_body.
    destruct (map Ref.line kvs) as [|x xs]; simpl String.concat.
    - reflexivity.
    - now rewrite append_assoc. }
  rewrite lines_app by now apply no_LF_body. simpl. now rewrite IH.
Qed.

Lemma unquote_cons c rest :
  Ref.unquote (String c rest) =
  if Ascii.eqb c Ref.dquote then
    match rest with
    | EmptyString => Some EmptyString
    | String _ _ => None
    end
  else if Ascii.eqb c "\" then
    match rest with
    | String e rest' =>
        match Ref.unescape_char e, Ref.unquote rest' with
        | Some c', Some v => Some (String c' v)
        | _, _ => None
        end
    | EmptyString => None
    end
  else
    match Ref.unquote rest with
    | Some v => Some (String c v)
    | None => None
    end.
Proof. reflexivity. Qed.

Lemma unquote_escape v :
  Ref.unquote (Ref.escape v +:+ String Ref.dquote "") = Some v.
Proof.
  induction v as [|c v IH]; [reflexivity|]. simpl Ref.escape.
  destruct (Ascii.eqb_spec c Ref.dquote) as [->|Hq].
  { rewrite !append_cons, unquote_cons. simpl. now rewrite IH. }
  destruct (Ascii.eqb_spec c "\") as [->|Hb].
  { rewrite !append_cons, unquote_cons. simpl. now rewrite IH. }
  destruct (Ascii.eqb_spec c Ref.LF) as [->|Hl].
  { rewrite !append_cons, unquote_cons. simpl. now rewrite IH. }
  destruct (Ascii.eqb_spec c Ref.TAB) as [->|Ht].
  { rewrite !append_cons, unquote_cons. simpl. now rewrite IH. }
  destruct (Ascii.eqb_spec c Ref.CR) as [->|Hr].
  { rewrite !append_cons, unquote_cons. simpl. now rewrite IH. }
  rewrite append_cons, unquote_cons.
  apply Ascii.eqb_neq in Hq, Hb. now rewrite Hq, Hb, IH.
Qed.

Lemma take_key_app k rest :
  Ref.bare_key k = true ->
  Ref.take_key (k +:+ String " " rest) = (k, String " " rest).
Proof.
  unfold Ref.bare_key. induction k as [|c k IH]; intros H; [reflexivity|].
  simpl in H. rewrite !andb_true_iff, !negb_true_iff in H. destruct H as [[Hc _] Hk].
  rewrite append_cons. simpl. now rewrite Hc, (IH Hk).
Qed.

Lemma parse_line_body kv :
  Ref.bare_key (fst kv) = true -> Ref.parse_line (Ref.body kv) = Some kv.
Proof.
  intros Hk. destruct kv as [k v]. unfold Ref.parse_line, Ref.body.
  change (" = " +:+ String Ref.dquote (Ref.escape (k, v).2 +:+ String Ref.dquote ""))
    with (String " " (String "=" (String " "
            (String Ref.dquote (Ref.escape v +:+ String Ref.dquote ""))))).
  rewrite take_key_app by exact Hk. simpl. now rewrite unquote_escape.
Qed.

Lemma body_not_empty kv : String.eqb (Ref.body kv) "" = false.
Proof.
  apply String.eqb_neq. unfold Ref.body. destruct (fst kv); discriminate.
Qed.

Lemma parse_lines_bodies names kvs :
  Forall (fun kv => Ref.bare_key (fst kv) = true) kvs ->
  Forall (fun kv => existsb (String.eqb (fst kv)) names = true) kvs ->
  Ref.parse_lines names (map Ref.body kvs ++ [""]) = inr kvs.
Proof.
  induction 1 as [|kv kvs Hk _ IH]; intros Hn; [reflexivity|].
  apply Forall_cons in Hn as [Hin Hn].
  simpl. rewrite body_not_empty, (parse_line_body _ Hk), (IH Hn), Hin. reflexivity.
Qed.

(** The reference text layer gives back every table of tagged fields. *)
Lemma Ref_decodes_what_it_encoded cwd git_ok hugo_ok :
  decodes_what_it_encoded (Ref.env cwd git_ok hugo_ok).
Proof.
  intros c text He.
  assert (text = String.concat "" (map Ref.line (SiteConfig.toml_fields c))) as ->
    by (change (Ref.encode (SiteConfig.toml_fields c) = inr text) in He;
        unfold Ref.encode in He; congruence).
  exists (SiteConfig.toml_fields c). split; [|reflexivity].
  change (toml_decode (Ref.env cwd git_ok hugo_ok)) with Ref.decode.
  unfold Ref.decode. rewrite lines_encode, parse_lines_bodies; [reflexivity| | |];
    repeat constructor.
Qed.

(** ** The persisted form, given a library that decodes what it encodes *)

Section Roundtrip.

Variable env : Env.

Lemma Encode_spec l c w :
  heap w !! l = Some c ->
  Encode env (addr l) w = Some (toml_encode env (SiteConfig.toml_fields c), w).
Proof. intros H. unfold Encode, bind, ret. now rewrite (deref_Some _ _ _ H). Qed.

Lemma DecodeFile_ok path q c0 text kvs w :
  heap w !! q = Some c0 ->
  os.ReadFile (fs w) path = inr text ->
  toml_decode env SiteConfig.toml_names text = inr kvs ->
  DecodeFile env path (addr q) w =
  Some (None, set_heap (<[q := SiteConfig.set_fields kvs c0]> (heap w)) w).
Proof.
  intros H Hf Ht. unfold DecodeFile, ReadFile, bind, ret.
  rewrite Hf, Ht, (update_Some _ _ _ _ H). reflexivity.
Qed.

(** What the program adds to the library.  The round trip of the text is
    the library's: it is the hypothesis here, not a result.  Given a
    library whose decoder returns the table its encoder was given,
    encoding a config and decoding the text into a zero config gives back
    the eight tagged fields; the three fields tagged ["-"] stay at their
    zero values on the way back, and they are not part of what the
    encoder is given: the table has the eight tag names as keys and is
    the same whatever [ID], [ThemeURL] and [SitePath] hold. *)
Theorem SiteConfig_roundtrip l q path c text w w1 :
  decodes_what_it_encoded env ->
  heap w !! l = Some c ->
  Encode env (addr l) w = Some (inr text, w) ->
  os.ReadFile (fs w1) path = inr text ->
  heap w1 !! q = Some SiteConfig.zero ->
  (exists w2 c',
     DecodeFile env path (addr q) w1 = Some (None, w2) /\
     heap w2 !! q = Some c' /\
     SiteConfig.ThemesDir c' = SiteConfig.ThemesDir c /\
     SiteConfig.ContentDir c' = SiteConfig.ContentDir c /\
     SiteConfig.LayoutDir c' = SiteConfig.LayoutDir c /\
     SiteConfig.PublishDir c' = SiteConfig.PublishDir c /\
     SiteConfig.BaseURL c' = SiteConfig.BaseURL c /\
     SiteConfig.LanguageCode c' = SiteConfig.LanguageCode c /\
     SiteConfig.Title c' = SiteConfig.Title c /\
     SiteConfig.Theme c' = SiteConfig.Theme c /\
     SiteConfig.ID c' = "" /\ SiteConfig.ThemeURL c' = "" /\
     SiteConfig.SitePath c' = "") /\
  map fst (SiteConfig.toml_fields c) =
    ["themesDir"; "contentDir"; "layoutDir"; "publishDir";
     "baseURL"; "languageCode"; "title"; "theme"] /\
  (forall id url sitePath,
     SiteConfig.toml_fields
       (SiteConfig.mk id url sitePath (SiteConfig.ThemesDir c) (SiteConfig.ContentDir c)
          (SiteConfig.LayoutDir c) (SiteConfig.PublishDir c) (SiteConfig.BaseURL c)
          (SiteConfig.LanguageCode c) (SiteConfig.Title c) (SiteConfig.Theme c))
     = SiteConfig.toml_fields c).
Proof.
  intros Hlib H He Hf Hq. split; [|split; reflexivity].
  rewrite (Encode_spec _ _ _ H) in He.
  assert (toml_encode env (SiteConfig.toml_fields c) = inr text) as He' by congruence.
  destruct (Hlib _ _ He') as (kvs & Hd & Hp).
  exists (set_heap (<[q := SiteConfig.set_fields kvs SiteConfig.zero]> (heap w1)) w1),
         (persisted c).
  split; [exact (DecodeFile_ok path q _ text kvs w1 Hq Hf Hd)|].
  split; [|repeat split].
  simpl. rewrite (decoded_fields _ _ Hp). eapply lookup_updated; eassumption.
Qed.

End Roundtrip.

Lemma SiteConfig_roundtrip_witness :
  exists w2 c',
    Encode Ref.env_ok (addr 0) Ref.fresh_world = Some (inr Ref.sample_text, Ref.fresh_world) /\
    DecodeFile Ref.env_ok "/tmp/sites/myorgid.toml" (addr 0) Ref.decode_world
      = Some (None, w2) /\
    heap w2 !! 0 = Some c' /\
    SiteConfig.BaseURL c' = "http://localhost" /\
    SiteConfig.LanguageCode c' = "en-us" /\
    SiteConfig.Title c' = "Test Site" /\
    SiteConfig.Theme c' = "ananke" /\
    SiteConfig.ID c' = "" /\ SiteConfig.ThemeURL c' = "".
Proof.
  destruct (SiteConfig_roundtrip Ref.env_ok 0 0 "/tmp/sites/myorgid.toml"
              Ref.siteConfig Ref.sample_text Ref.fresh_world Ref.decode_world)
    as [(w2 & c' & Hd & Hh & _ & _ & _ & _ & Hb & Hl & Ht & Hth & Hid & Hurl & _) _].
  - apply Ref_decodes_what_it_encoded.
  - reflexivity.
  - vm_compute. reflexivity.
  - vm_compute. reflexivity.
  - reflexivity.
  - exists w2, c'. split; [vm_compute; reflexivity|]. repeat split; assumption.
Defined.

(** ** The scaffold run (C3) *)

Section Scaffold.

Variable env : Env.
Variable s : SiteStore.t.

Lemma laid_out_ID c : SiteConfig.ID (laid_out s c) = SiteConfig.ID c.
Proof. reflexivity. Qed.

(** C3, as amended.  When [Create] gets to the scaffold step (the theme
    is resolved, the config is encoded and the staged file is written),
    the command it starts is [hugo] with the arguments [new], [--config],
    the path of the staged config file and the site ID, and it is the last
    command started.  When the run fails, [Create] returns no [Site] and
    the error of the run, and the captured standard error of the engine is
    the last entry of the log, at error level; when it succeeds, [Create]
    returns the [Site]. *)
Theorem Create_scaffold_run l c w w1 buf :
  heap w !! l = Some c ->
  SiteStore.resolve_theme env s (Site.mk (addr l)) w = Some (None, w1) ->
  toml_encode env (SiteConfig.toml_fields (laid_out s c)) = inr buf ->
  snd (os.WriteFile (fs w1) (staged_path s (SiteConfig.ID c)) buf) = None ->
  exists cmd res w',
    cmd = SiteStore.scaffold_cmd (staged_path s (SiteConfig.ID c)) (SiteConfig.ID c) /\
    exec.Path cmd = "hugo" /\
    exec.Args cmd =
      ["hugo"; "new"; "--config"; staged_path s (SiteConfig.ID c); SiteConfig.ID c] /\
    SiteStore.Create env s (addr l) w = Some (res, w') /\
    calls w' = calls w1 ++ [cmd] /\
    match exec.run_err (scaffold_run env s (laid_out s c) buf w1) with
    | Some e =>
        res = (None, Some e) /\
        logs w' = logs w1 ++
          [(ErrorLevel, exec.run_stderr (scaffold_run env s (laid_out s c) buf w1))]
    | None => res = (Some (Site.mk (addr l)), None)
    end.
Proof.
  intros H Hres He Hw.
  destruct (Create_resolved env s _ _ _ _ H Hres) as [H1 Hcr].
  set (w2 := set_heap (<[l:=laid_out s c]> (heap w1)) w1) in *.
  assert (heap w2 !! l = Some (laid_out s c)) as H2
    by (unfold w2; simpl; eapply lookup_updated; eassumption).
  destruct (exec.run_err (scaffold_run env s (laid_out s c) buf w1)) as [e|] eqn:Hr.
  - eexists _, _, _.
    split; [reflexivity|]. split; [reflexivity|]. split; [reflexivity|]. split.
    + rewrite Hcr. apply (persist_run_err env s l _ w2 buf e H2 He Hw Hr).
    + split; [reflexivity|]. split; reflexivity.
  - eexists _, _, _.
    split; [reflexivity|]. split; [reflexivity|]. split; [reflexivity|]. split.
    + rewrite Hcr. apply (persist_ok env s l _ w2 buf H2 He Hw Hr).
    + split; reflexivity.
Qed.

(** [Build], for comparison, sets the working directory of its command
    to the root of the site. *)
Lemma Build_runs_in_site_root l c w :
  heap w !! l = Some c ->
  exists res w',
    Build env (Site.mk (addr l)) w = Some (res, w') /\
    calls w' = calls w ++ [exec.mkCmd "hugo" ["hugo"] (SiteConfig.SitePath c)].
Proof.
  intros H. unfold Build, Run, log.Error, log.Info, deref, bind, ret. simpl.
  rewrite H. simpl.
  destruct (exec.run_err _); eexists _, _; split; reflexivity.
Qed.

End Scaffold.

Lemma Create_scaffold_run_witness :
  exists e w',
    SiteStore.Create Ref.env_hugo_fails Ref.sites (addr 0) Ref.fresh_world
      = Some ((None, Some e), w') /\
    last (calls w') =
      Some (exec.mkCmd "hugo"
              ["hugo"; "new"; "--config"; "/tmp/sites/myorgid.toml"; "myorgid"] "") /\
    last (logs w') = Some (ErrorLevel, "Error: unable to create the site").
Proof.
  edestruct (Create_scaffold_run Ref.env_hugo_fails Ref.sites 0 Ref.siteConfig
               Ref.fresh_world) as (cmd & res & w' & Hcmd & _ & _ & Hc & Hcalls & Hm).
  - reflexivity.
  - vm_compute. reflexivity.
  - vm_compute. reflexivity.
  - vm_compute. reflexivity.
  - destruct (exec.run_err _) as [e|] eqn:Hr in Hm;
      [|vm_compute in Hr; discriminate].
    destruct Hm as [-> Hlogs].
    exists e, w'. split; [exact Hc|]. split.
    + rewrite Hcalls, Hcmd, last_snoc. reflexivity.
    + rewrite Hlogs, last_snoc. vm_compute. reflexivity.
Defined.

(** C3, the claim as it stands fails: the scaffold command carries no
    working directory (its [Dir] is empty, not the site-store root), and
    the error [Create] returns on a failed run is the error of the run,
    whose text is not the diagnostic output of the engine. *)
Lemma Create_scaffold_counterexample :
  exists cmd e w',
    SiteStore.Create Ref.env_hugo_fails Ref.sites (addr 0) Ref.fresh_world
      = Some ((None, Some e), w') /\
    last (calls w') = Some cmd /\
    exec.Args cmd = ["hugo"; "new"; "--config"; "/tmp/sites/myorgid.toml"; "myorgid"] /\
    exec.Dir cmd = "" /\
    exec.Dir cmd <> SiteStore.SitePath Ref.sites /\
    last (logs w') = Some (ErrorLevel, "Error: unable to create the site") /\
    Error e = "exit status 255".
Proof.
  eexists _, _, _. split; [vm_compute; reflexivity|].
  split; [reflexivity|]. split; [reflexivity|]. split; [reflexivity|].
  split; [discriminate|]. split; reflexivity.
Qed.

(** ** Fetching a theme once (C7) *)

Lemma WriteFile_keeps_dir (d : gmap string node) f data p perm :
  d !! p = Some (DirNode perm) ->
  fst (os.WriteFile d f data) !! p = Some (DirNode perm).
Proof.
  intros Hp. unfold os.WriteFile.
  destruct (d !! f) as [[pf|[] df]|] eqn:Hf; simpl; try exact Hp.
  - rewrite lookup_insert_ne; [exact Hp|congruence].
  - destruct (d !! filepath.Dir f) as [[[]|]|]; simpl; try exact Hp.
    rewrite lookup_insert_ne; [exact Hp|congruence].
Qed.

Lemma WriteFile_ok_lookup (d : gmap string node) f data :
  snd (os.WriteFile d f data) = None ->
  fst (os.WriteFile d f data) !! f = Some (FileNode true data).
Proof.
  unfold os.WriteFile.
  destruct (d !! f) as [[pf|[] df]|] eqn:Hf; simpl; try discriminate.
  - intros _. apply lookup_insert_eq.
  - destruct (d !! filepath.Dir f) as [[[]|]|]; simpl; try discriminate.
    intros _. apply lookup_insert_eq.
Qed.



Section Fetch.

Variable env : Env.
Variable s : SiteStore.t.




End Fetch.








(** ** [Create], then [Find] (C2) *)

Lemma append_nil_r (a : string) : a +:+ "" = a.
Proof.
  induction a as [|x a IH]; [reflexivity|].
  rewrite append_cons. now f_equal.
Qed.

Lemma prefix_append a b : String.prefix a (a +:+ b) = true.
Proof.
  induction a as [|c a IH]; [now destruct b|].
  rewrite append_cons. simpl. destruct (ascii_dec c c); [exact IH|congruence].
Qed.

Lemma below_child root t rest :
  os.below root ((root +:+ String "/" t) +:+ rest) = true.
Proof.
  unfold os.below.
  replace ((root +:+ String "/" t) +:+ rest) with ((root +:+ "/") +:+ t +:+ rest).
  - apply prefix_append.
  - now rewrite !append_assoc.
Qed.

Lemma Rename_file (d : gmap string node) old new perm data :
  d !! old = Some (FileNode perm data) ->
  is_dir_node (d !! new) = false ->
  d !! filepath.Dir new = Some (DirNode true) ->
  fst (os.Rename d old new) = <[new := FileNode perm data]> (delete old d).
Proof.
  intros Ho Hn Hd. unfold os.Rename. rewrite Ho.
  destruct (d !! new) as [[pn|pn dn]|]; simpl in Hn; try discriminate; [reflexivity|].
  now rewrite Hd.
Qed.

Section CreateFind.

Variable env : Env.
Variable s : SiteStore.t.

(** C2, as amended.  Take a clean absolute site-store root, a config
    whose ID is one path element, and a [Create] that succeeds with a
    scaffold run that left a readable site directory at [root/ID], left
    the staged config file as it was written and made no directory where
    the config file goes; take a library that decodes what it encoded.
    Then [Find] with the same ID, right after, returns a present [Site]
    whose base URL, language code, title and theme name are those of the
    input config, whose root, content, layout and publish directories are
    [root/ID] and its [content], [layout] and [public] subpaths, all below
    the site-store root, and whose themes directory is the root of the
    theme store. *)
Theorem Create_then_Find l c w w1 buf :
  decodes_what_it_encoded env ->
  clean_root (SiteStore.SitePath s) = true ->
  plain_name (SiteConfig.ID c) = true ->
  heap w !! l = Some c ->
  SiteStore.resolve_theme env s (Site.mk (addr l)) w = Some (None, w1) ->
  toml_encode env (SiteConfig.toml_fields (laid_out s c)) = inr buf ->
  snd (os.WriteFile (fs w1) (staged_path s (SiteConfig.ID c)) buf) = None ->
  exec.run_err (scaffold_run env s (laid_out s c) buf w1) = None ->
  exec.run_fs (scaffold_run env s (laid_out s c) buf w1)
    !! filepath.Join [SiteStore.SitePath s; SiteConfig.ID c] = Some (DirNode true) ->
  exec.run_fs (scaffold_run env s (laid_out s c) buf w1)
    !! staged_path s (SiteConfig.ID c) = Some (FileNode true buf) ->
  is_dir_node (exec.run_fs (scaffold_run env s (laid_out s c) buf w1)
                 !! config_path s (SiteConfig.ID c)) = false ->
  exists w' w'' c',
    SiteStore.Create env s (addr l) w = Some ((Some (Site.mk (addr l)), None), w') /\
    SiteStore.Find env s (SiteConfig.ID c) w'
      = Some (Some (Site.mk (addr (length (heap w')))), w'') /\
    heap w'' !! length (heap w') = Some c' /\
    SiteConfig.BaseURL c' = SiteConfig.BaseURL c /\
    SiteConfig.LanguageCode c' = SiteConfig.LanguageCode c /\
    SiteConfig.Title c' = SiteConfig.Title c /\
    SiteConfig.Theme c' = SiteConfig.Theme c /\
    SiteConfig.ThemesDir c' = ThemeStore.StorePath (SiteStore.ThemeStore s) /\
    SiteConfig.SitePath c' = SiteStore.SitePath s +:+ "/" +:+ SiteConfig.ID c /\
    SiteConfig.ContentDir c' =
      (SiteStore.SitePath s +:+ "/" +:+ SiteConfig.ID c) +:+ "/content" /\
    SiteConfig.LayoutDir c' =
      (SiteStore.SitePath s +:+ "/" +:+ SiteConfig.ID c) +:+ "/layout" /\
    SiteConfig.PublishDir c' =
      (SiteStore.SitePath s +:+ "/" +:+ SiteConfig.ID c) +:+ "/public" /\
    os.below (SiteStore.SitePath s) (SiteConfig.SitePath c') = true /\
    os.below (SiteStore.SitePath s) (SiteConfig.ContentDir c') = true /\
    os.below (SiteStore.SitePath s) (SiteConfig.LayoutDir c') = true /\
    os.below (SiteStore.SitePath s) (SiteConfig.PublishDir c') = true.
Proof.
  intros Hlib Hroot Hid H Hres He Hw Hr Hsite Hstaged Hnodir.
  destruct (site_paths s _ Hroot Hid) as (Hj & Hcp & Hj3 & Hdir).
  pose proof (clean_root_child _ _ Hroot Hid) as Hroot'.
  destruct (Create_resolved env s _ _ _ _ H Hres) as [H1 Hcr].
  set (w2 := set_heap (<[l:=laid_out s c]> (heap w1)) w1) in *.
  assert (heap w2 !! l = Some (laid_out s c)) as H2
    by (unfold w2; simpl; eapply lookup_updated; eassumption).
  pose proof (persist_ok env s l _ w2 buf H2 He Hw Hr) as Hp.
  rewrite <- Hcr in Hp.
  set (w' := after_relocation env s (laid_out s c) buf w2) in *.
  set (r := scaffold_run env s (laid_out s c) buf w1) in *.
  (* the disk that [Create] leaves *)
  assert (fs w' = <[config_path s (SiteConfig.ID c) := FileNode true buf]>
                    (delete (staged_path s (SiteConfig.ID c)) (exec.run_fs r))) as Hfs.
  { unfold w', after_relocation. simpl.
    change (SiteConfig.ID (laid_out s c)) with (SiteConfig.ID c).
    rewrite Hj3. apply Rename_file; [exact Hstaged|exact Hnodir|].
    rewrite Hdir. exact Hsite. }
  assert (os.ReadDir (fs w') (filepath.Join [SiteStore.SitePath s; SiteConfig.ID c]) = None)
    as Hrd.
  { apply ReadDir_None_iff. rewrite Hfs.
    rewrite lookup_insert_ne, lookup_delete_ne; [exact Hsite| |].
    - intros E. rewrite E in Hstaged. congruence.
    - rewrite Hcp, Hj. apply append_neq_self. discriminate. }
  assert (os.ReadFile (fs w') (config_path s (SiteConfig.ID c)) = inr buf) as Hrf
    by (unfold os.ReadFile; now rewrite Hfs, lookup_insert_eq).
  destruct (Hlib _ _ He) as (kvs & Hdec & Hperm).
  pose proof (Find_spec env s (SiteConfig.ID c) w') as Hfind.
  cbv zeta in Hfind. rewrite Hrd, Hrf, Hdec, (decoded_fields _ _ Hperm) in Hfind.
  eexists w', _, _. split; [exact Hp|]. split; [exact Hfind|].
  split; [simpl; now apply list_lookup_middle|].
  assert (forall t, plain_name t = true ->
            filepath.Join [filepath.Join [SiteStore.SitePath s; SiteConfig.ID c]; t]
            = (SiteStore.SitePath s +:+ "/" +:+ SiteConfig.ID c) +:+ String "/" t) as Hsub
    by (intros t Ht; rewrite Hj; now apply Join_child).
  split; [reflexivity|]. split; [reflexivity|]. split; [reflexivity|].
  split; [reflexivity|]. split; [reflexivity|].
  split; [exact Hj|].
  split; [exact (Hsub "content" eq_refl)|].
  split; [exact (Hsub "layout" eq_refl)|].
  split; [exact (Hsub "public" eq_refl)|].
  cbn [SiteConfig.SitePath SiteConfig.ContentDir SiteConfig.LayoutDir
       SiteConfig.PublishDir SiteConfig.set_SitePath persisted].
  split; [rewrite Hj, <- (append_nil_r (_ +:+ String "/" _)); apply below_child|].
  unfold laid_out.
  cbn [SiteConfig.SitePath SiteConfig.ContentDir SiteConfig.LayoutDir
       SiteConfig.PublishDir SiteConfig.set_SitePath SiteConfig.set_PublishDir
       SiteConfig.set_LayoutDir SiteConfig.set_ContentDir SiteConfig.set_ThemesDir].
  rewrite !Hsub by reflexivity.
  repeat split; apply below_child.
Qed.

End CreateFind.

Lemma Create_then_Find_witness :
  exists w' w'' c',
    SiteStore.Create Ref.env_ok Ref.sites (addr 0) Ref.fresh_world
      = Some ((Some (Site.mk (addr 0)), None), w') /\
    SiteStore.Find Ref.env_ok Ref.sites "myorgid" w'
      = Some (Some (Site.mk (addr (length (heap w')))), w'') /\
    heap w'' !! length (heap w') = Some c' /\
    SiteConfig.BaseURL c' = "http://localhost" /\
    SiteConfig.LanguageCode c' = "en-us" /\
    SiteConfig.Title c' = "Test Site" /\
    SiteConfig.Theme c' = "ananke" /\
    SiteConfig.ThemesDir c' = "/tmp/themes" /\
    SiteConfig.SitePath c' = "/tmp/sites/myorgid" /\
    SiteConfig.ContentDir c' = "/tmp/sites/myorgid/content".
Proof.
  edestruct (Create_then_Find Ref.env_ok Ref.sites 0 Ref.siteConfig Ref.fresh_world)
    as (w' & w'' & c' & Hc & Hf & Hh & Hb & Hl & Ht & Hth & Htd & Hsp & Hcd & _).
  - apply Ref_decodes_what_it_encoded.
  - vm_compute. reflexivity.
  - vm_compute. reflexivity.
  - reflexivity.
  - vm_compute. reflexivity.
  - vm_compute. reflexivity.
  - vm_compute. reflexivity.
  - vm_compute. reflexivity.
  - vm_compute. reflexivity.
  - vm_compute. reflexivity.
  - vm_compute. reflexivity.
  - exists w', w'', c'. repeat split; assumption.
Defined.

(** C2, the claim as it stands fails twice.  After a [Create] that
    succeeds, the themes directory of the [Site] that [Find] returns is
    the root of the theme store, which is not below the site-store root;
    and when the engine scaffolds the site somewhere else than below the
    site-store root, [Create] succeeds all the same and [Find] returns
    absent. *)
Lemma Create_then_Find_counterexample :
  (exists w' w'' c',
     SiteStore.Create Ref.env_ok Ref.sites (addr 0) Ref.fresh_world
       = Some ((Some (Site.mk (addr 0)), None), w') /\
     SiteStore.Find Ref.env_ok Ref.sites "myorgid" w'
       = Some (Some (Site.mk (addr 1)), w'') /\
     heap w'' !! 1 = Some c' /\
     SiteConfig.ThemesDir c' = "/tmp/themes" /\
     os.below (SiteStore.SitePath Ref.sites) (SiteConfig.ThemesDir c') = false) /\
  (exists w' w'',
     SiteStore.Create Ref.env_elsewhere Ref.sites (addr 0) Ref.fresh_world
       = Some ((Some (Site.mk (addr 0)), None), w') /\
     SiteStore.Find Ref.env_elsewhere Ref.sites "myorgid" w' = Some (None, w'')).
Proof.
  split.
  - eexists _, _, _. split; [vm_compute; reflexivity|].
    split; [vm_compute; reflexivity|]. split; [reflexivity|].
    split; reflexivity.
  - eexists _, _. split; [vm_compute; reflexivity|]. vm_compute. reflexivity.
Qed.
(** ** Paths of a site, for every root and ID *)

Lemma Clean_same_stack p q :
  p <> "" -> q <> "" -> filepath.rooted p = filepath.rooted q -> stack p = stack q ->
  filepath.Clean p = filepath.Clean q.
Proof.
  intros Hp Hq Hr Hs. now rewrite (Clean_stack _ Hp), (Clean_stack _ Hq), Hr, Hs.
Qed.

Lemma stack_app_sep y c :
  y <> "" ->
  stack (y +:+ String "/" c) =
  fold_left (filepath.clean_step (filepath.rooted y)) (filepath.split c) (stack y).
Proof.
  intros Hy. unfold stack. now rewrite rooted_app, split_app_sep, fold_left_app.
Qed.

Lemma clean_step_dotdot r top below :
  filepath.clean_step r (top :: below) ".." =
  if String.eqb top ".." then ".." :: top :: below else below.
Proof. reflexivity. Qed.

(** A name and [..] after it cancel. *)
Lemma Clean_child_dotdot y n :
  y <> "" -> plain_name n = true ->
  filepath.Clean ((y +:+ String "/" n) +:+ String "/" "..") = filepath.Clean y.
Proof.
  intros Hy Hn.
  assert (y +:+ String "/" n <> "") as Hyn by (destruct y; [congruence|discriminate]).
  apply Clean_same_stack; [destruct y; [congruence|discriminate]|exact Hy| |].
  - now rewrite !rooted_app.
  - rewrite (stack_app_sep _ _ Hyn), (rooted_app _ _ Hy), (stack_app_sep _ _ Hy).
    destruct (plain_name_spec _ Hn) as (_ & _ & Hdd & Hsep).
    rewrite (split_no_sep _ Hsep). change (filepath.split "..") with [".."].
    cbn [fold_left]. rewrite (clean_step_plain _ _ _ Hn).
    rewrite clean_step_dotdot. apply String.eqb_neq in Hdd. now rewrite Hdd.
Qed.

Lemma clean_root_Clean root : clean_root root = true -> filepath.Clean root = root.
Proof.
  unfold clean_root. rewrite !andb_true_iff, String.eqb_eq. tauto.
Qed.

(** The ID [..] names the directory above the store root. *)
Lemma Join_root_dotdot root n :
  clean_root root = true -> plain_name n = true ->
  filepath.Join [root +:+ String "/" n; ".."] = root.
Proof.
  intros Hroot Hn. destruct (clean_root_spec _ Hroot) as (Hnil & _).
  rewrite Join_two by (destruct root; [congruence|discriminate]).
  rewrite (Clean_child_dotdot _ _ Hnil Hn). now apply clean_root_Clean.
Qed.

Lemma prefix_length a b : String.prefix a b = true -> String.length a <= String.length b.
Proof.
  revert b. induction a as [|c a IH]; intros b H; [simpl; lia|].
  destruct b as [|d b]; [discriminate|]. simpl in H.
  destruct (ascii_dec c d); [|discriminate]. apply IH in H. simpl. lia.
Qed.

Lemma not_in_tree_parent root t :
  os.in_tree (root +:+ String "/" t) root = false.
Proof.
  unfold os.in_tree, os.below. apply orb_false_iff. split.
  - apply String.eqb_neq. apply append_neq_self. discriminate.
  - apply not_true_is_false. intros H. apply prefix_length in H.
    rewrite !append_length in H. simpl in H. lia.
Qed.

Lemma ReadFile_inr_iff (d : gmap string node) p text :
  os.ReadFile d p = inr text <-> d !! p = Some (FileNode true text).
Proof.
  unfold os.ReadFile. destruct (d !! p) as [[[]|[] ?]|]; split; congruence.
Qed.

Lemma Rename_file_ok (d : gmap string node) old new perm data :
  d !! old = Some (FileNode perm data) ->
  snd (os.Rename d old new) = None ->
  fst (os.Rename d old new) = <[new := FileNode perm data]> (delete old d).
Proof.
  intros Ho. unfold os.Rename. rewrite Ho.
  destruct (d !! new) as [[pn|pn dn]|]; simpl; try discriminate; [reflexivity|].
  destruct (d !! filepath.Dir new) as [[[]|]|]; simpl; try discriminate. reflexivity.
Qed.

Lemma Rename_failed (d : gmap string node) old new e :
  snd (os.Rename d old new) = Some e -> fst (os.Rename d old new) = d.
Proof.
  unfold os.Rename.
  destruct (d !! old) as [[po|po dold]|]; simpl; [| |reflexivity].
  - destruct (String.eqb old new); [discriminate|].
    destruct (os.below old new); [reflexivity|].
    destruct (d !! new) as [[pn|pn dn]|]; simpl; try reflexivity.
    + destruct (os.is_empty_dir d new); [discriminate|reflexivity].
    + destruct (d !! filepath.Dir new) as [[[]|]|]; simpl; try reflexivity; discriminate.
  - destruct (d !! new) as [[pn|pn dn]|]; simpl; try reflexivity; try discriminate.
    destruct (d !! filepath.Dir new) as [[[]|]|]; simpl; try reflexivity; discriminate.
Qed.

Section SitePaths.

Variable env : Env.
Variable s : SiteStore.t.

(** X1.  Whatever the store root and the ID are (empty, [..], with
    separators), the path to which [Create] moves the staged config file
    is the path from which [Find] decodes: when the scaffold run left the
    staged file and the move succeeds, the file is at the config path of
    [Find] once [Create] has returned, and no longer at its staged path. *)
Theorem Create_relocates_to_the_file_Find_reads l c w w1 buf perm data :
  heap w !! l = Some c ->
  SiteStore.resolve_theme env s (Site.mk (addr l)) w = Some (None, w1) ->
  toml_encode env (SiteConfig.toml_fields (laid_out s c)) = inr buf ->
  snd (os.WriteFile (fs w1) (staged_path s (SiteConfig.ID c)) buf) = None ->
  exec.run_err (scaffold_run env s (laid_out s c) buf w1) = None ->
  exec.run_fs (scaffold_run env s (laid_out s c) buf w1)
    !! staged_path s (SiteConfig.ID c) = Some (FileNode perm data) ->
  snd (os.Rename (exec.run_fs (scaffold_run env s (laid_out s c) buf w1))
         (staged_path s (SiteConfig.ID c))
         (filepath.Join [SiteStore.SitePath s; SiteConfig.ID c; "config.toml"])) = None ->
  filepath.Join [SiteStore.SitePath s; SiteConfig.ID c; "config.toml"]
    = config_path s (SiteConfig.ID c) /\
  exists w',
    SiteStore.Create env s (addr l) w = Some ((Some (Site.mk (addr l)), None), w') /\
    fs w' !! config_path s (SiteConfig.ID c) = Some (FileNode perm data) /\
    (staged_path s (SiteConfig.ID c) <> config_path s (SiteConfig.ID c) ->
     fs w' !! staged_path s (SiteConfig.ID c) = None).
Proof.
  intros H Hres He Hw Hr Hstaged Hmv.
  assert (filepath.Join [SiteStore.SitePath s; SiteConfig.ID c; "config.toml"]
          = config_path s (SiteConfig.ID c)) as Hpath
    by (unfold config_path; now rewrite Join_Join).
  split; [exact Hpath|].
  destruct (Create_resolved env s _ _ _ _ H Hres) as [H1 Hcr].
  set (w2 := set_heap (<[l:=laid_out s c]> (heap w1)) w1) in *.
  assert (heap w2 !! l = Some (laid_out s c)) as H2
    by (unfold w2; simpl; eapply lookup_updated; eassumption).
  pose proof (persist_ok env s l _ w2 buf H2 He Hw Hr) as Hp.
  rewrite <- Hcr in Hp.
  eexists. split; [exact Hp|].
  assert (fs (after_relocation env s (laid_out s c) buf w2)
          = <[config_path s (SiteConfig.ID c) := FileNode perm data]>
              (delete (staged_path s (SiteConfig.ID c))
                 (exec.run_fs (scaffold_run env s (laid_out s c) buf w1)))) as Hfs.
  { unfold after_relocation. simpl.
    change (SiteConfig.ID (laid_out s c)) with (SiteConfig.ID c).
    rewrite <- Hpath. now apply Rename_file_ok. }
  rewrite Hfs. split; [apply lookup_insert_eq|].
  intros Hne. rewrite lookup_insert_ne by congruence. apply lookup_delete_eq.
Qed.

(** X2.  IDs are not checked: in a store whose root is the directory [n]
    of a clean absolute path [root], [Find] with the ID [..] takes [root]
    itself for the site.  It returns a [Site] exactly when [root] can be
    read and [root/config.toml] decodes, and the root directory of that
    [Site] is [root], outside the store. *)
Theorem Find_dotdot_reads_above_the_store root n w :
  clean_root root = true -> plain_name n = true ->
  SiteStore.SitePath s = root +:+ "/" +:+ n ->
  exists r w',
    SiteStore.Find env s ".." w = Some (r, w') /\
    (r <> None <->
     fs w !! root = Some (DirNode true) /\
     exists text kvs,
       fs w !! (root +:+ "/config.toml") = Some (FileNode true text) /\
       toml_decode env SiteConfig.toml_names text = inr kvs) /\
    (forall site, r = Some site ->
     exists c',
       Site.Config site = addr (length (heap w)) /\
       heap w' !! length (heap w) = Some c' /\
       SiteConfig.SitePath c' = root /\
       os.in_tree (SiteStore.SitePath s) (SiteConfig.SitePath c') = false).
Proof.
  intros Hroot Hn Hs.
  assert (filepath.Join [SiteStore.SitePath s; ".."] = root) as Hj
    by (rewrite Hs; now apply Join_root_dotdot).
  assert (config_path s ".." = root +:+ "/config.toml") as Hcp
    by (unfold config_path; rewrite Hj; now apply Join_child).
  pose proof (Find_spec env s ".." w) as Hfind. cbv zeta in Hfind.
  rewrite Hj, Hcp in Hfind. rewrite Hfind. clear Hfind.
  pose proof (ReadDir_None_iff (fs w) root) as Hd.
  destruct (os.ReadDir (fs w) root) as [e0|].
  { eexists _, _. split; [reflexivity|]. split.
    - split; [congruence|]. intros [Hr _]. apply Hd in Hr. discriminate.
    - intros site E. discriminate. }
  destruct (os.ReadFile (fs w) (root +:+ "/config.toml")) as [e0|text] eqn:Hf.
  { eexists _, _. split; [reflexivity|]. split.
    - split; [congruence|]. intros (_ & text & kvs & Ht & _).
      apply ReadFile_inr_iff in Ht. congruence.
    - intros site E. discriminate. }
  destruct (toml_decode env SiteConfig.toml_names text) as [e0|kvs] eqn:Ht.
  { eexists _, _. split; [reflexivity|]. split.
    - split; [congruence|]. intros (_ & text' & kvs & Ht' & Hk).
      apply ReadFile_inr_iff in Ht'. congruence.
    - intros site E. discriminate. }
  eexists _, _. split; [reflexivity|]. split.
  - split; [|discriminate]. intros _. split; [now apply Hd|].
    exists text, kvs. split; [now apply ReadFile_inr_iff|exact Ht].
  - intros site E. injection E as <-. eexists.
    split; [reflexivity|]. split; [simpl; now apply list_lookup_middle|].
    split; [reflexivity|]. simpl. rewrite Hs. apply not_in_tree_parent.
Qed.

End SitePaths.

Lemma Create_relocates_to_the_file_Find_reads_witness :
  exists w' text,
    SiteStore.Create Ref.env_ok Ref.sites (addr 0) Ref.fresh_world
      = Some ((Some (Site.mk (addr 0)), None), w') /\
    fs w' !! "/tmp/sites/myorgid/config.toml" = Some (FileNode true text) /\
    fs w' !! "/tmp/sites/myorgid.toml" = None.
Proof.
  edestruct (Create_relocates_to_the_file_Find_reads Ref.env_ok Ref.sites 0 Ref.siteConfig
               Ref.fresh_world) as (_ & w' & Hc & Hnew & Hold).
  - reflexivity.
  - vm_compute. reflexivity.
  - vm_compute. reflexivity.
  - vm_compute. reflexivity.
  - vm_compute. reflexivity.
  - vm_compute. reflexivity.
  - vm_compute. reflexivity.
  - exists w'. eexists. split; [exact Hc|]. split; [exact Hnew|].
    apply Hold. vm_compute. discriminate.
Defined.

Lemma Find_dotdot_reads_above_the_store_witness :
  exists w' c',
    SiteStore.Find Ref.env_ok Ref.sites ".." (Ref.world Ref.siteConfig Ref.disk_above)
      = Some (Some (Site.mk (addr 1)), w') /\
    heap w' !! 1 = Some c' /\
    SiteConfig.SitePath c' = "/tmp" /\
    os.in_tree "/tmp/sites" (SiteConfig.SitePath c') = false.
Proof.
  destruct (Find_dotdot_reads_above_the_store Ref.env_ok Ref.sites "/tmp" "sites"
              (Ref.world Ref.siteConfig Ref.disk_above))
    as (r & w' & Hf & _ & Hsite); [reflexivity|reflexivity|reflexivity|].
  assert (r = Some (Site.mk (addr 1))) as ->.
  { assert (exists w0,
              SiteStore.Find Ref.env_ok Ref.sites ".."
                (Ref.world Ref.siteConfig Ref.disk_above)
              = Some (Some (Site.mk (addr 1)), w0)) as [w0 H0]
      by (eexists; vm_compute; reflexivity).
    rewrite H0 in Hf. now injection Hf as <- _. }
  destruct (Hsite _ eq_refl) as (c' & _ & H2 & H3 & H4).
  exists w', c'. repeat split; assumption.
Defined.

(** ** What [Create] returns, and what it starts *)

Section CreateResults.

Variable env : Env.
Variable s : SiteStore.t.

(** The four ways theme resolution ends. *)
Lemma resolve_theme_cases l c w :
  heap w !! l = Some c ->
  (os.ReadDir (fs w) (theme_path s c) = None /\
   SiteStore.resolve_theme env s (Site.mk (addr l)) w = Some (None, w)) \/
  (os.ReadDir (fs w) (theme_path s c) <> None /\ SiteConfig.ThemeURL c = "" /\
   exists w1,
     SiteStore.resolve_theme env s (Site.mk (addr l)) w = Some (Some (None, None), w1) /\
     fs w1 = fs w /\ calls w1 = calls w) \/
  (os.ReadDir (fs w) (theme_path s c) <> None /\ SiteConfig.ThemeURL c <> "" /\
   exists e w1,
     exec.run_err (fetch_run env s c w) = Some e /\
     SiteStore.resolve_theme env s (Site.mk (addr l)) w = Some (Some (None, Some e), w1) /\
     fs w1 = exec.run_fs (fetch_run env s c w) /\
     calls w1 = calls w ++
       [ThemeStore.clone_cmd (SiteConfig.ThemeURL c) (theme_path s c)]) \/
  (os.ReadDir (fs w) (theme_path s c) <> None /\ SiteConfig.ThemeURL c <> "" /\
   exists w1,
     exec.run_err (fetch_run env s c w) = None /\
     SiteStore.resolve_theme env s (Site.mk (addr l)) w = Some (None, w1) /\
     fs w1 = exec.run_fs (fetch_run env s c w) /\
     calls w1 = calls w ++
       [ThemeStore.clone_cmd (SiteConfig.ThemeURL c) (theme_path s c)]).
Proof.
  intros H.
  destruct (os.ReadDir (fs w) (theme_path s c)) as [e0|] eqn:Hd.
  - assert (os.ReadDir (fs w) (theme_path s c) <> None) as Hd' by congruence.
    rewrite <- Hd in *. right.
    destruct (String.eqb_spec (SiteConfig.ThemeURL c) "") as [Hu|Hu].
    + left. split; [exact Hd'|]. split; [exact Hu|]. eexists.
      split; [exact (resolve_no_url env s _ _ _ H Hd' Hu)|]. split; reflexivity.
    + right. destruct (exec.run_err (fetch_run env s c w)) as [e|] eqn:He.
      * left. split; [exact Hd'|]. split; [exact Hu|]. eexists _, _.
        split; [reflexivity|].
        split; [exact (resolve_fetch_err env s _ _ _ _ H Hd' Hu He)|].
        split; reflexivity.
      * right. split; [exact Hd'|]. split; [exact Hu|]. eexists.
        split; [reflexivity|].
        split; [exact (resolve_fetch_ok env s _ _ _ H Hd' Hu He)|].
        split; reflexivity.
  - left. split; [reflexivity|]. exact (resolve_found env s _ _ _ H Hd).
Qed.

(** The four ways the rest of [Create] ends. *)
Lemma persist_cases l c w :
  heap w !! l = Some c ->
  (exists e,
     toml_encode env (SiteConfig.toml_fields c) = inl e /\
     SiteStore.persist_and_scaffold env s (Site.mk (addr l)) w = Some ((None, Some e), w)) \/
  (exists buf e w',
     toml_encode env (SiteConfig.toml_fields c) = inr buf /\
     snd (os.WriteFile (fs w) (staged_path s (SiteConfig.ID c)) buf) = Some e /\
     SiteStore.persist_and_scaffold env s (Site.mk (addr l)) w = Some ((None, Some e), w') /\
     fs w' = fst (os.WriteFile (fs w) (staged_path s (SiteConfig.ID c)) buf) /\
     calls w' = calls w) \/
  (exists buf e w',
     toml_encode env (SiteConfig.toml_fields c) = inr buf /\
     snd (os.WriteFile (fs w) (staged_path s (SiteConfig.ID c)) buf) = None /\
     exec.run_err (scaffold_run env s c buf w) = Some e /\
     SiteStore.persist_and_scaffold env s (Site.mk (addr l)) w = Some ((None, Some e), w') /\
     fs w' = exec.run_fs (scaffold_run env s c buf w) /\
     calls w' = calls w ++
       [SiteStore.scaffold_cmd (staged_path s (SiteConfig.ID c)) (SiteConfig.ID c)]) \/
  (exists buf w',
     toml_encode env (SiteConfig.toml_fields c) = inr buf /\
     snd (os.WriteFile (fs w) (staged_path s (SiteConfig.ID c)) buf) = None /\
     exec.run_err (scaffold_run env s c buf w) = None /\
     SiteStore.persist_and_scaffold env s (Site.mk (addr l)) w
       = Some ((Some (Site.mk (addr l)), None), w') /\
     fs w' = fst (os.Rename (exec.run_fs (scaffold_run env s c buf w))
                    (staged_path s (SiteConfig.ID c))
                    (filepath.Join [SiteStore.SitePath s; SiteConfig.ID c; "config.toml"])) /\
     calls w' = calls w ++
       [SiteStore.scaffold_cmd (staged_path s (SiteConfig.ID c)) (SiteConfig.ID c)]).
Proof.
  intros H.
  destruct (toml_encode env (SiteConfig.toml_fields c)) as [e|buf] eqn:He.
  { left. exists e. split; [reflexivity|]. exact (persist_encode_err env s _ _ _ _ H He). }
  right.
  destruct (snd (os.WriteFile (fs w) (staged_path s (SiteConfig.ID c)) buf))
    as [e|] eqn:Hw.
  { left. eexists buf, e, _. split; [reflexivity|]. split; [exact Hw|].
    split; [exact (persist_write_err env s _ _ _ _ _ H He Hw)|]. split; reflexivity. }
  right.
  destruct (exec.run_err (scaffold_run env s c buf w)) as [e|] eqn:Hr.
  { left. eexists buf, e, _. split; [reflexivity|]. split; [exact Hw|].
    split; [exact Hr|].
    split; [exact (persist_run_err env s _ _ _ _ _ H He Hw Hr)|]. split; reflexivity. }
  right. eexists buf, _. split; [reflexivity|]. split; [exact Hw|]. split; [exact Hr|].
  split; [exact (persist_ok env s _ _ _ _ H He Hw Hr)|]. split; reflexivity.
Qed.

(** X3.  [Create] never returns a [Site] together with an error, and it
    returns neither of them, a nil [Site] with a nil error, in one case
    only: the theme directory cannot be read and the config has no
    [ThemeURL].  Every other failure comes with its error. *)
Theorem Create_returns_neither_iff l c w res w' :
  heap w !! l = Some c ->
  SiteStore.Create env s (addr l) w = Some (res, w') ->
  (res = (None, None) <->
   os.ReadDir (fs w) (theme_path s c) <> None /\ SiteConfig.ThemeURL c = "") /\
  (forall site, fst res = Some site -> snd res = None) /\
  (fst res = None -> snd res = None -> fs w' = fs w /\ calls w' = calls w).
Proof.
  intros H Hc.
  destruct (resolve_theme_cases l c w H)
    as [[Hd Hres]|[(Hd & Hu & w1 & Hres & Hfs & Hcalls)
       |[(Hd & Hu & e & w1 & Hf & Hres & _)|(Hd & Hu & w1 & Hf & Hres & _)]]].
  - (* found *)
    destruct (Create_resolved env s _ _ _ _ H Hres) as [H1 Hcr]. rewrite Hcr in Hc.
    assert (heap (set_heap (<[l:=laid_out s c]> (heap w)) w) !! l = Some (laid_out s c))
      as H2 by (simpl; eapply lookup_updated; eassumption).
    destruct (persist_and_scaffold_total env s _ _ _ H2) as (res2 & w2 & Hp & _ & Hr).
    rewrite Hp in Hc. injection Hc as <- <-.
    destruct Hr as [->|[e ->]]; (split; [split; [discriminate|tauto]|]);
      split; try discriminate; try reflexivity; intros; discriminate.
  - (* no URL *)
    rewrite (Create_early env s _ _ _ _ Hres) in Hc. injection Hc as <- <-.
    split; [tauto|]. split; [discriminate|]. intros _ _. now split.
  - (* the fetch fails *)
    rewrite (Create_early env s _ _ _ _ Hres) in Hc. injection Hc as <- <-.
    split; [split; [discriminate|tauto]|]. split; discriminate.
  - (* the fetch succeeds *)
    destruct (Create_resolved env s _ _ _ _ H Hres) as [H1 Hcr]. rewrite Hcr in Hc.
    assert (heap (set_heap (<[l:=laid_out s c]> (heap w1)) w1) !! l = Some (laid_out s c))
      as H2 by (simpl; eapply lookup_updated; eassumption).
    destruct (persist_and_scaffold_total env s _ _ _ H2) as (res2 & w2 & Hp & _ & Hr).
    rewrite Hp in Hc. injection Hc as <- <-.
    destruct Hr as [->|[e ->]]; (split; [split; [discriminate|tauto]|]);
      split; try discriminate; try reflexivity; intros; discriminate.
Qed.

End CreateResults.

Lemma Create_returns_neither_iff_witness :
  exists w',
    SiteStore.Create Ref.env_ok Ref.sites (addr 0)
      (Ref.world Ref.siteConfig_no_url Ref.disk) = Some ((None, None), w') /\
    fs w' = Ref.disk /\ calls w' = [].
Proof.
  assert (exists w',
            SiteStore.Create Ref.env_ok Ref.sites (addr 0)
              (Ref.world Ref.siteConfig_no_url Ref.disk) = Some ((None, None), w'))
    as [w' Hc] by (eexists; vm_compute; reflexivity).
  destruct (Create_returns_neither_iff Ref.env_ok Ref.sites 0 Ref.siteConfig_no_url
              (Ref.world Ref.siteConfig_no_url Ref.disk) _ _ eq_refl Hc)
    as (_ & _ & Hkeep).
  exists w'. split; [exact Hc|]. now apply Hkeep.
Defined.





Section CreateSteps.

Variable env : Env.
Variable s : SiteStore.t.

(** X4.  The result of [os.Rename] is dropped: when the scaffold run
    succeeded and the staged config file cannot be moved into the site,
    [Create] returns the [Site] and a nil error all the same, the disk is
    as the scaffold run left it, and the log shows the output of the
    engine and nothing of the failed move. *)
Theorem Create_ignores_a_failed_relocation l c w w1 buf e :
  heap w !! l = Some c ->
  SiteStore.resolve_theme env s (Site.mk (addr l)) w = Some (None, w1) ->
  toml_encode env (SiteConfig.toml_fields (laid_out s c)) = inr buf ->
  snd (os.WriteFile (fs w1) (staged_path s (SiteConfig.ID c)) buf) = None ->
  exec.run_err (scaffold_run env s (laid_out s c) buf w1) = None ->
  snd (os.Rename (exec.run_fs (scaffold_run env s (laid_out s c) buf w1))
         (staged_path s (SiteConfig.ID c))
         (filepath.Join [SiteStore.SitePath s; SiteConfig.ID c; "config.toml"])) = Some e ->
  exists w',
    SiteStore.Create env s (addr l) w = Some ((Some (Site.mk (addr l)), None), w') /\
    fs w' = exec.run_fs (scaffold_run env s (laid_out s c) buf w1) /\
    logs w' = logs w1 ++
      [(InfoLevel, "Output:");
       (InfoLevel, exec.run_stdout (scaffold_run env s (laid_out s c) buf w1))].
Proof.
  intros H Hres He Hw Hr Hmv.
  destruct (Create_resolved env s _ _ _ _ H Hres) as [H1 Hcr].
  set (w2 := set_heap (<[l:=laid_out s c]> (heap w1)) w1) in *.
  assert (heap w2 !! l = Some (laid_out s c)) as H2
    by (unfold w2; simpl; eapply lookup_updated; eassumption).
  pose proof (persist_ok env s l _ w2 buf H2 He Hw Hr) as Hp.
  rewrite <- Hcr in Hp.
  eexists. split; [exact Hp|]. split.
  - unfold after_relocation. simpl.
    change (SiteConfig.ID (laid_out s c)) with (SiteConfig.ID c).
    exact (Rename_failed _ _ _ _ Hmv).
  - unfold after_relocation. simpl. now rewrite <- app_assoc.
Qed.


(** X6.  The commands [Create] starts are at most two, in this order: a
    [git clone] of the [ThemeURL] into the theme directory, started
    exactly when that directory cannot be read and the config has a
    [ThemeURL], and a [hugo new] on the staged config file, which has
    been started whenever a [Site] is returned.  Neither is given a
    working directory: both run where the calling process is. *)
Theorem Create_starts_a_clone_then_a_scaffold l c w res w' :
  heap w !! l = Some c ->
  SiteStore.Create env s (addr l) w = Some (res, w') ->
  exists cl sc,
    calls w' = calls w ++ cl ++ sc /\
    (cl = [] \/
     cl = [exec.mkCmd "git" ["git"; "clone"; SiteConfig.ThemeURL c; theme_path s c] ""]) /\
    (sc = [] \/
     sc = [exec.mkCmd "hugo" ["hugo"; "new"; "--config";
                              staged_path s (SiteConfig.ID c); SiteConfig.ID c] ""]) /\
    (cl <> [] <->
     os.ReadDir (fs w) (theme_path s c) <> None /\ SiteConfig.ThemeURL c <> "") /\
    (fst res <> None -> sc <> []) /\
    Forall (fun cmd => exec.Dir cmd = "") (cl ++ sc).
Proof.
  intros H Hc.
  assert (forall w1,
            SiteStore.resolve_theme env s (Site.mk (addr l)) w = Some (None, w1) ->
            exists sc,
              calls w' = calls w1 ++ sc /\
              (sc = [] \/
               sc = [exec.mkCmd "hugo" ["hugo"; "new"; "--config";
                                        staged_path s (SiteConfig.ID c); SiteConfig.ID c] ""]) /\
              (fst res <> None -> sc <> [])) as Hrest.
  { intros w1 Hres.
    destruct (Create_resolved env s _ _ _ _ H Hres) as [H1 Hcr]. rewrite Hcr in Hc.
    assert (heap (set_heap (<[l:=laid_out s c]> (heap w1)) w1) !! l = Some (laid_out s c))
      as H2 by (simpl; eapply lookup_updated; eassumption).
    destruct (persist_cases env s l _ _ H2)
      as [(e & _ & Hp)|[(buf & e & w2 & _ & _ & Hp & _ & Hcalls)
         |[(buf & e & w2 & _ & _ & _ & Hp & _ & Hcalls)
          |(buf & w2 & _ & _ & _ & Hp & _ & Hcalls)]]];
      rewrite Hp in Hc; injection Hc as <- <-.
    - exists []. split; [simpl; now rewrite app_nil_r|]. split; [now left|].
      intros Hs. now contradiction Hs.
    - exists []. split; [rewrite Hcalls; simpl; now rewrite app_nil_r|].
      split; [now left|]. intros Hs. now contradiction Hs.
    - eexists [_]. split; [exact Hcalls|]. split; [now right|]. discriminate.
    - eexists [_]. split; [exact Hcalls|]. split; [now right|]. discriminate. }
  destruct (resolve_theme_cases env s l c w H)
    as [[Hd Hres]|[(Hd & Hu & w1 & Hres & Hfs & Hcalls)
       |[(Hd & Hu & e & w1 & Hf & Hres & _ & Hcalls)
        |(Hd & Hu & w1 & Hf & Hres & _ & Hcalls)]]].
  - destruct (Hrest _ Hres) as (sc & Hsc & Hshape & Hsite).
    exists [], sc. split; [exact Hsc|]. split; [now left|]. split; [exact Hshape|].
    split; [split; [congruence|intros [? _]; congruence]|]. split; [exact Hsite|].
    destruct Hshape as [->| ->]; repeat constructor.
  - rewrite (Create_early env s _ _ _ _ Hres) in Hc. injection Hc as <- <-.
    exists [], []. split; [rewrite Hcalls; now rewrite app_nil_r|].
    split; [now left|]. split; [now left|].
    split; [split; [congruence|intros [_ ?]; congruence]|].
    split; [intros Hs; now contradiction Hs|constructor].
  - rewrite (Create_early env s _ _ _ _ Hres) in Hc. injection Hc as <- <-.
    eexists [_], []. split; [exact Hcalls|]. split; [now right|]. split; [now left|].
    split; [split; [tauto|discriminate]|].
    split; [intros Hs; now contradiction Hs|repeat constructor].
  - destruct (Hrest _ Hres) as (sc & Hsc & Hshape & Hsite).
    eexists [_], sc. split; [rewrite Hsc, Hcalls; now rewrite <- app_assoc|].
    split; [now right|]. split; [exact Hshape|].
    split; [split; [tauto|discriminate]|]. split; [exact Hsite|].
    destruct Hshape as [->| ->]; repeat constructor.
Qed.

End CreateSteps.

Lemma Create_ignores_a_failed_relocation_witness :
  exists w',
    SiteStore.Create Ref.env_elsewhere Ref.sites (addr 0) Ref.fresh_world
      = Some ((Some (Site.mk (addr 0)), None), w') /\
    is_Some (fs w' !! "/tmp/sites/myorgid.toml") /\
    fs w' !! "/tmp/sites/myorgid/config.toml" = None /\
    logs w' =
      [(ErrorLevel, "Theme 'ananke' doesn't exist!");
       (InfoLevel, "Fetching theme 'ananke'");
       (InfoLevel, "Done fetching theme.");
       (InfoLevel, "Output:");
       (InfoLevel, "Site created.")].
Proof.
  edestruct (Create_ignores_a_failed_relocation Ref.env_elsewhere Ref.sites 0
               Ref.siteConfig Ref.fresh_world) as (w' & Hc & Hfs & Hlogs).
  - reflexivity.
  - vm_compute. reflexivity.
  - vm_compute. reflexivity.
  - vm_compute. reflexivity.
  - vm_compute. reflexivity.
  - vm_compute. reflexivity.
  - exists w'. split; [exact Hc|]. rewrite Hfs, Hlogs.
    split; [vm_compute; eauto|]. split; vm_compute; reflexivity.
Defined.


Lemma Create_starts_a_clone_then_a_scaffold_witness :
  exists w',
    SiteStore.Create Ref.env_ok Ref.sites (addr 0) Ref.fresh_world
      = Some ((Some (Site.mk (addr 0)), None), w') /\
    exists cl sc,
      calls w' = cl ++ sc /\ cl <> [] /\ sc <> [] /\
      Forall (fun cmd => exec.Dir cmd = "") (cl ++ sc).
Proof.
  assert (exists w',
            SiteStore.Create Ref.env_ok Ref.sites (addr 0) Ref.fresh_world
            = Some ((Some (Site.mk (addr 0)), None), w')) as [w' Hc]
    by (eexists; vm_compute; reflexivity).
  destruct (Create_starts_a_clone_then_a_scaffold Ref.env_ok Ref.sites 0 Ref.siteConfig
              Ref.fresh_world _ _ eq_refl Hc)
    as (cl & sc & Hcalls & _ & _ & Hcl & Hsc & Hdir).
  exists w'. split; [exact Hc|]. exists cl, sc.
  split; [exact Hcalls|]. split; [|split; [|exact Hdir]].
  - apply Hcl. split; [vm_compute; discriminate|discriminate].
  - apply Hsc. discriminate.
Defined.

(** ** [Build], [Find] and [Fetch] with the methods around them *)

Lemma set_field_untagged name v c :
  SiteConfig.ID (SiteConfig.set_field name v c) = SiteConfig.ID c /\
  SiteConfig.ThemeURL (SiteConfig.set_field name v c) = SiteConfig.ThemeURL c /\
  SiteConfig.SitePath (SiteConfig.set_field name v c) = SiteConfig.SitePath c.
Proof.
  unfold SiteConfig.set_field.
  repeat match goal with
         | |- context [String.eqb ?a ?b] => destruct (String.eqb a b)
         end; repeat split.
Qed.

(** Decoding reaches no field tagged ["-"], whatever the decoder gives. *)
Lemma set_fields_untagged kvs c :
  SiteConfig.ID (SiteConfig.set_fields kvs c) = SiteConfig.ID c /\
  SiteConfig.ThemeURL (SiteConfig.set_fields kvs c) = SiteConfig.ThemeURL c /\
  SiteConfig.SitePath (SiteConfig.set_fields kvs c) = SiteConfig.SitePath c.
Proof.
  revert c. induction kvs as [|[k v] kvs IH]; intros c; [repeat split|].
  change (SiteConfig.set_fields ((k, v) :: kvs) c)
    with (SiteConfig.set_fields kvs (SiteConfig.set_field k v c)).
  destruct (IH (SiteConfig.set_field k v c)) as (-> & -> & ->).
  apply set_field_untagged.
Qed.

Section Around.

Variable env : Env.

(** What [Build] does on a [Site] whose config is there. *)
Lemma Build_spec l c w :
  heap w !! l = Some c ->
  Build env (Site.mk (addr l)) w =
  let cmd := exec.mkCmd "hugo" ["hugo"] (SiteConfig.SitePath c) in
  let r := exec_run env cmd (calls w) (fs w) in
  Some (exec.run_err r,
        add_log match exec.run_err r with
                | Some _ => (ErrorLevel, exec.run_stderr r)
                | None => (InfoLevel, exec.run_stdout r)
                end
          (set_fs (exec.run_fs r) (add_call cmd w))).
Proof.
  intros H. unfold Build, Run, log.Error, log.Info, deref, bind, ret. simpl.
  rewrite H. simpl. now destruct (exec.run_err _).
Qed.


(** X7.  The [Site] that [Find] returns can be built: [Build] on it does
    not panic, starts the one command [hugo] without arguments in the
    directory [rootPath] joined with the ID, whatever the config file
    holds, returns the error of that run, and logs the standard error of
    the run at error level when it failed and its standard output at info
    level when it did not. *)
Theorem Find_then_Build (s : SiteStore.t) id w site w1 :
  SiteStore.Find env s id w = Some (Some site, w1) ->
  exists r w2,
    r = exec_run env (exec.mkCmd "hugo" ["hugo"] (filepath.Join [SiteStore.SitePath s; id]))
                 (calls w) (fs w) /\
    Build env site w1 = Some (exec.run_err r, w2) /\
    calls w2 = calls w ++
      [exec.mkCmd "hugo" ["hugo"] (filepath.Join [SiteStore.SitePath s; id])] /\
    fs w2 = exec.run_fs r /\
    heap w2 = heap w1 /\
    logs w2 = logs w ++
      [match exec.run_err r with
       | Some _ => (ErrorLevel, exec.run_stderr r)
       | None => (InfoLevel, exec.run_stdout r)
       end].
Proof.
  rewrite Find_spec. intros H.
  destruct (os.ReadDir (fs w) _) as [e0|]; [discriminate|].
  destruct (os.ReadFile (fs w) _) as [e0|text]; [discriminate|].
  destruct (toml_decode env _ text) as [e0|kvs]; [discriminate|].
  injection H as <- <-.
  eexists _, _. split; [reflexivity|]. split.
  - erewrite Build_spec by (simpl; now apply list_lookup_middle). reflexivity.
  - repeat split.
Qed.

(** X8.  The [Site] that [Create] returns can be built too, and [Build]
    then runs in [rootPath] joined with the ID of the config, the
    directory that [Create] stored in the caller's config: not in the
    directory where the engine, which [Create] runs without a working
    directory, put the site. *)
Theorem Create_then_Build (s : SiteStore.t) l c w site e w' :
  heap w !! l = Some c ->
  SiteStore.Create env s (addr l) w = Some ((Some site, e), w') ->
  exists r w2,
    r = exec_run env
          (exec.mkCmd "hugo" ["hugo"]
             (filepath.Join [SiteStore.SitePath s; SiteConfig.ID c]))
          (calls w') (fs w') /\
    Build env site w' = Some (exec.run_err r, w2) /\
    calls w2 = calls w' ++
      [exec.mkCmd "hugo" ["hugo"] (filepath.Join [SiteStore.SitePath s; SiteConfig.ID c])] /\
    fs w2 = exec.run_fs r.
Proof.
  intros H Hc.
  destruct (Create_heap env s _ _ _ _ _ H Hc) as [Hres Hheap].
  assert (site = Site.mk (addr l)) as ->
    by (destruct Hres as [E|[E|[e' E]]]; congruence).
  assert (heap w' !! l = Some (laid_out s c)) as H'.
  { destruct Hheap as [[_ Hh]|[_ [Hnone _]]]; [|discriminate].
    rewrite Hh. eapply lookup_updated; eassumption. }
  eexists _, _. split; [reflexivity|]. split.
  - rewrite (Build_spec _ _ _ H'). reflexivity.
  - split; reflexivity.
Qed.

(** X9.  The config of a [Site] that [Find] returns has no ID and no
    [ThemeURL], whatever the ID asked for, the file and the decoder are:
    the two fields are tagged ["-"], are not in the file, and [Find] sets
    neither. *)
Theorem Find_returns_a_config_without_ID (s : SiteStore.t) id w site w' :
  SiteStore.Find env s id w = Some (Some site, w') ->
  exists c',
    Site.Config site = addr (length (heap w)) /\
    heap w' !! length (heap w) = Some c' /\
    SiteConfig.ID c' = "" /\
    SiteConfig.ThemeURL c' = "" /\
    SiteConfig.SitePath c' = filepath.Join [SiteStore.SitePath s; id].
Proof.
  rewrite Find_spec. intros H.
  destruct (os.ReadDir (fs w) _) as [e0|]; [discriminate|].
  destruct (os.ReadFile (fs w) _) as [e0|text]; [discriminate|].
  destruct (toml_decode env _ text) as [e0|kvs]; [discriminate|].
  injection H as <- <-. eexists.
  split; [reflexivity|]. split; [simpl; now apply list_lookup_middle|].
  destruct (set_fields_untagged kvs SiteConfig.zero) as (Hid & Hurl & _).
  split; [exact Hid|]. split; [exact Hurl|reflexivity].
Qed.

(** X10.  [Find] keeps no [Site]: it reads the disk at each call and
    gives a new config object each time.  When it has returned a [Site],
    the same call right after returns a [Site] on another object of the
    same value; the objects that were there keep their values, and the
    disk and the started commands are as they were. *)
Theorem Find_again_gives_a_new_object (s : SiteStore.t) id w site w1 :
  SiteStore.Find env s id w = Some (Some site, w1) ->
  exists c' w2,
    Site.Config site = addr (length (heap w)) /\
    SiteStore.Find env s id w1 = Some (Some (Site.mk (addr (S (length (heap w))))), w2) /\
    heap w1 = heap w ++ [c'] /\
    heap w2 = heap w ++ [c'; c'] /\
    fs w2 = fs w /\ calls w2 = calls w /\ logs w2 = logs w.
Proof.
  intros H. pose proof (Find_spec env s id w) as H1. cbv zeta in H1.
  rewrite H in H1.
  destruct (os.ReadDir (fs w) _) as [e0|] eqn:Hd; [discriminate|].
  destruct (os.ReadFile (fs w) _) as [e0|text] eqn:Hf; [discriminate|].
  destruct (toml_decode env _ text) as [e0|kvs] eqn:Ht; [discriminate|].
  injection H1 as -> ->.
  eexists _, _. split; [reflexivity|]. split.
  - rewrite Find_spec. cbv zeta. simpl fs. rewrite Hd, Hf, Ht. simpl heap.
    rewrite length_app. simpl length. rewrite Nat.add_1_r. reflexivity.
  - split; [reflexivity|]. split; [simpl; now rewrite <- app_assoc|].
    repeat split.
Qed.


End Around.

Lemma Find_then_Build_witness :
  exists w1 err w2,
    SiteStore.Find Ref.env_ok Ref.sites "acme" (Ref.world Ref.siteConfig Ref.disk_stale)
      = Some (Some (Site.mk (addr 1)), w1) /\
    Build Ref.env_ok (Site.mk (addr 1)) w1 = Some (err, w2) /\
    calls w2 = [exec.mkCmd "hugo" ["hugo"] "/tmp/sites/acme"].
Proof.
  assert (exists w1,
            SiteStore.Find Ref.env_ok Ref.sites "acme"
              (Ref.world Ref.siteConfig Ref.disk_stale)
            = Some (Some (Site.mk (addr 1)), w1)) as [w1 Hf]
    by (eexists; vm_compute; reflexivity).
  destruct (Find_then_Build Ref.env_ok Ref.sites "acme" _ _ _ Hf)
    as (r & w2 & _ & Hb & Hcalls & _).
  exists w1, (exec.run_err r), w2. split; [exact Hf|]. split; [exact Hb|exact Hcalls].
Defined.

Lemma Create_then_Build_witness :
  exists w' err w2,
    SiteStore.Create Ref.env_ok Ref.sites (addr 0) Ref.fresh_world
      = Some ((Some (Site.mk (addr 0)), None), w') /\
    Build Ref.env_ok (Site.mk (addr 0)) w' = Some (err, w2) /\
    last (calls w2) = Some (exec.mkCmd "hugo" ["hugo"] "/tmp/sites/myorgid").
Proof.
  assert (exists w',
            SiteStore.Create Ref.env_ok Ref.sites (addr 0) Ref.fresh_world
            = Some ((Some (Site.mk (addr 0)), None), w')) as [w' Hc]
    by (eexists; vm_compute; reflexivity).
  destruct (Create_then_Build Ref.env_ok Ref.sites 0 Ref.siteConfig Ref.fresh_world
              _ _ _ eq_refl Hc) as (r & w2 & _ & Hb & Hcalls & _).
  exists w', (exec.run_err r), w2. split; [exact Hc|]. split; [exact Hb|].
  rewrite Hcalls. apply last_snoc.
Defined.

Lemma Find_returns_a_config_without_ID_witness :
  exists w' c',
    SiteStore.Find Ref.env_ok Ref.sites "acme" (Ref.world Ref.siteConfig Ref.disk_stale)
      = Some (Some (Site.mk (addr 1)), w') /\
    heap w' !! 1 = Some c' /\
    SiteConfig.ID c' = "" /\ SiteConfig.Title c' = "Stale".
Proof.
  assert (exists w',
            SiteStore.Find Ref.env_ok Ref.sites "acme"
              (Ref.world Ref.siteConfig Ref.disk_stale)
            = Some (Some (Site.mk (addr 1)), w')) as [w' Hf]
    by (eexists; vm_compute; reflexivity).
  destruct (Find_returns_a_config_without_ID Ref.env_ok Ref.sites "acme" _ _ _ Hf)
    as (c' & _ & Hh & Hid & _).
  exists w', c'. split; [exact Hf|]. split; [exact Hh|]. split; [exact Hid|].
  vm_compute in Hf. injection Hf as <-.
  vm_compute in Hh. injection Hh as <-. reflexivity.
Defined.

Lemma Find_again_gives_a_new_object_witness :
  exists w1 w2 c',
    SiteStore.Find Ref.env_ok Ref.sites "acme" (Ref.world Ref.siteConfig Ref.disk_stale)
      = Some (Some (Site.mk (addr 1)), w1) /\
    SiteStore.Find Ref.env_ok Ref.sites "acme" w1 = Some (Some (Site.mk (addr 2)), w2) /\
    heap w2 = [Ref.siteConfig; c'; c'].
Proof.
  assert (exists w1,
            SiteStore.Find Ref.env_ok Ref.sites "acme"
              (Ref.world Ref.siteConfig Ref.disk_stale)
            = Some (Some (Site.mk (addr 1)), w1)) as [w1 Hf]
    by (eexists; vm_compute; reflexivity).
  destruct (Find_again_gives_a_new_object Ref.env_ok Ref.sites "acme" _ _ _ Hf)
    as (c' & w2 & _ & Hf2 & _ & Hh & _).
  exists w1, w2, c'. split; [exact Hf|]. split; [exact Hf2|exact Hh].
Defined.


(** ** The constructors *)

Lemma strip_prefix_spec pre s t :
  os.strip_prefix pre s = Some t <-> s = pre +:+ t.
Proof.
  revert s. induction pre as [|a pre IH]; intros s.
  - change ("" +:+ t) with t. destruct s; simpl; split; congruence.
  - destruct s as [|b s]; [rewrite append_cons; split; discriminate|].
    rewrite append_cons. simpl. destruct (Ascii.eqb_spec a b) as [->|Hab].
    + rewrite IH. split; congruence.
    + split; [discriminate|congruence].
Qed.

Lemma entry_name_spec dirname path n :
  os.entry_name dirname path = Some n <->
  plain_name n = true /\ path = entry_path dirname n.
Proof.
  unfold os.entry_name, entry_path.
  destruct (os.strip_prefix _ path) as [name|] eqn:Hs.
  - apply strip_prefix_spec in Hs. fold (no_sep name).
    change (negb (String.eqb name "") && negb (String.eqb name ".")
            && negb (String.eqb name "..") && no_sep name)
      with (plain_name name).
    destruct (plain_name name) eqn:Hp.
    + split.
      * intros E. injection E as <-. now split.
      * intros [_ E]. rewrite Hs in E. f_equal.
        revert E. generalize (if String.eqb dirname "/" then "/" else dirname +:+ "/").
        intros pre. induction pre as [|a pre IH]; [now intros|].
        rewrite !append_cons. intros E. injection E as E. now apply IH.
    + split; [discriminate|]. intros [Hn E]. rewrite Hs in E.
      assert (name = n) as <-; [|congruence].
      revert E. generalize (if String.eqb dirname "/" then "/" else dirname +:+ "/").
      intros pre. induction pre as [|a pre IH]; [now intros|].
      rewrite !append_cons. intros E. injection E as E. now apply IH.
  - split; [discriminate|]. intros [_ E].
    apply strip_prefix_spec in E. congruence.
Qed.

(** The entries that [ioutil.ReadDir] returns: the names of one path
    element at which the directory holds a node. *)
Lemma ReadDirNames_elem (d : gmap string node) dirname n :
  n ∈ fst (os.ReadDirNames d dirname) <->
  os.ReadDir d dirname = None /\ plain_name n = true /\
  is_Some (d !! entry_path dirname n).
Proof.
  unfold os.ReadDirNames. destruct (os.ReadDir d dirname) as [e|].
  - simpl. split; [intros H; inversion H|intros [? _]; discriminate].
  - simpl. rewrite merge_sort_Permutation, list_elem_of_omap. split.
    + intros ([k v] & Hin & He). apply elem_of_map_to_list in Hin.
      simpl in He. apply entry_name_spec in He as [Hp ->]. eauto.
    + intros (_ & Hp & [v Hv]). exists (entry_path dirname n, v). split.
      * now apply elem_of_map_to_list.
      * apply entry_name_spec. now split.
Qed.

Lemma ReadDirNames_err (d : gmap string node) dirname :
  snd (os.ReadDirNames d dirname) = os.ReadDir d dirname.
Proof. unfold os.ReadDirNames. now destruct (os.ReadDir d dirname). Qed.

Lemma cache_fold dirs (ts : ThemeStore.t) :
  let ts' := fold_left (fun ts d => ThemeStore.mk (<[d := mkTheme]> (ThemeStore.Themes ts))
                                                  (ThemeStore.StorePath ts)) dirs ts in
  ThemeStore.StorePath ts' = ThemeStore.StorePath ts /\
  forall n, ThemeStore.Themes ts' !! n = Some mkTheme <->
            n ∈ dirs \/ ThemeStore.Themes ts !! n = Some mkTheme.
Proof.
  revert ts. induction dirs as [|d dirs IH]; intros ts; simpl.
  - split; [reflexivity|]. intros n. split; [now right|].
    intros [H|H]; [inversion H|exact H].
  - destruct (IH (ThemeStore.mk (<[d := mkTheme]> (ThemeStore.Themes ts))
                                (ThemeStore.StorePath ts))) as [Hp Hn].
    split; [exact Hp|]. intros n. rewrite Hn. simpl.
    rewrite elem_of_cons, lookup_insert_Some. split.
    + intros [H|[[-> _]|[_ H]]]; auto.
    + intros [[->|H]|H]; auto.
      destruct (decide (d = n)) as [->|Hne]; auto.
Qed.

Lemma Mkdir_lookup_ne (d : gmap string node) name p :
  p <> name -> fst (os.Mkdir d name) !! p = d !! p.
Proof.
  intros Hne. unfold os.Mkdir. destruct (d !! name); [reflexivity|].
  destruct (d !! filepath.Dir name) as [[[]|]|]; simpl; try reflexivity.
  now rewrite lookup_insert_ne.
Qed.

Lemma Mkdir_lookup (d : gmap string node) name :
  fst (os.Mkdir d name) !! name =
  match d !! name with
  | Some x => Some x
  | None => match d !! filepath.Dir name with
            | Some (DirNode true) => Some (DirNode true)
            | _ => None
            end
  end.
Proof.
  unfold os.Mkdir. destruct (d !! name) eqn:Hn; [exact Hn|].
  destruct (d !! filepath.Dir name) as [[[]|]|]; simpl; try exact Hn.
  apply lookup_insert_eq.
Qed.

Lemma ensured_lookup_ne d root p : p <> root -> ensured d root !! p = d !! p.
Proof.
  intros Hne. unfold ensured. destruct (os.ReadDir d root); [|reflexivity].
  now apply Mkdir_lookup_ne.
Qed.

Lemma ensured_lookup d root :
  ensured d root !! root =
  match d !! root with
  | Some x => Some x
  | None => match d !! filepath.Dir root with
            | Some (DirNode true) => Some (DirNode true)
            | _ => None
            end
  end.
Proof.
  unfold ensured. destruct (os.ReadDir d root) eqn:Hd; [apply Mkdir_lookup|].
  apply ReadDir_None_iff in Hd. now rewrite Hd.
Qed.

Lemma ensured_keeps d root p x : d !! p = Some x -> ensured d root !! p = Some x.
Proof.
  intros Hp. destruct (decide (p = root)) as [->|Hne].
  - now rewrite ensured_lookup, Hp.
  - now rewrite ensured_lookup_ne.
Qed.

Lemma NewSiteStore_spec ts w :
  NewSiteStore ts w =
  Some (SiteStore.mk ∅ defaultSiteStorePath ts,
        set_fs (ensured (fs w) defaultSiteStorePath)
          match os.ReadDir (fs w) defaultSiteStorePath with
          | Some _ => add_log (WarnLevel, "Site store path doesn't exist, creating.") w
          | None => w
          end).
Proof.
  unfold NewSiteStore, ensured, ReadDir, Mkdir, log.Warning, bind, ret. simpl.
  destruct (os.ReadDir (fs w) defaultSiteStorePath); [reflexivity|].
  now destruct w.
Qed.

Lemma NewThemeStore_spec w :
  NewThemeStore w =
  let dirs := fst (os.ReadDirNames (fs w) defaultThemeStorePath) in
  let w0 := add_log (InfoLevel, "Initializing the theme store.") w in
  let w1 := set_fs (ensured (fs w) defaultThemeStorePath)
              match os.ReadDir (fs w) defaultThemeStorePath with
              | Some _ =>
                  add_log (WarnLevel, "Theme store path doesn't exist, creating.") w0
              | None => w0
              end in
  Some (fold_left (fun ts d => ThemeStore.mk (<[d := mkTheme]> (ThemeStore.Themes ts))
                                             (ThemeStore.StorePath ts))
                  dirs (ThemeStore.mk ∅ defaultThemeStorePath),
        if Nat.eqb (length dirs) 0 then add_log (InfoLevel, "No themes found.") w1
        else w1).
Proof.
  unfold NewThemeStore, ensured, ReadDirNames, Mkdir, log.Warning, log.Info, bind, ret.
  simpl.
  pose proof (ReadDirNames_err (fs w) defaultThemeStorePath) as Herr.
  destruct (os.ReadDirNames (fs w) defaultThemeStorePath) as [dirs err]. simpl in *.
  subst err. destruct (os.ReadDir (fs w) defaultThemeStorePath); simpl;
    destruct (Nat.eqb (length dirs) 0); reflexivity.
Qed.

Lemma ReadDir_ext (d d' : gmap string node) p :
  d !! p = d' !! p -> os.ReadDir d p = os.ReadDir d' p.
Proof. intros H. unfold os.ReadDir. now rewrite H. Qed.

Lemma ReadFile_ext (d d' : gmap string node) p :
  d !! p = d' !! p -> os.ReadFile d p = os.ReadFile d' p.
Proof. intros H. unfold os.ReadFile. now rewrite H. Qed.

(** What [NewThemeStore] returns and leaves. *)
Lemma NewThemeStore_summary w :
  exists ts w',
    NewThemeStore w = Some (ts, w') /\
    ThemeStore.StorePath ts = "/tmp/themes" /\
    (forall n,
       ThemeStore.Themes ts !! n = Some mkTheme <->
       fs w !! "/tmp/themes" = Some (DirNode true) /\ plain_name n = true /\
       is_Some (fs w !! ("/tmp/themes/" +:+ n))) /\
    logs w' = logs w ++
      (InfoLevel, "Initializing the theme store.") ::
      match os.ReadDir (fs w) "/tmp/themes" with
      | Some _ => [(WarnLevel, "Theme store path doesn't exist, creating.")]
      | None => []
      end ++
      (if bool_decide (ThemeStore.Themes ts = ∅)
       then [(InfoLevel, "No themes found.")] else []) /\
    heap w' = heap w /\ calls w' = calls w /\
    fs w' = ensured (fs w) "/tmp/themes".
Proof.
  rewrite NewThemeStore_spec. cbv zeta.
  set (dirs := fst (os.ReadDirNames (fs w) defaultThemeStorePath)).
  destruct (cache_fold dirs (ThemeStore.mk ∅ defaultThemeStorePath)) as [Hp Hn].
  cbv zeta in Hp, Hn.
  assert (forall (b : bool) (x y : World) (P : World -> Prop),
            P x -> P y -> P (if b then x else y)) as Hif by (intros []; auto).
  eexists _, _. split; [reflexivity|]. split; [exact Hp|]. split; [|split].
  - intros n. rewrite Hn. unfold dirs. rewrite ReadDirNames_elem, ReadDir_None_iff.
    change (entry_path defaultThemeStorePath n) with ("/tmp/themes/" +:+ n).
    simpl ThemeStore.Themes. rewrite lookup_empty. split.
    + intros [H|H]; [exact H|discriminate].
    + intros H. now left.
  - assert (bool_decide
              (ThemeStore.Themes
                 (fold_left
                    (fun ts d => ThemeStore.mk (<[d := mkTheme]> (ThemeStore.Themes ts))
                                               (ThemeStore.StorePath ts))
                    dirs (ThemeStore.mk ∅ defaultThemeStorePath)) = ∅)
            = Nat.eqb (length dirs) 0) as ->.
    { destruct dirs as [|d dirs']; [reflexivity|].
      apply bool_decide_eq_false. intros E.
      assert (d ∈ d :: dirs') as Hin by (apply elem_of_cons; now left).
      pose proof (proj2 (Hn d) (or_introl Hin)) as Hd.
      rewrite E, lookup_empty in Hd. discriminate. }
    change defaultThemeStorePath with "/tmp/themes".
    destruct (os.ReadDir (fs w) "/tmp/themes"), (Nat.eqb (length dirs) 0); simpl;
      rewrite <- ?app_assoc; reflexivity.
  - change defaultThemeStorePath with "/tmp/themes".
    split; [apply Hif; now destruct (os.ReadDir _ _)|].
    split; [apply Hif; now destruct (os.ReadDir _ _)|].
    apply Hif; reflexivity.
Qed.

(** X12.  [NewThemeStore] always returns a store at [/tmp/themes], and
    its cache holds one entry for each entry of that directory, whatever
    the entry is: a name is cached exactly when the directory can be read
    and holds a node of that name, a regular file as well as a directory.
    The log tells that no themes were found exactly when the cache is
    empty, which includes the case of a directory that could not be
    read. *)
Theorem NewThemeStore_caches_every_entry w :
  exists ts w',
    NewThemeStore w = Some (ts, w') /\
    ThemeStore.StorePath ts = "/tmp/themes" /\
    (forall n,
       ThemeStore.Themes ts !! n = Some mkTheme <->
       fs w !! "/tmp/themes" = Some (DirNode true) /\ plain_name n = true /\
       is_Some (fs w !! ("/tmp/themes/" +:+ n))) /\
    logs w' = logs w ++
      (InfoLevel, "Initializing the theme store.") ::
      match os.ReadDir (fs w) "/tmp/themes" with
      | Some _ => [(WarnLevel, "Theme store path doesn't exist, creating.")]
      | None => []
      end ++
      (if bool_decide (ThemeStore.Themes ts = ∅)
       then [(InfoLevel, "No themes found.")] else []).
Proof.
  destruct (NewThemeStore_summary w) as (ts & w' & Hnew & Hp & Hcache & Hlogs & _).
  now exists ts, w'.
Qed.

(** X13.  [NewSiteStore] always returns a store at [/tmp/sites] over the
    theme store it is given, with an empty cache.  It changes nothing on
    the disk but its root, and there it replaces nothing: a root that can
    be read is left alone; otherwise a warning is logged and the root is
    made when nothing is at its path and [/tmp] is an open directory.  In
    the other cases (a file or a closed directory at the root, no
    [/tmp]) the store is returned all the same, on a root that cannot be
    read. *)
Theorem NewSiteStore_makes_its_root_when_it_can ts w :
  exists w',
    NewSiteStore ts w = Some (SiteStore.mk ∅ "/tmp/sites" ts, w') /\
    heap w' = heap w /\ calls w' = calls w /\
    (forall p, p <> "/tmp/sites" -> fs w' !! p = fs w !! p) /\
    fs w' !! "/tmp/sites" =
      match fs w !! "/tmp/sites" with
      | Some x => Some x
      | None => match fs w !! "/tmp" with
                | Some (DirNode true) => Some (DirNode true)
                | _ => None
                end
      end /\
    logs w' = logs w ++
      match os.ReadDir (fs w) "/tmp/sites" with
      | Some _ => [(WarnLevel, "Site store path doesn't exist, creating.")]
      | None => []
      end.
Proof.
  rewrite NewSiteStore_spec. eexists. split; [reflexivity|].
  change defaultSiteStorePath with "/tmp/sites".
  split; [now destruct (os.ReadDir _ _)|]. split; [now destruct (os.ReadDir _ _)|].
  split; [intros p Hp; simpl; now apply ensured_lookup_ne|].
  split; [simpl; apply ensured_lookup|].
  destruct (os.ReadDir _ _); simpl; [reflexivity|now rewrite app_nil_r].
Qed.

(** X14.  [NewThemeStore] does the same to the disk at [/tmp/themes]:
    nothing elsewhere, nothing to a node that is at the root, and a new
    directory at the root when nothing is there and [/tmp] is an open
    directory.  It starts no command and allocates no config. *)
Theorem NewThemeStore_makes_its_root_when_it_can w :
  exists ts w',
    NewThemeStore w = Some (ts, w') /\
    heap w' = heap w /\ calls w' = calls w /\
    (forall p, p <> "/tmp/themes" -> fs w' !! p = fs w !! p) /\
    fs w' !! "/tmp/themes" =
      match fs w !! "/tmp/themes" with
      | Some x => Some x
      | None => match fs w !! "/tmp" with
                | Some (DirNode true) => Some (DirNode true)
                | _ => None
                end
      end.
Proof.
  destruct (NewThemeStore_summary w) as (ts & w' & Hnew & _ & _ & _ & Hh & Hc & Hfs).
  exists ts, w'. split; [exact Hnew|]. split; [exact Hh|]. split; [exact Hc|].
  rewrite Hfs. split; [intros p Hp; now apply ensured_lookup_ne|apply ensured_lookup].
Qed.

(** X15.  On a theme directory that can be read, every theme that
    [ThemeStore.Find] finds right after the constructor is in the cache
    the constructor filled; the cache holds more: [Find] is present for a
    cached name exactly when the entry is a directory that can be read. *)
Theorem NewThemeStore_then_Find w ts w' n :
  NewThemeStore w = Some (ts, w') ->
  fs w !! "/tmp/themes" = Some (DirNode true) ->
  plain_name n = true ->
  (ThemeStore.Find ts n w' = Some (Some mkTheme, w') <->
   ThemeStore.Themes ts !! n = Some mkTheme /\
   fs w !! ("/tmp/themes/" +:+ n) = Some (DirNode true)) /\
  (ThemeStore.Find ts n w' = Some (Some mkTheme, w') \/
   ThemeStore.Find ts n w' = Some (None, w')).
Proof.
  intros Hnew Hroot Hn.
  destruct (NewThemeStore_summary w)
    as (ts0 & w0 & Hnew0 & Hp & Hcache & _ & _ & _ & Hfs).
  rewrite Hnew in Hnew0. injection Hnew0 as <- <-.
  rewrite ThemeStore_Find_spec, Hp.
  assert (filepath.Join ["/tmp/themes"; n] = "/tmp/themes/" +:+ n) as ->
    by (rewrite Join_child by (reflexivity || assumption); reflexivity).
  assert (fs w' !! ("/tmp/themes/" +:+ n) = fs w !! ("/tmp/themes/" +:+ n)) as Hsame.
  { rewrite Hfs. apply ensured_lookup_ne. intros E.
    apply (f_equal String.length) in E.
    rewrite append_length in E. simpl in E. lia. }
  pose proof (ReadDir_None_iff (fs w') ("/tmp/themes/" +:+ n)) as Hd.
  rewrite Hsame in Hd.
  destruct (os.ReadDir (fs w') ("/tmp/themes/" +:+ n)) as [e|].
  - split; [|now right]. split; [discriminate|].
    intros [_ H]. apply Hd in H. discriminate.
  - split; [|now left]. split; [|reflexivity]. intros _.
    assert (fs w !! ("/tmp/themes/" +:+ n) = Some (DirNode true)) as Hdir by now apply Hd.
    split; [|exact Hdir]. apply Hcache. rewrite Hdir. eauto.
Qed.

Lemma NewThemeStore_then_Find_witness :
  exists ts w',
    NewThemeStore (Ref.start Ref.disk_themes) = Some (ts, w') /\
    ThemeStore.Themes ts !! "README" = Some mkTheme /\
    ThemeStore.Find ts "README" w' = Some (None, w') /\
    ThemeStore.Themes ts !! "ananke" = Some mkTheme /\
    ThemeStore.Find ts "ananke" w' = Some (Some mkTheme, w').
Proof.
  destruct (NewThemeStore (Ref.start Ref.disk_themes)) as [[ts w']|] eqn:Hnew;
    [|vm_compute in Hnew; discriminate].
  destruct (NewThemeStore_then_Find _ _ _ "README" Hnew eq_refl eq_refl) as [Hr Hr'].
  destruct (NewThemeStore_then_Find _ _ _ "ananke" Hnew eq_refl eq_refl) as [Ha _].
  assert (ThemeStore.Themes ts !! "README" = Some mkTheme /\
          ThemeStore.Themes ts !! "ananke" = Some mkTheme) as [Hc1 Hc2]
    by (vm_compute in Hnew; injection Hnew as <- _; split; vm_compute; reflexivity).
  exists ts, w'. split; [reflexivity|]. split; [exact Hc1|]. split.
  - destruct Hr' as [Hp|Ha']; [|exact Ha'].
    apply Hr in Hp as [_ Hp]. vm_compute in Hp. discriminate.
  - split; [exact Hc2|]. apply Ha. split; [exact Hc2|]. vm_compute. reflexivity.
Defined.

(** ** [main] *)

Section MainProgram.

Variable env : Env.

(** [main] up to the lookup of the sample site: the stores are at their
    default roots, the disk is as the two constructors left it, and the
    heap holds the sample config. *)
Lemma main_unfold w :
  exists ss wb,
    SiteStore.SitePath ss = "/tmp/sites" /\
    fs wb = ensured (ensured (fs w) "/tmp/themes") "/tmp/sites" /\
    heap wb = heap w ++ [Ref.siteConfig] /\
    calls wb = calls w /\
    main env w =
      match SiteStore.Find env ss "myorgid" wb with
      | Some (Some site, we) =>
          match Build env site we with
          | Some (_, wf) => Some (tt, wf)
          | None => None
          end
      | _ => None
      end.
Proof.
  unfold main, bind, log.Info, alloc, deref, panic, ret.
  destruct (NewThemeStore_summary
              (add_log (InfoLevel, "Initializing the stores")
                 (add_log (InfoLevel, "Hugo Site Manager") w)))
    as (ts & wa & Hnew & _ & _ & _ & Hh & Hc & Hfs).
  rewrite Hnew, NewSiteStore_spec. cbn [heap add_log set_heap set_fs].
  set (wx := match os.ReadDir (fs wa) defaultSiteStorePath with
             | Some _ => add_log (WarnLevel, "Site store path doesn't exist, creating.") wa
             | None => wa
             end).
  assert (heap wx = heap w /\ calls wx = calls w /\ fs wx = fs wa) as (Hxh & Hxc & Hxf)
    by (unfold wx; destruct (os.ReadDir _ _); simpl; rewrite Hh, Hc; now repeat split).
  fold Ref.siteConfig.
  rewrite list_lookup_middle by reflexivity.
  cbn [SiteConfig.ID Ref.siteConfig].
  exists (SiteStore.mk ∅ defaultSiteStorePath ts),
         (set_heap (heap wx ++ [Ref.siteConfig])
            (add_log (InfoLevel, "Creating a sample site")
               (set_fs (ensured (fs wa) defaultSiteStorePath) wx))).
  split; [reflexivity|]. split; [simpl; now rewrite Hfs|].
  split; [simpl; now rewrite Hxh|]. split; [exact Hxc|].
  destruct (SiteStore.Find env _ "myorgid" _) as [[[site|] we]|]; reflexivity.
Qed.

Lemma main_disk (d : gmap string node) p :
  p <> "/tmp/themes" -> p <> "/tmp/sites" ->
  ensured (ensured d "/tmp/themes") "/tmp/sites" !! p = d !! p.
Proof. intros H1 H2. now rewrite !ensured_lookup_ne. Qed.

(** X16.  [main] looks up the site [myorgid] and builds what it gets
    without looking at it: it returns exactly when the directory
    [/tmp/sites/myorgid] can be read and the file
    [/tmp/sites/myorgid/config.toml] decodes, and panics on the nil
    [Site] otherwise, as on a machine where no site was created. *)
Theorem main_returns_iff w :
  main env w <> None <->
  fs w !! "/tmp/sites/myorgid" = Some (DirNode true) /\
  exists text kvs,
    fs w !! "/tmp/sites/myorgid/config.toml" = Some (FileNode true text) /\
    toml_decode env SiteConfig.toml_names text = inr kvs.
Proof.
  destruct (main_unfold w) as (ss & wb & Hroot & Hfs & Hheap & _ & ->).
  pose proof (Find_spec env ss "myorgid" wb) as Hfind. cbv zeta in Hfind.
  unfold config_path in Hfind. rewrite Hroot in Hfind.
  change (filepath.Join ["/tmp/sites"; "myorgid"]) with "/tmp/sites/myorgid" in Hfind.
  change (filepath.Join ["/tmp/sites/myorgid"; "config.toml"])
    with "/tmp/sites/myorgid/config.toml" in Hfind.
  rewrite (ReadDir_ext (fs wb) (fs w) "/tmp/sites/myorgid") in Hfind
    by (rewrite Hfs; now apply main_disk).
  rewrite (ReadFile_ext (fs wb) (fs w) "/tmp/sites/myorgid/config.toml") in Hfind
    by (rewrite Hfs; now apply main_disk).
  rewrite Hfind. clear Hfind.
  pose proof (ReadDir_None_iff (fs w) "/tmp/sites/myorgid") as Hd.
  destruct (os.ReadDir (fs w) "/tmp/sites/myorgid") as [e0|].
  { split; [congruence|]. intros [H _]. apply Hd in H. discriminate. }
  destruct (os.ReadFile (fs w) "/tmp/sites/myorgid/config.toml") as [e0|text] eqn:Hf.
  { split; [congruence|]. intros (_ & text & kvs & H & _).
    apply ReadFile_inr_iff in H. congruence. }
  destruct (toml_decode env SiteConfig.toml_names text) as [e0|kvs] eqn:Ht.
  { split; [congruence|]. intros (_ & text' & kvs & H & Hk).
    apply ReadFile_inr_iff in H. congruence. }
  erewrite Build_spec by (simpl; now apply list_lookup_middle). cbv zeta.
  split; [|discriminate]. intros _. split; [now apply Hd|].
  exists text, kvs. split; [now apply ReadFile_inr_iff|exact Ht].
Qed.

(** X17.  When [main] returns it has started one command, [hugo] without
    arguments in [/tmp/sites/myorgid], on a disk that differs from the
    one it found at most at the two store roots: the call of [Create] is
    commented out, so [main] clones nothing, scaffolds nothing and writes
    no file.  The sample config it made is on the heap as it was made; the
    site that was built has the config decoded from the file, without
    ID. *)
Theorem main_builds_the_site_that_is_there w w' :
  main env w = Some (tt, w') ->
  exists d c',
    (forall p, p <> "/tmp/themes" -> p <> "/tmp/sites" -> d !! p = fs w !! p) /\
    calls w' = calls w ++ [exec.mkCmd "hugo" ["hugo"] "/tmp/sites/myorgid"] /\
    fs w' = exec.run_fs (exec_run env (exec.mkCmd "hugo" ["hugo"] "/tmp/sites/myorgid")
                                  (calls w) d) /\
    heap w' = heap w ++ [Ref.siteConfig; c'] /\
    SiteConfig.SitePath c' = "/tmp/sites/myorgid" /\
    SiteConfig.ID c' = "".
Proof.
  destruct (main_unfold w) as (ss & wb & Hroot & Hfs & Hheap & Hcalls & ->).
  pose proof (Find_spec env ss "myorgid" wb) as Hfind. cbv zeta in Hfind.
  rewrite Hroot in Hfind.
  change (filepath.Join ["/tmp/sites"; "myorgid"]) with "/tmp/sites/myorgid" in Hfind.
  rewrite Hfind. clear Hfind.
  destruct (os.ReadDir (fs wb) "/tmp/sites/myorgid") as [e0|]; [discriminate|].
  destruct (os.ReadFile (fs wb) _) as [e0|text]; [discriminate|].
  destruct (toml_decode env SiteConfig.toml_names text) as [e0|kvs]; [discriminate|].
  erewrite Build_spec by (simpl; now apply list_lookup_middle). cbv zeta.
  intros E. injection E as <-.
  exists (fs wb). eexists.
  split; [intros p H1 H2; rewrite Hfs; now apply main_disk|].
  split; [simpl; now rewrite Hcalls|].
  split; [simpl; now rewrite Hcalls|].
  split; [simpl; rewrite Hheap, <- app_assoc; reflexivity|].
  split; [reflexivity|].
  now destruct (set_fields_untagged kvs SiteConfig.zero) as (Hid & _).
Qed.

End MainProgram.

Lemma main_builds_the_site_that_is_there_witness :
  main Ref.env_ok (Ref.start Ref.disk_bare) = None /\
  exists w',
    main Ref.env_ok (Ref.start Ref.disk_site) = Some (tt, w') /\
    calls w' = [exec.mkCmd "hugo" ["hugo"] "/tmp/sites/myorgid"] /\
    exists c', heap w' = [Ref.siteConfig; c'] /\ SiteConfig.ID c' = "".
Proof.
  split; [vm_compute; reflexivity|].
  destruct (main Ref.env_ok (Ref.start Ref.disk_site)) as [[[] w']|] eqn:Hm;
    [|vm_compute in Hm; discriminate].
  destruct (main_builds_the_site_that_is_there Ref.env_ok _ _ Hm)
    as (d & c' & _ & Hcalls & _ & Hheap & _ & Hid).
  exists w'. split; [reflexivity|]. split; [exact Hcalls|].
  exists c'. split; [exact Hheap|exact Hid].
Defined.

(** ** A config without ID *)

Lemma Clean_trailing_sep y : y <> "" -> filepath.Clean (y +:+ "/") = filepath.Clean y.
Proof.
  intros Hy. apply Clean_same_stack; [destruct y; [congruence|discriminate]|exact Hy| |].
  - now rewrite rooted_app.
  - now rewrite (stack_app_sep _ "" Hy).
Qed.

Lemma Join_root_empty root : clean_root root = true -> filepath.Join [root; ""] = root.
Proof.
  intros Hroot. destruct (clean_root_spec _ Hroot) as (Hnil & _).
  rewrite (Join_two _ _ Hnil), (Clean_trailing_sep _ Hnil).
  now apply clean_root_Clean.
Qed.

Section EmptyID.

Variable env : Env.
Variable s : SiteStore.t.

(** X18.  An empty ID is taken as it is.  With a config whose ID is
    empty, as the config of a [Site] that [Find] returned is, [Create]
    under a clean absolute root lays the site out at the store root
    itself: the root directory of the config is the store root, its
    content, layout and publish directories are directly below it, the
    staged file is [.toml] in the store root and the config file goes to
    [config.toml] in the store root. *)
Theorem Create_with_an_empty_ID_takes_the_store_root l c w w1 :
  clean_root (SiteStore.SitePath s) = true ->
  SiteConfig.ID c = "" ->
  heap w !! l = Some c ->
  SiteStore.resolve_theme env s (Site.mk (addr l)) w = Some (None, w1) ->
  exists res w' c',
    SiteStore.Create env s (addr l) w = Some (res, w') /\
    heap w' !! l = Some c' /\
    SiteConfig.SitePath c' = SiteStore.SitePath s /\
    SiteConfig.ContentDir c' = SiteStore.SitePath s +:+ "/content" /\
    SiteConfig.LayoutDir c' = SiteStore.SitePath s +:+ "/layout" /\
    SiteConfig.PublishDir c' = SiteStore.SitePath s +:+ "/public" /\
    staged_path s (SiteConfig.ID c) = SiteStore.SitePath s +:+ "/.toml" /\
    filepath.Join [SiteStore.SitePath s; SiteConfig.ID c; "config.toml"]
      = SiteStore.SitePath s +:+ "/config.toml".
Proof.
  intros Hroot Hid H Hres.
  destruct (Create_resolved env s _ _ _ _ H Hres) as [H1 Hcr].
  assert (heap (set_heap (<[l:=laid_out s c]> (heap w1)) w1) !! l = Some (laid_out s c))
    as H2 by (simpl; eapply lookup_updated; eassumption).
  destruct (persist_and_scaffold_total env s _ _ _ H2) as (res & w' & Hp & Hh & _).
  exists res, w', (laid_out s c). split; [now rewrite Hcr|].
  split; [now rewrite Hh|].
  unfold laid_out, staged_path.
  cbn [SiteConfig.SitePath SiteConfig.ContentDir SiteConfig.LayoutDir
       SiteConfig.PublishDir SiteConfig.set_SitePath SiteConfig.set_PublishDir
       SiteConfig.set_LayoutDir SiteConfig.set_ContentDir SiteConfig.set_ThemesDir].
  rewrite Hid, <- Join_Join, (Join_root_empty _ Hroot).
  change ("" +:+ ".toml") with ".toml".
  rewrite !Join_child by (reflexivity || assumption).
  repeat split.
Qed.

End EmptyID.

Lemma Create_with_an_empty_ID_takes_the_store_root_witness :
  exists res w' c',
    SiteStore.Create Ref.env_ok Ref.sites (addr 0)
      (Ref.world Ref.siteConfig_no_ID Ref.disk_themes) = Some (res, w') /\
    heap w' !! 0 = Some c' /\
    SiteConfig.SitePath c' = "/tmp/sites" /\
    SiteConfig.ContentDir c' = "/tmp/sites/content".
Proof.
  edestruct (Create_with_an_empty_ID_takes_the_store_root Ref.env_ok Ref.sites 0
               Ref.siteConfig_no_ID (Ref.world Ref.siteConfig_no_ID Ref.disk_themes))
    as (res & w' & c' & Hc & Hh & Hsp & Hcd & _).
  - reflexivity.
  - reflexivity.
  - reflexivity.
  - vm_compute. reflexivity.
  - exists res, w', c'. repeat split; assumption.
Defined.

(** ** What a failed scaffold run leaves *)

Section NoCleanup.

Variable env : Env.
Variable s : SiteStore.t.

(** X19.  [Create] undoes nothing.  When the scaffold run fails, the
    disk [Create] leaves is the disk the run left, which the engine was
    given with the staged config file on it: with an engine that leaves
    the disk alone when it fails, the staged file stays in the store root
    with the encoded config in it, next to a theme that was fetched. *)
Theorem Create_does_not_clean_up_after_a_failed_scaffold l c w w1 buf e :
  heap w !! l = Some c ->
  SiteStore.resolve_theme env s (Site.mk (addr l)) w = Some (None, w1) ->
  toml_encode env (SiteConfig.toml_fields (laid_out s c)) = inr buf ->
  snd (os.WriteFile (fs w1) (staged_path s (SiteConfig.ID c)) buf) = None ->
  exec.run_err (scaffold_run env s (laid_out s c) buf w1) = Some e ->
  exists w',
    SiteStore.Create env s (addr l) w = Some ((None, Some e), w') /\
    fs w' = exec.run_fs (scaffold_run env s (laid_out s c) buf w1) /\
    (exec.run_fs (scaffold_run env s (laid_out s c) buf w1)
     = fst (os.WriteFile (fs w1) (staged_path s (SiteConfig.ID c)) buf) ->
     fs w' !! staged_path s (SiteConfig.ID c) = Some (FileNode true buf) /\
     forall p perm, fs w1 !! p = Some (DirNode perm) -> fs w' !! p = Some (DirNode perm)).
Proof.
  intros H Hres He Hw Hr.
  destruct (Create_resolved env s _ _ _ _ H Hres) as [H1 Hcr].
  set (w2 := set_heap (<[l:=laid_out s c]> (heap w1)) w1) in *.
  assert (heap w2 !! l = Some (laid_out s c)) as H2
    by (unfold w2; simpl; eapply lookup_updated; eassumption).
  pose proof (persist_run_err env s l _ w2 buf e H2 He Hw Hr) as Hp.
  rewrite <- Hcr in Hp.
  eexists. split; [exact Hp|]. split; [reflexivity|].
  intros Hsame. simpl.
  change (scaffold_run env s (laid_out s c) buf w2)
    with (scaffold_run env s (laid_out s c) buf w1).
  rewrite Hsame. split; [now apply WriteFile_ok_lookup|].
  intros p perm Hp'. now apply WriteFile_keeps_dir.
Qed.

End NoCleanup.

Lemma Create_does_not_clean_up_after_a_failed_scaffold_witness :
  exists e w' text,
    SiteStore.Create Ref.env_hugo_fails Ref.sites (addr 0) Ref.fresh_world
      = Some ((None, Some e), w') /\
    fs w' !! "/tmp/sites/myorgid.toml" = Some (FileNode true text) /\
    fs w' !! "/tmp/themes/ananke" = Some (DirNode true).
Proof.
  edestruct (Create_does_not_clean_up_after_a_failed_scaffold Ref.env_hugo_fails
               Ref.sites 0 Ref.siteConfig Ref.fresh_world)
    as (w' & Hc & Hfs & Hleft).
  - reflexivity.
  - vm_compute. reflexivity.
  - vm_compute. reflexivity.
  - vm_compute. reflexivity.
  - vm_compute. reflexivity.
  - destruct Hleft as [Hfile Hdirs]; [vm_compute; reflexivity|].
    eexists _, w', _. split; [exact Hc|]. split; [exact Hfile|].
    apply Hdirs. vm_compute. reflexivity.
Defined.
